(** * Kaspersky DDoS Prevention metrics exporter: [handler.py]

    A shallow embedding of [Collector] (src/kdp-exporter/handler.py) and
    the properties of its request signing, resource resolution, scrape
    orchestration and measured-parameter classification. *)

From Stdlib Require Import ZArith QArith Qround Lqa String Ascii List Lia.
From Stdlib Require Import DecimalString DecimalZ DecimalPos.
From stdpp Require Import base list strings.

Local Open Scope string_scope.
Local Open Scope list_scope.
Local Open Scope Z_scope.

(** ** Python values that travel through the exporter *)

(** A value handed to [add_metric]: the SOAP layer yields integers,
    decimal numbers, strings or [None]; the exporter never computes with
    them, it only passes them on. *)
Inductive pyvalue :=
| VNone
| VInt (z : Z)
| VNum (q : Q)
| VStr (s : string).

(** A positional argument of [authenticate]; [str(arg)] renders it. *)
Inductive pyarg :=
| AInt (z : Z)
| AStr (s : string).

Definition str_of_Z (z : Z) : string := NilZero.string_of_int (Z.to_int z).

Definition str (a : pyarg) : string :=
  match a with
  | AInt z => str_of_Z z
  | AStr s => s
  end.

(** ** The time bucket of [authenticate] *)

Module Signer.

(** Python's [round(x, 0)]: to the nearest integer, ties to the even one. *)
Definition py_round (x : Q) : Z :=
  let f := Qfloor x in
  let d := (x - inject_Z f)%Q in
  match (d ?= 1 # 2)%Q with
  | Lt => f
  | Gt => f + 1
  | Eq => if Z.even f then f else f + 1
  end.

(** [unix_time = int(600 * (int(round(time() / 600,0))))], the clock
    reading [t] taken as an exact rational number of seconds.  The
    floating-point quotient can only round differently for a reading
    within rounding error of the middle of an interval. *)
Definition unix_time (t : Q) : Z := 600 * py_round (t / 600).

(** What the docstring of [authenticate] and the specification describe:
    the clock rounded down to a multiple of 600 seconds. *)
Definition floor_bucket (t : Q) : Z := 600 * Qfloor (t / 600).

End Signer.

(** ** [hashlib.md5(...).hexdigest()]

    The digest of RFC 1321 over 32-bit words held in [Z], with the
    wrap-around written out.  A [string] stands for the UTF-8 bytes of
    the Python string it models. *)

Module MD5.

Definition mask32 (x : Z) : Z := Z.land x 0xffffffff.

Definition add32 (x y : Z) : Z := mask32 (x + y).

Definition not32 (x : Z) : Z := Z.lxor x 0xffffffff.

Definition rotl32 (x : Z) (c : Z) : Z :=
  mask32 (Z.lor (Z.shiftl x c) (Z.shiftr x (32 - c))).

Definition shifts : list Z :=
  [7; 12; 17; 22; 7; 12; 17; 22; 7; 12; 17; 22; 7; 12; 17; 22;
   5;  9; 14; 20; 5;  9; 14; 20; 5;  9; 14; 20; 5;  9; 14; 20;
   4; 11; 16; 23; 4; 11; 16; 23; 4; 11; 16; 23; 4; 11; 16; 23;
   6; 10; 15; 21; 6; 10; 15; 21; 6; 10; 15; 21; 6; 10; 15; 21].

Definition sines : list Z :=
  [0xd76aa478; 0xe8c7b756; 0x242070db; 0xc1bdceee;
   0xf57c0faf; 0x4787c62a; 0xa8304613; 0xfd469501;
   0x698098d8; 0x8b44f7af; 0xffff5bb1; 0x895cd7be;
   0x6b901122; 0xfd987193; 0xa679438e; 0x49b40821;
   0xf61e2562; 0xc040b340; 0x265e5a51; 0xe9b6c7aa;
   0xd62f105d; 0x02441453; 0xd8a1e681; 0xe7d3fbc8;
   0x21e1cde6; 0xc33707d6; 0xf4d50d87; 0x455a14ed;
   0xa9e3e905; 0xfcefa3f8; 0x676f02d9; 0x8d2a4c8a;
   0xfffa3942; 0x8771f681; 0x6d9d6122; 0xfde5380c;
   0xa4beea44; 0x4bdecfa9; 0xf6bb4b60; 0xbebfbc70;
   0x289b7ec6; 0xeaa127fa; 0xd4ef3085; 0x04881d05;
   0xd9d4d039; 0xe6db99e5; 0x1fa27cf8; 0xc4ac5665;
   0xf4292244; 0x432aff97; 0xab9423a7; 0xfc93a039;
   0x655b59c3; 0x8f0ccc92; 0xffeff47d; 0x85845dd1;
   0x6fa87e4f; 0xfe2ce6e0; 0xa3014314; 0x4e0811a1;
   0xf7537e82; 0xbd3af235; 0x2ad7d2bb; 0xeb86d391].

(** Bytes of a string, least significant bit first in each [ascii]. *)
Definition bytes_of (s : string) : list Z :=
  map (fun c => Z.of_N (N_of_ascii c)) (list_ascii_of_string s).

(** [n] as [k] little-endian bytes. *)
Fixpoint le_bytes (k : nat) (n : Z) : list Z :=
  match k with
  | O => []
  | S k' => Z.land n 0xff :: le_bytes k' (Z.shiftr n 8)
  end.

Fixpoint le_word (bs : list Z) : Z :=
  match bs with
  | [] => 0
  | b :: bs' => Z.lor b (Z.shiftl (le_word bs') 8)
  end.

(** Padding: a 1 bit, zeros up to 56 modulo 64, then the bit length. *)
Definition pad (bs : list Z) : list Z :=
  let len := Z.of_nat (length bs) in
  let zeros := Z.to_nat ((55 - len) mod 64) in
  bs ++ [0x80] ++ repeat 0 zeros ++ le_bytes 8 (8 * len).

Fixpoint words (n : nat) (bs : list Z) : list Z :=
  match n with
  | O => []
  | S n' => le_word (take 4 bs) :: words n' (drop 4 bs)
  end.

Fixpoint chunks (n : nat) (bs : list Z) : list (list Z) :=
  match n with
  | O => []
  | S n' => words 16 (take 64 bs) :: chunks n' (drop 64 bs)
  end.

Record regs := Regs { rA : Z; rB : Z; rC : Z; rD : Z }.

Definition round (M : list Z) (r : regs) (i : nat) : regs :=
  let '(Regs a b c d) := r in
  let iz := Z.of_nat i in
  let '(f, g) :=
    if iz <? 16 then (Z.lor (Z.land b c) (Z.land (not32 b) d), iz)
    else if iz <? 32 then
      (Z.lor (Z.land d b) (Z.land (not32 d) c), (5 * iz + 1) mod 16)
    else if iz <? 48 then (Z.lxor b (Z.lxor c d), (3 * iz + 5) mod 16)
    else (Z.lxor c (Z.lor b (not32 d)), (7 * iz) mod 16) in
  let f' := add32 (add32 (add32 f a) (nth i sines 0)) (nth (Z.to_nat g) M 0) in
  Regs d (add32 b (rotl32 f' (nth i shifts 0))) b c.

Definition process (r : regs) (M : list Z) : regs :=
  let r' := fold_left (round M) (seq 0 64) r in
  Regs (add32 (rA r) (rA r')) (add32 (rB r) (rB r'))
       (add32 (rC r) (rC r')) (add32 (rD r) (rD r')).

Definition init : regs := Regs 0x67452301 0xefcdab89 0x98badcfe 0x10325476.

Definition digest (bs : list Z) : list Z :=
  let p := pad bs in
  let r := fold_left process (chunks (length p / 64) p) init in
  le_bytes 4 (rA r) ++ le_bytes 4 (rB r) ++ le_bytes 4 (rC r) ++ le_bytes 4 (rD r).

Definition hex_digit (n : Z) : ascii :=
  nth (Z.to_nat n) (list_ascii_of_string "0123456789abcdef") "0"%char.

Fixpoint hex (bs : list Z) : string :=
  match bs with
  | [] => ""
  | b :: bs' => String (hex_digit (Z.shiftr b 4))
                  (String (hex_digit (Z.land b 0xf)) (hex bs'))
  end.

Definition hexdigest (s : string) : string := hex (digest (bytes_of s)).

End MD5.

(** ** [Collector.authenticate] *)

Record Config := {
  kdp_client_id : Z;
  kdp_user_id : Z;
  kdp_secret_key : string;
  resource_name : string;
  locale_id : Z
}.

Record ClientAuth := {
  client_id : Z;
  user_id : Z;
  hash : string
}.

(** [arg_list]: the loop [for arg in args: arg_list = arg_list + str(arg)]. *)
Definition arg_list (args : list pyarg) : string :=
  fold_left (fun acc arg => acc +:+ str arg) args "".

(** The string that is hashed, given the time bucket. *)
Definition message (cfg : Config) (method : string) (args : list pyarg)
    (bucket : Z) : string :=
  let msg := str_of_Z (kdp_client_id cfg) +:+ str_of_Z (kdp_user_id cfg)
               +:+ method +:+ arg_list args in
  msg +:+ kdp_secret_key cfg +:+ str_of_Z bucket.

(** [authenticate(method, *args)] when the clock reads [t]. *)
Definition authenticate (cfg : Config) (t : Q) (method : string)
    (args : list pyarg) : ClientAuth :=
  let unix_time := Signer.unix_time t in
  let msg := message cfg method args unix_time in
  let msg_hash := MD5.hexdigest msg in
  {| client_id := kdp_client_id cfg;
     user_id := kdp_user_id cfg;
     hash := msg_hash |}.

(** ** Records returned by the SOAP operations

    One module per record type keeps the field names of the source. *)

Module ApiVersion.
Record t := { version : string; mode : string }.
End ApiVersion.

Module Resource.
Record t := {
  id : Z;
  name : string;
  group_id : Z;
  group : string;
  internal_ip : string;
  external_ip : string;
  redirection_method_name : string
}.
End Resource.

Module ProtocolRatio.
Record t := { timestamp : string; elements : list (string * string) }.
End ProtocolRatio.

Module GeoRatio.
Record t := { country : string; value : pyvalue }.
End GeoRatio.

Module MeasuredParameter.
Record t := {
  id : Z;
  short_name : string;
  description : string;
  unit_type_name : string;
  direction : Z;
  parent_id : Z;
  check_id : Z;
  is_favourite : string
}.
End MeasuredParameter.

Module ParameterData.
Record t := {
  unit_check_id : Z;
  timestamp : string;
  type : Z;
  value : pyvalue;
  threshold : pyvalue;
  mult1 : pyvalue;
  mult2 : pyvalue
}.
End ParameterData.

Module NewIpBlocks.
Record t := { timestamp : string; new_ip_blocks : pyvalue }.
End NewIpBlocks.

Module Anomaly.
Record t := {
  id : Z;
  color : Z;
  start : string;
  last : string;
  state : string;
  measured_parameter_id : Z;
  measured_parameter_type_id : Z;
  measured_parameter_short_name : string;
  measured_parameter_units : string;
  measured_parameter_direction : string;
  max_point_timestamp : string;
  max_point_value : pyvalue;
  max_point_threshold : pyvalue;
  max_point_percentage : pyvalue
}.
End Anomaly.

Module Attack.
Record t := {
  attack_id : Z;
  attack_type : string;
  start : string;
  resource_id : Z;
  resource_name : string;
  group_id : Z;
  group_name : string;
  max_point_value_bps : pyvalue;
  max_point_value_pps : pyvalue;
  max_point_value_rps : pyvalue
}.
End Attack.

(** ** The remote service

    Within one pass every operation is invoked at most once, so the
    service is given by what it answers to each operation: a SOAP fault
    (any exception of the transport) or a reply.  An empty list stands
    for every falsy reply ([None] or an empty array). *)

Inductive Response (A : Type) :=
| Fault (text : string)
| Reply (a : A).
Arguments Fault {A} text.
Arguments Reply {A} a.

Record Remote := {
  ping_reply : Response Z;
  get_api_version_reply : Response (option ApiVersion.t);
  client_resource_list_reply : Response (list Resource.t);
  get_protocol_ratio_reply : Response (list ProtocolRatio.t);
  get_resource_geo_ratio_reply : Response (list GeoRatio.t);
  get_measured_parameter_list_reply : Response (list MeasuredParameter.t);
  get_measured_parameter_data_reply : Response (list ParameterData.t);
  get_resource_new_ip_blocks_reply : Response (list NewIpBlocks.t);
  get_resource_anomaly_list_reply : Response (list Anomaly.t);
  attack_active_list_reply : Response (list Attack.t)
}.

(** ** [GaugeMetricFamily] and the state of a [Collector] *)

Record Sample := {
  labels : list (string * string);
  value : pyvalue
}.

Record GaugeMetricFamily := {
  name : string;
  documentation : string;
  labelnames : list string;
  samples : list Sample
}.

Inductive exn :=
| AssertionError
| AttributeError (attr : string)
| TypeError (text : string)
| WebFault (text : string).

(** [str(e)] as it appears in the log lines. *)
Definition exn_str (e : exn) : string :=
  match e with
  | AssertionError => ""
  | AttributeError attr =>
      "'Collector' object has no attribute '" +:+ attr +:+ "'"
  | TypeError text => text
  | WebFault text => text
  end.

Inductive levelname := INFO | WARNING | ERROR.

Record LogRecord := { level : levelname; msg : string }.

(** The mutable part of a [Collector].  [resource_id] is [None] while the
    attribute has not been assigned.  Every family object is appended to
    [metrics] as soon as it is created and never removed, so a family is
    referred to by its position in [metrics]: the attributes
    [self.metric_...] of the source are such positions.  [calls] is the
    trace of operations invoked on [self.client.service]; [logger] holds
    the records emitted at level INFO and above. *)
Record Collector := {
  resource_id : option Z;
  metrics : list GaugeMetricFamily;
  logger : list LogRecord;
  calls : list string
}.

(** ** State and exceptions *)

Inductive outcome (A : Type) :=
| Ok (a : A)
| Raise (e : exn).
Arguments Ok {A} a.
Arguments Raise {A} e.

Definition M (A : Type) : Type := Collector -> outcome A * Collector.

Definition ret {A} (a : A) : M A := fun self => (Ok a, self).

Definition bind {A B} (m : M A) (k : A -> M B) : M B :=
  fun self =>
    match m self with
    | (Ok a, self') => k a self'
    | (Raise e, self') => (Raise e, self')
    end.

Definition raise {A} (e : exn) : M A := fun self => (Raise e, self).

Notation "x <- m ;; k" := (bind m (fun x => k))
  (at level 20, m at level 99, k at level 200, only parsing).
Notation "m ;; k" := (bind m (fun _ => k))
  (at level 100, k at level 200, right associativity, only parsing).

(** [try: body except Exception as e: handler e]. *)
Definition try_except {A} (body : M A) (handler : exn -> M A) : M A :=
  fun self =>
    match body self with
    | (Ok a, self') => (Ok a, self')
    | (Raise e, self') => handler e self'
    end.

(** [for x in xs: body x]. *)
Fixpoint for_each {A} (xs : list A) (body : A -> M unit) : M unit :=
  match xs with
  | [] => ret tt
  | x :: xs' => body x ;; for_each xs' body
  end.

(** Iterating over a value that may be [None]. *)
Definition iter {A} (xs : option (list A)) : M (list A) :=
  match xs with
  | Some l => ret l
  | None => raise (TypeError "'NoneType' object is not iterable")
  end.

Definition assert (b : bool) : M unit :=
  if b then ret tt else raise AssertionError.

Definition truthy {A} (req : list A) : bool :=
  match req with [] => false | _ => true end.

Definition log (lv : levelname) (text : string) : M unit :=
  fun self =>
    (Ok tt, {| resource_id := resource_id self;
               metrics := metrics self;
               logger := logger self ++ [{| level := lv; msg := text |}];
               calls := calls self |}).

(** Reading [self.resource_id]. *)
Definition self_resource_id : M Z :=
  fun self =>
    match resource_id self with
    | Some rid => (Ok rid, self)
    | None => (Raise (AttributeError "resource_id"), self)
    end.

Definition set_resource_id (rid : Z) : M unit :=
  fun self =>
    (Ok tt, {| resource_id := Some rid;
               metrics := metrics self;
               logger := logger self;
               calls := calls self |}).

(** [self.client.service.<op>(...)]: the call is recorded, then the
    service answers or raises. *)
Definition service {A} (op : string) (answer : Response A) : M A :=
  fun self =>
    let self' := {| resource_id := resource_id self;
                    metrics := metrics self;
                    logger := logger self;
                    calls := calls self ++ [op] |} in
    match answer with
    | Fault text => (Raise (WebFault text), self')
    | Reply a => (Ok a, self')
    end.

(** [self.metric_x = GaugeMetricFamily(name, documentation, labels=...)]
    followed by [self.metrics.append(self.metric_x)]; the result is the
    reference held by [self.metric_x]. *)
Definition register (name documentation : string) (labelnames : list string)
    : M nat :=
  fun self =>
    (Ok (length (metrics self)),
     {| resource_id := resource_id self;
        metrics := metrics self ++
                   [{| name := name; documentation := documentation;
                       labelnames := labelnames; samples := [] |}];
        logger := logger self;
        calls := calls self |}).

(** [GaugeMetricFamily.add_metric(labels, value)] of the client library:
    a sample whose labels are [dict(zip(labelnames, labels))]. *)
Definition add_sample (lbls : list string) (v : pyvalue)
    (f : GaugeMetricFamily) : GaugeMetricFamily :=
  {| name := name f; documentation := documentation f;
     labelnames := labelnames f;
     samples := samples f ++
                [{| labels := zip (labelnames f) lbls; value := v |}] |}.

Definition add_metric (metric : nat) (lbls : list string) (v : pyvalue)
    : M unit :=
  fun self =>
    (Ok tt, {| resource_id := resource_id self;
               metrics := alter (add_sample lbls v) metric (metrics self);
               logger := logger self;
               calls := calls self |}).

(** ** The loops of [measured_parameters]

    The body of the [try] block of [measured_parameters], given the
    references held by the fifty attributes [self.metric_...] that the
    method has just assigned. *)

Definition is_not_None (v : pyvalue) : bool :=
  match v with VNone => false | _ => true end.

Section Classifier.

Variable cfg : Config.

Variables
  metric_ip_rate_direction metric_ip_rate_threshold metric_ip_rate_mult1
  metric_ip_rate_mult2 metric_ip_rate metric_syn_packets_direction
  metric_syn_packets_threshold metric_syn_packets_mult1
  metric_syn_packets_mult2 metric_syn_packets metric_syn_rating_direction
  metric_syn_rating_threshold metric_syn_rating_mult1
  metric_syn_rating_mult2 metric_syn_rating
  metric_incoming_traffic_bps_direction
  metric_incoming_traffic_bps_threshold metric_incoming_traffic_bps_mult1
  metric_incoming_traffic_bps_mult2 metric_incoming_traffic_bps
  metric_incoming_traffic_pps_direction
  metric_incoming_traffic_pps_threshold metric_incoming_traffic_pps_mult1
  metric_incoming_traffic_pps_mult2 metric_incoming_traffic_pps
  metric_outgoing_traffic_bps_direction
  metric_outgoing_traffic_bps_threshold metric_outgoing_traffic_bps_mult1
  metric_outgoing_traffic_bps_mult2 metric_outgoing_traffic_bps
  metric_outgoing_traffic_pps_direction
  metric_outgoing_traffic_pps_threshold metric_outgoing_traffic_pps_mult1
  metric_outgoing_traffic_pps_mult2 metric_outgoing_traffic_pps
  metric_incoming_icmp_traffic_pps_direction
  metric_incoming_icmp_traffic_pps_threshold
  metric_incoming_icmp_traffic_pps_mult1
  metric_incoming_icmp_traffic_pps_mult2 metric_incoming_icmp_traffic_pps
  metric_incoming_tcp_traffic_pps_direction
  metric_incoming_tcp_traffic_pps_threshold
  metric_incoming_tcp_traffic_pps_mult1
  metric_incoming_tcp_traffic_pps_mult2 metric_incoming_tcp_traffic_pps
  metric_http_hits_rate_direction metric_http_hits_rate_threshold
  metric_http_hits_rate_mult1 metric_http_hits_rate_mult2
  metric_http_hits_rate
  : nat.

Definition measured_parameter_loops
    (param_list : option (list MeasuredParameter.t))
    (param_data : option (list ParameterData.t)) : M unit :=
  param_list <- iter param_list;;
  for_each param_list (fun l =>
    param_data <- iter param_data;;
    for_each param_data (fun d =>
      if (MeasuredParameter.id l =? ParameterData.unit_check_id d)
         && is_not_None (ParameterData.value d) then
        let dtype :=
          if ParameterData.type d =? 0 then "dirty"
          else if ParameterData.type d =? 2 then "clean"
          else "N/A" in
         if String.eqb (MeasuredParameter.short_name l) "Number of IPs" then
           add_metric metric_ip_rate_direction
             [resource_name cfg; dtype] (VInt (MeasuredParameter.direction l));;
           add_metric metric_ip_rate_threshold
             [resource_name cfg; dtype] (ParameterData.threshold d);;
           add_metric metric_ip_rate_mult1
             [resource_name cfg; dtype] (ParameterData.mult1 d);;
           add_metric metric_ip_rate_mult2
             [resource_name cfg; dtype] (ParameterData.mult2 d);;
           add_metric metric_ip_rate
             [resource_name cfg; dtype] (ParameterData.value d)
         else if String.eqb (MeasuredParameter.short_name l) "SYN packets" then
           add_metric metric_syn_packets_direction
             [resource_name cfg; dtype] (VInt (MeasuredParameter.direction l));;
           add_metric metric_syn_packets_threshold
             [resource_name cfg; dtype] (ParameterData.threshold d);;
           add_metric metric_syn_packets_mult1
             [resource_name cfg; dtype] (ParameterData.mult1 d);;
           add_metric metric_syn_packets_mult2
             [resource_name cfg; dtype] (ParameterData.mult2 d);;
           add_metric metric_syn_packets
             [resource_name cfg; dtype] (ParameterData.value d)
         else if String.eqb (MeasuredParameter.short_name l) "SYN rating" then
           add_metric metric_syn_rating_direction
             [resource_name cfg; dtype] (VInt (MeasuredParameter.direction l));;
           add_metric metric_syn_rating_threshold
             [resource_name cfg; dtype] (ParameterData.threshold d);;
           add_metric metric_syn_rating_mult1
             [resource_name cfg; dtype] (ParameterData.mult1 d);;
           add_metric metric_syn_rating_mult2
             [resource_name cfg; dtype] (ParameterData.mult2 d);;
           add_metric metric_syn_rating
             [resource_name cfg; dtype] (ParameterData.value d)
         else if String.eqb (MeasuredParameter.short_name l) "Incoming traffic in bps" then
           add_metric metric_incoming_traffic_bps_direction
             [resource_name cfg; dtype] (VInt (MeasuredParameter.direction l));;
           add_metric metric_incoming_traffic_bps_threshold
             [resource_name cfg; dtype] (ParameterData.threshold d);;
           add_metric metric_incoming_traffic_bps_mult1
             [resource_name cfg; dtype] (ParameterData.mult1 d);;
           add_metric metric_incoming_traffic_bps_mult2
             [resource_name cfg; dtype] (ParameterData.mult2 d);;
           add_metric metric_incoming_traffic_bps
             [resource_name cfg; dtype] (ParameterData.value d)
         else if String.eqb (MeasuredParameter.short_name l) "Incoming traffic in pps" then
           add_metric metric_incoming_traffic_pps_direction
             [resource_name cfg; dtype] (VInt (MeasuredParameter.direction l));;
           add_metric metric_incoming_traffic_pps_threshold
             [resource_name cfg; dtype] (ParameterData.threshold d);;
           add_metric metric_incoming_traffic_pps_mult1
             [resource_name cfg; dtype] (ParameterData.mult1 d);;
           add_metric metric_incoming_traffic_pps_mult2
             [resource_name cfg; dtype] (ParameterData.mult2 d);;
           add_metric metric_incoming_traffic_pps
             [resource_name cfg; dtype] (ParameterData.value d)
         else if String.eqb (MeasuredParameter.short_name l) "Outgoing traffic in bps" then
           add_metric metric_outgoing_traffic_bps_direction
             [resource_name cfg; dtype] (VInt (MeasuredParameter.direction l));;
           add_metric metric_outgoing_traffic_bps_threshold
             [resource_name cfg; dtype] (ParameterData.threshold d);;
           add_metric metric_outgoing_traffic_bps_mult1
             [resource_name cfg; dtype] (ParameterData.mult1 d);;
           add_metric metric_outgoing_traffic_bps_mult2
             [resource_name cfg; dtype] (ParameterData.mult2 d);;
           add_metric metric_outgoing_traffic_bps
             [resource_name cfg; dtype] (ParameterData.value d)
         else if String.eqb (MeasuredParameter.short_name l) "Outgoing traffic in pps" then
           add_metric metric_outgoing_traffic_pps_direction
             [resource_name cfg; dtype] (VInt (MeasuredParameter.direction l));;
           add_metric metric_outgoing_traffic_pps_threshold
             [resource_name cfg; dtype] (ParameterData.threshold d);;
           add_metric metric_outgoing_traffic_pps_mult1
             [resource_name cfg; dtype] (ParameterData.mult1 d);;
           add_metric metric_outgoing_traffic_pps_mult2
             [resource_name cfg; dtype] (ParameterData.mult2 d);;
           add_metric metric_outgoing_traffic_pps
             [resource_name cfg; dtype] (ParameterData.value d)
         else if String.eqb (MeasuredParameter.short_name l) "Incoming ICMP traffic" then
           add_metric metric_incoming_icmp_traffic_pps_direction
             [resource_name cfg; dtype] (VInt (MeasuredParameter.direction l));;
           add_metric metric_incoming_icmp_traffic_pps_threshold
             [resource_name cfg; dtype] (ParameterData.threshold d);;
           add_metric metric_incoming_icmp_traffic_pps_mult1
             [resource_name cfg; dtype] (ParameterData.mult1 d);;
           add_metric metric_incoming_icmp_traffic_pps_mult2
             [resource_name cfg; dtype] (ParameterData.mult2 d);;
           add_metric metric_incoming_icmp_traffic_pps
             [resource_name cfg; dtype] (ParameterData.value d)
         else if String.eqb (MeasuredParameter.short_name l) "Incoming TCP traffic" then
           add_metric metric_incoming_tcp_traffic_pps_direction
             [resource_name cfg; dtype] (VInt (MeasuredParameter.direction l));;
           add_metric metric_incoming_tcp_traffic_pps_threshold
             [resource_name cfg; dtype] (ParameterData.threshold d);;
           add_metric metric_incoming_tcp_traffic_pps_mult1
             [resource_name cfg; dtype] (ParameterData.mult1 d);;
           add_metric metric_incoming_tcp_traffic_pps_mult2
             [resource_name cfg; dtype] (ParameterData.mult2 d);;
           add_metric metric_incoming_tcp_traffic_pps
             [resource_name cfg; dtype] (ParameterData.value d)
         else if String.eqb (MeasuredParameter.short_name l) "HTTP. Requests" then
           add_metric metric_http_hits_rate_direction
             [resource_name cfg; dtype] (VInt (MeasuredParameter.direction l));;
           add_metric metric_http_hits_rate_threshold
             [resource_name cfg; dtype] (ParameterData.threshold d);;
           add_metric metric_http_hits_rate_mult1
             [resource_name cfg; dtype] (ParameterData.mult1 d);;
           add_metric metric_http_hits_rate_mult2
             [resource_name cfg; dtype] (ParameterData.mult2 d);;
           add_metric metric_http_hits_rate
             [resource_name cfg; dtype] (ParameterData.value d)
         else ret tt
      else ret tt)).

End Classifier.

(** ** The methods of [Collector]

    In each method the positional arguments of [authenticate] are
    evaluated before the remote call; reading [self.resource_id] is the
    only one of them that can raise.  The token itself is computed by
    [authenticate] above and does not influence the control flow. *)

Section Methods.

Variable cfg : Config.
Variable kdp : Remote.

Definition started (method : string) : M unit :=
  log INFO (resource_name cfg +:+ ": " +:+ method +:+ " started.").

Definition failed (method : string) (e : exn) : M unit :=
  log ERROR (resource_name cfg +:+ ": " +:+ method +:+ " failed with: "
             +:+ exn_str e).

Definition ping : M bool :=
  try_except
    (result <- service "ping" (ping_reply kdp);;
     assert (negb (result =? 0));;
     if result =? 1 then
       log INFO "KDP API is available";;
       ret true
     else
       log ERROR "KDP API is unavailable";;
       ret false)
    (fun e =>
       log ERROR ("Failed to ping KDP API: " +:+ exn_str e);;
       ret false).

Definition get_api_version : M unit :=
  started "get_api_version";;
  metric_api_version <- register "kdp_api_version"
    "Version of KDP API" ["name"; "version"; "mode"];;
  try_except
    (req <- service "get_api_version" (get_api_version_reply kdp);;
     match req with
     | None => raise AssertionError
     | Some req =>
         add_metric metric_api_version
           [resource_name cfg; ApiVersion.version req; ApiVersion.mode req]
           (VInt 1)
     end)
    (failed "get_api_version").

Definition client_resource_list : M unit :=
  started "client_resource_list";;
  metric_client_resource <- register "kdp_client_resource"
    "Client resources"
    ["name"; "group"; "internal_ip"; "external_ip"; "redirection_method"];;
  try_except
    (req <- service "client_resource_list" (client_resource_list_reply kdp);;
     assert (truthy req);;
     for_each req (fun i =>
       if String.eqb (Resource.name i) (resource_name cfg) then
         set_resource_id (Resource.id i);;
         add_metric metric_client_resource
           [Resource.name i; Resource.group i; Resource.internal_ip i;
            Resource.external_ip i; Resource.redirection_method_name i]
           (VInt 1)
       else ret tt))
    (failed "client_resource_list").

Definition get_protocol_ratio : M unit :=
  started "get_protocol_ratio";;
  try_except
    (_ <- self_resource_id;;
     req <- service "get_protocol_ratio" (get_protocol_ratio_reply kdp);;
     assert (truthy req))
    (failed "get_protocol_ratio").

Definition get_resource_geo_ratio : M unit :=
  started "get_resource_geo_ratio";;
  metric_resource_geo_ratio_prc <- register "kdp_resource_geo_ratio_prc"
    "Requests by Country. Ratio." ["name"; "country"];;
  try_except
    (_ <- self_resource_id;;
     req <- service "get_resource_geo_ratio"
              (get_resource_geo_ratio_reply kdp);;
     assert (truthy req);;
     for_each req (fun i =>
       add_metric metric_resource_geo_ratio_prc
         [resource_name cfg; GeoRatio.country i] (GeoRatio.value i)))
    (failed "get_resource_geo_ratio").

Definition get_measured_parameter_list
    : M (option (list MeasuredParameter.t)) :=
  started "get_measured_parameter_list";;
  try_except
    (_ <- self_resource_id;;
     req <- service "get_measured_parameter_list"
              (get_measured_parameter_list_reply kdp);;
     assert (truthy req);;
     ret (Some req))
    (fun e => failed "get_measured_parameter_list" e;; ret None).

Definition get_measured_parameter_data
    : M (option (list ParameterData.t)) :=
  started "get_measured_parameter_data";;
  try_except
    (_ <- self_resource_id;;
     req <- service "get_measured_parameter_data"
              (get_measured_parameter_data_reply kdp);;
     assert (truthy req);;
     ret (Some req))
    (fun e => failed "get_measured_parameter_data" e;; ret None).

Definition get_resource_new_ip_blocks : M unit :=
  started "get_resource_new_ip_blocks";;
  metric_resource_new_ip_blocks_count <-
    register "kdp_resource_new_ip_blocks_count"
      "Count of new IP blocked. Count." ["name"];;
  try_except
    (_ <- self_resource_id;;
     req <- service "get_resource_new_ip_blocks"
              (get_resource_new_ip_blocks_reply kdp);;
     assert (truthy req);;
     for_each req (fun i =>
       add_metric metric_resource_new_ip_blocks_count
         [resource_name cfg] (NewIpBlocks.new_ip_blocks i)))
    (failed "get_resource_new_ip_blocks").

Definition get_resource_anomaly_list : M unit :=
  started "get_resource_anomaly_list";;
  metric_resource_anomaly_max_value <-
    register "kdp_resource_anomaly_max_value"
      "Anomaly. Value of measured parameter in a max point."
      ["name"; "parameter"; "state"; "color"];;
  metric_resource_anomaly_max_percent <-
    register "kdp_resource_anomaly_max_percent"
      "Anomaly. Percent of deviation in measured parameter."
      ["name"; "parameter"; "state"; "color"];;
  try_except
    (_ <- self_resource_id;;
     req <- service "get_resource_anomaly_list"
              (get_resource_anomaly_list_reply kdp);;
     assert (truthy req);;
     for_each req (fun i =>
       add_metric metric_resource_anomaly_max_value
         [resource_name cfg; Anomaly.measured_parameter_short_name i;
          Anomaly.state i; str_of_Z (Anomaly.color i)]
         (Anomaly.max_point_value i);;
       add_metric metric_resource_anomaly_max_percent
         [resource_name cfg; Anomaly.measured_parameter_short_name i;
          Anomaly.state i; str_of_Z (Anomaly.color i)]
         (Anomaly.max_point_percentage i)))
    (failed "get_resource_anomaly_list").

Definition attack_active_list : M unit :=
  started "attack_active_list";;
  metric_resource_attack_incoming_traffic_bps <-
    register "kdp_resource_attack_incoming_traffic_bps"
      "Anomaly. Incoming traffic during anomaly. bps."
      ["name"; "attack_id"; "attack_type"];;
  metric_resource_attack_incoming_traffic_pps <-
    register "kdp_resource_attack_incoming_traffic_pps"
      "Anomaly. Incoming traffic during anomaly. pps."
      ["name"; "attack_id"; "attack_type"];;
  metric_resource_attack_http_rate <-
    register "kdp_resource_attack_http_rate"
      "Anomaly. HTTP requests rate during anomaly. hits/s."
      ["name"; "attack_id"; "attack_type"];;
  try_except
    (req <- service "attack_active_list" (attack_active_list_reply kdp);;
     assert (truthy req);;
     for_each req (fun i =>
       rid <- self_resource_id;;
       if Attack.resource_id i =? rid then
         add_metric metric_resource_attack_incoming_traffic_bps
           [resource_name cfg; str_of_Z (Attack.attack_id i);
            Attack.attack_type i]
           (Attack.max_point_value_bps i);;
         add_metric metric_resource_attack_incoming_traffic_pps
           [resource_name cfg; str_of_Z (Attack.attack_id i);
            Attack.attack_type i]
           (Attack.max_point_value_pps i);;
         add_metric metric_resource_attack_http_rate
           [resource_name cfg; str_of_Z (Attack.attack_id i);
            Attack.attack_type i]
           (Attack.max_point_value_pps i)
       else ret tt))
    (failed "attack_active_list").

Definition measured_parameters
    (param_list : option (list MeasuredParameter.t))
    (param_data : option (list ParameterData.t)) : M unit :=
  started "measured_parameters";;
  metric_ip_rate_direction <- register "kdp_ip_rate_direction"
    "Number of IP addresses. Direction." ["resource"; "type"];;
  metric_ip_rate_threshold <- register "kdp_ip_rate_threshold"
    "Number of IP addresses. Threshold." ["resource"; "type"];;
  metric_ip_rate_mult1 <- register "kdp_ip_rate_mult1"
    "Number of IP addresses. Mult1." ["resource"; "type"];;
  metric_ip_rate_mult2 <- register "kdp_ip_rate_mult2"
    "Number of IP addresses. Mult2." ["resource"; "type"];;
  metric_ip_rate <- register "kdp_ip_rate"
    "Number of IP addresses. IPs/min." ["resource"; "type"];;
  metric_syn_packets_direction <- register "kdp_syn_packets_direction"
    "Number of incoming TCP packets with SYN flag. Direction." ["resource"; "type"];;
  metric_syn_packets_threshold <- register "kdp_syn_packets_threshold"
    "Number of incoming TCP packets with SYN flag. Threshold." ["resource"; "type"];;
  metric_syn_packets_mult1 <- register "kdp_syn_packets_mult1"
    "Number of incoming TCP packets with SYN flag. Mult1." ["resource"; "type"];;
  metric_syn_packets_mult2 <- register "kdp_syn_packets_mult2"
    "Number of incoming TCP packets with SYN flag. Mult2." ["resource"; "type"];;
  metric_syn_packets <- register "kdp_syn_packets"
    "Number of incoming TCP packets with SYN flag. pps." ["resource"; "type"];;
  metric_syn_rating_direction <- register "kdp_syn_rating_direction"
    "SYN rating. Direction." ["resource"; "type"];;
  metric_syn_rating_threshold <- register "kdp_syn_rating_threshold"
    "SYN rating. Threshold." ["resource"; "type"];;
  metric_syn_rating_mult1 <- register "kdp_syn_rating_mult1"
    "SYN rating. Mult1." ["resource"; "type"];;
  metric_syn_rating_mult2 <- register "kdp_syn_rating_mult2"
    "SYN rating. Mult2." ["resource"; "type"];;
  metric_syn_rating <- register "kdp_syn_rating"
    "SYN rating. times." ["resource"; "type"];;
  metric_incoming_traffic_bps_direction <- register "kdp_incoming_traffic_bps_direction"
    "Incoming traffic speed in bits per second. Direction." ["resource"; "type"];;
  metric_incoming_traffic_bps_threshold <- register "kdp_incoming_traffic_bps_threshold"
    "Incoming traffic speed in bits per second. Threshold." ["resource"; "type"];;
  metric_incoming_traffic_bps_mult1 <- register "kdp_incoming_traffic_bps_mult1"
    "Incoming traffic speed in bits per second. Mult1." ["resource"; "type"];;
  metric_incoming_traffic_bps_mult2 <- register "kdp_incoming_traffic_bps_mult2"
    "Incoming traffic speed in bits per second. Mult2." ["resource"; "type"];;
  metric_incoming_traffic_bps <- register "kdp_incoming_traffic_bps"
    "Incoming traffic speed in bits per second. bps." ["resource"; "type"];;
  metric_incoming_traffic_pps_direction <- register "kdp_incoming_traffic_pps_direction"
    "Incoming traffic speed in packets per second. Direction." ["resource"; "type"];;
  metric_incoming_traffic_pps_threshold <- register "kdp_incoming_traffic_pps_threshold"
    "Incoming traffic speed in packets per second. Threshold." ["resource"; "type"];;
  metric_incoming_traffic_pps_mult1 <- register "kdp_incoming_traffic_pps_mult1"
    "Incoming traffic speed in packets per second. Mult1." ["resource"; "type"];;
  metric_incoming_traffic_pps_mult2 <- register "kdp_incoming_traffic_pps_mult2"
    "Incoming traffic speed in packets per second. Mult2." ["resource"; "type"];;
  metric_incoming_traffic_pps <- register "kdp_incoming_traffic_pps"
    "Incoming traffic speed in packets per second. pps." ["resource"; "type"];;
  metric_outgoing_traffic_bps_direction <- register "kdp_outgoing_traffic_bps_direction"
    "Outgoing traffic speed in bits per second. Direction." ["resource"; "type"];;
  metric_outgoing_traffic_bps_threshold <- register "kdp_outgoing_traffic_bps_threshold"
    "Outgoing traffic speed in bits per second. Threshold." ["resource"; "type"];;
  metric_outgoing_traffic_bps_mult1 <- register "kdp_outgoing_traffic_bps_mult1"
    "Outgoing traffic speed in bits per second. Mult1." ["resource"; "type"];;
  metric_outgoing_traffic_bps_mult2 <- register "kdp_outgoing_traffic_bps_mult2"
    "Outgoing traffic speed in bits per second. Mult2." ["resource"; "type"];;
  metric_outgoing_traffic_bps <- register "kdp_outgoing_traffic_bps"
    "Outgoing traffic speed in bits per second. bps." ["resource"; "type"];;
  metric_outgoing_traffic_pps_direction <- register "kdp_outgoing_traffic_pps_direction"
    "Outgoing traffic speed in packets per second. Direction." ["resource"; "type"];;
  metric_outgoing_traffic_pps_threshold <- register "kdp_outgoing_traffic_pps_threshold"
    "Outgoing traffic speed in packets per second. Threshold." ["resource"; "type"];;
  metric_outgoing_traffic_pps_mult1 <- register "kdp_outgoing_traffic_pps_mult1"
    "Outgoing traffic speed in packets per second. Mult1." ["resource"; "type"];;
  metric_outgoing_traffic_pps_mult2 <- register "kdp_outgoing_traffic_pps_mult2"
    "Outgoing traffic speed in packets per second. Mult2." ["resource"; "type"];;
  metric_outgoing_traffic_pps <- register "kdp_outgoing_traffic_pps"
    "Outgoing traffic speed in packets per second. pps." ["resource"; "type"];;
  metric_incoming_icmp_traffic_pps_direction <- register "kdp_incoming_icmp_traffic_pps_direction"
    "Incoming ICMP traffic speed in packets per second. Direction." ["resource"; "type"];;
  metric_incoming_icmp_traffic_pps_threshold <- register "kdp_incoming_icmp_traffic_pps_threshold"
    "Incoming ICMP traffic speed in packets per second. Threshold." ["resource"; "type"];;
  metric_incoming_icmp_traffic_pps_mult1 <- register "kdp_incoming_icmp_traffic_pps_mult1"
    "Incoming ICMP traffic speed in packets per second. Mult1." ["resource"; "type"];;
  metric_incoming_icmp_traffic_pps_mult2 <- register "kdp_incoming_icmp_traffic_pps_mult2"
    "Incoming ICMP traffic speed in packets per second. Mult2." ["resource"; "type"];;
  metric_incoming_icmp_traffic_pps <- register "kdp_incoming_icmp_traffic_pps"
    "Incoming ICMP traffic speed in packets per second. pps." ["resource"; "type"];;
  metric_incoming_tcp_traffic_pps_direction <- register "kdp_incoming_tcp_traffic_pps_direction"
    "Incoming TCP traffic speed in packets per second. Direction." ["resource"; "type"];;
  metric_incoming_tcp_traffic_pps_threshold <- register "kdp_incoming_tcp_traffic_pps_threshold"
    "Incoming TCP traffic speed in packets per second. Threshold." ["resource"; "type"];;
  metric_incoming_tcp_traffic_pps_mult1 <- register "kdp_incoming_tcp_traffic_pps_mult1"
    "Incoming TCP traffic speed in packets per second. Mult1." ["resource"; "type"];;
  metric_incoming_tcp_traffic_pps_mult2 <- register "kdp_incoming_tcp_traffic_pps_mult2"
    "Incoming TCP traffic speed in packets per second. Mult2." ["resource"; "type"];;
  metric_incoming_tcp_traffic_pps <- register "kdp_incoming_tcp_traffic_pps"
    "Incoming TCP traffic speed in packets per second. pps." ["resource"; "type"];;
  metric_http_hits_rate_direction <- register "kdp_http_hits_rate_direction"
    "HTTP. Number of requests. Direction." ["resource"; "type"];;
  metric_http_hits_rate_threshold <- register "kdp_http_hits_rate_threshold"
    "HTTP. Number of requests. Threshold." ["resource"; "type"];;
  metric_http_hits_rate_mult1 <- register "kdp_http_hits_rate_mult1"
    "HTTP. Number of requests. Mult1." ["resource"; "type"];;
  metric_http_hits_rate_mult2 <- register "kdp_http_hits_rate_mult2"
    "HTTP. Number of requests. Mult2." ["resource"; "type"];;
  metric_http_hits_rate <- register "kdp_http_hits_rate"
    "HTTP. Number of requests. hits/sec." ["resource"; "type"];;
  try_except
    (measured_parameter_loops cfg
       metric_ip_rate_direction metric_ip_rate_threshold
       metric_ip_rate_mult1 metric_ip_rate_mult2 metric_ip_rate
       metric_syn_packets_direction metric_syn_packets_threshold
       metric_syn_packets_mult1 metric_syn_packets_mult2 metric_syn_packets
       metric_syn_rating_direction metric_syn_rating_threshold
       metric_syn_rating_mult1 metric_syn_rating_mult2 metric_syn_rating
       metric_incoming_traffic_bps_direction
       metric_incoming_traffic_bps_threshold
       metric_incoming_traffic_bps_mult1 metric_incoming_traffic_bps_mult2
       metric_incoming_traffic_bps metric_incoming_traffic_pps_direction
       metric_incoming_traffic_pps_threshold
       metric_incoming_traffic_pps_mult1 metric_incoming_traffic_pps_mult2
       metric_incoming_traffic_pps metric_outgoing_traffic_bps_direction
       metric_outgoing_traffic_bps_threshold
       metric_outgoing_traffic_bps_mult1 metric_outgoing_traffic_bps_mult2
       metric_outgoing_traffic_bps metric_outgoing_traffic_pps_direction
       metric_outgoing_traffic_pps_threshold
       metric_outgoing_traffic_pps_mult1 metric_outgoing_traffic_pps_mult2
       metric_outgoing_traffic_pps
       metric_incoming_icmp_traffic_pps_direction
       metric_incoming_icmp_traffic_pps_threshold
       metric_incoming_icmp_traffic_pps_mult1
       metric_incoming_icmp_traffic_pps_mult2
       metric_incoming_icmp_traffic_pps
       metric_incoming_tcp_traffic_pps_direction
       metric_incoming_tcp_traffic_pps_threshold
       metric_incoming_tcp_traffic_pps_mult1
       metric_incoming_tcp_traffic_pps_mult2
       metric_incoming_tcp_traffic_pps metric_http_hits_rate_direction
       metric_http_hits_rate_threshold metric_http_hits_rate_mult1
       metric_http_hits_rate_mult2 metric_http_hits_rate
       param_list param_data)
    (failed "measured_parameters").

(** [collect]: the generator body, then the families it yields. *)
Definition collect : M (list GaugeMetricFamily) :=
  available <- ping;;
  (if negb available then
     log WARNING "Skipping the API availability check"
   else ret tt);;
  get_api_version;;
  client_resource_list;;
  plist <- get_measured_parameter_list;;
  pdata <- get_measured_parameter_data;;
  measured_parameters plist pdata;;
  get_protocol_ratio;;
  get_resource_geo_ratio;;
  get_resource_new_ip_blocks;;
  get_resource_anomaly_list;;
  attack_active_list;;
  fun self => (Ok (metrics self), self).

End Methods.

(** ** What a method leaves behind

    The families, log records and calls a method adds, written as
    functions of the configuration, the answers of the service and the
    resource id at the time of the call.  The theorems below prove that
    the methods compute exactly these. *)

Definition family (n d : string) (l : list string) (smp : list Sample)
    : GaugeMetricFamily :=
  {| name := n; documentation := d; labelnames := l; samples := smp |}.

Definition started_record (cfg : Config) (method : string) : LogRecord :=
  {| level := INFO;
     msg := resource_name cfg +:+ ": " +:+ method +:+ " started." |}.

Definition failed_record (cfg : Config) (method : string) (e : exn)
    : LogRecord :=
  {| level := ERROR;
     msg := resource_name cfg +:+ ": " +:+ method +:+ " failed with: "
            +:+ exn_str e |}.

(** The request of a method that needs no resource id: a fault, a falsy
    reply, or the records. *)
Definition answered {A} (answer : Response (list A)) : exn + list A :=
  match answer with
  | Fault text => inl (WebFault text)
  | Reply [] => inl AssertionError
  | Reply req => inr req
  end.

(** The request of a resource-scoped method: reading the missing
    attribute fails before the service is called. *)
Definition scoped {A} (rid : option Z) (answer : Response (list A))
    : exn + list A :=
  match rid with
  | None => inl (AttributeError "resource_id")
  | Some _ => answered answer
  end.

Definition scoped_calls (op : string) (rid : option Z) : list string :=
  match rid with
  | None => []
  | Some _ => [op]
  end.

Definition records {A} (r : exn + list A) : list A :=
  match r with
  | inl _ => []
  | inr req => req
  end.

Definition failure {A} (cfg : Config) (method : string) (r : exn + A)
    : list LogRecord :=
  match r with
  | inl e => [failed_record cfg method e]
  | inr _ => []
  end.

Definition ping_result (kdp : Remote) : bool :=
  match ping_reply kdp with
  | Reply 1 => true
  | _ => false
  end.

Definition ping_log (kdp : Remote) : list LogRecord :=
  match ping_reply kdp with
  | Fault text =>
      [{| level := ERROR; msg := "Failed to ping KDP API: " +:+ text |}]
  | Reply 0 => [{| level := ERROR; msg := "Failed to ping KDP API: " |}]
  | Reply 1 => [{| level := INFO; msg := "KDP API is available" |}]
  | Reply _ => [{| level := ERROR; msg := "KDP API is unavailable" |}]
  end.

Definition api_version_outcome (kdp : Remote) : exn + ApiVersion.t :=
  match get_api_version_reply kdp with
  | Fault text => inl (WebFault text)
  | Reply None => inl AssertionError
  | Reply (Some req) => inr req
  end.

Definition api_version_samples (cfg : Config) (kdp : Remote) : list Sample :=
  match api_version_outcome kdp with
  | inr req =>
      [{| labels := [("name", resource_name cfg);
                     ("version", ApiVersion.version req);
                     ("mode", ApiVersion.mode req)];
          value := VInt 1 |}]
  | inl _ => []
  end.

(** The records of a resource list that carry the configured name. *)
Definition matching (cfg : Config) (req : list Resource.t) : list Resource.t :=
  filter (fun i => String.eqb (Resource.name i) (resource_name cfg) = true) req.

Definition client_resource_sample (i : Resource.t) : Sample :=
  {| labels := [("name", Resource.name i);
                ("group", Resource.group i);
                ("internal_ip", Resource.internal_ip i);
                ("external_ip", Resource.external_ip i);
                ("redirection_method", Resource.redirection_method_name i)];
     value := VInt 1 |}.

(** The resource id after [client_resource_list]: the id of the last
    matching record, the previous one when nothing matches. *)
Definition resolved (cfg : Config) (kdp : Remote) (rid : option Z)
    : option Z :=
  match last (matching cfg (records (answered (client_resource_list_reply kdp)))) with
  | Some i => Some (Resource.id i)
  | None => rid
  end.

(** What the specification describes: the id of the first record that
    carries the configured name. *)
Definition first_match (cfg : Config) (req : list Resource.t) : option Z :=
  match matching cfg req with
  | i :: _ => Some (Resource.id i)
  | [] => None
  end.

Definition geo_sample (cfg : Config) (i : GeoRatio.t) : Sample :=
  {| labels := [("name", resource_name cfg); ("country", GeoRatio.country i)];
     value := GeoRatio.value i |}.

Definition new_ip_sample (cfg : Config) (i : NewIpBlocks.t) : Sample :=
  {| labels := [("name", resource_name cfg)];
     value := NewIpBlocks.new_ip_blocks i |}.

Definition anomaly_labels (cfg : Config) (i : Anomaly.t)
    : list (string * string) :=
  [("name", resource_name cfg);
   ("parameter", Anomaly.measured_parameter_short_name i);
   ("state", Anomaly.state i);
   ("color", str_of_Z (Anomaly.color i))].

Definition anomaly_value_sample (cfg : Config) (i : Anomaly.t) : Sample :=
  {| labels := anomaly_labels cfg i; value := Anomaly.max_point_value i |}.

Definition anomaly_percent_sample (cfg : Config) (i : Anomaly.t) : Sample :=
  {| labels := anomaly_labels cfg i;
     value := Anomaly.max_point_percentage i |}.

Definition attack_labels (cfg : Config) (i : Attack.t)
    : list (string * string) :=
  [("name", resource_name cfg);
   ("attack_id", str_of_Z (Attack.attack_id i));
   ("attack_type", Attack.attack_type i)].

(** The attack records of the resolved resource. *)
Definition own_attacks (rid : Z) (req : list Attack.t) : list Attack.t :=
  filter (fun i => (Attack.resource_id i =? rid) = true) req.

(** The request and the loop of [attack_active_list]: the filter reads
    the resource id at the first record. *)
Definition attack_outcome (kdp : Remote) (rid : option Z)
    : exn + list Attack.t :=
  match answered (attack_active_list_reply kdp), rid with
  | inl e, _ => inl e
  | inr _, None => inl (AttributeError "resource_id")
  | inr req, Some r => inr (own_attacks r req)
  end.

(** ** Locality of the methods

    A method only adds to the lists of the collector, and only touches the
    families it has registered itself.  [framed] says so: run after any
    earlier state [fr], a computation behaves as on the state without
    it, the references it holds being shifted by the number of families
    already present. *)

Record Frame := {
  metrics_before : list GaugeMetricFamily;
  logger_before : list LogRecord;
  calls_before : list string
}.

Definition prepend (fr : Frame) (self : Collector) : Collector :=
  {| resource_id := resource_id self;
     metrics := metrics_before fr ++ metrics self;
     logger := logger_before fr ++ logger self;
     calls := calls_before fr ++ calls self |}.

Definition frame_of (self : Collector) : Frame :=
  {| metrics_before := metrics self;
     logger_before := logger self;
     calls_before := calls self |}.

(** A collector that has done nothing yet. *)
Definition fresh (rid : option Z) : Collector :=
  {| resource_id := rid; metrics := []; logger := []; calls := [] |}.

Definition related {A} (fr : Frame) (R : A -> A -> Prop)
    (small big : outcome A * Collector) : Prop :=
  snd big = prepend fr (snd small) /\
  match fst small, fst big with
  | Ok a, Ok a' => R a a'
  | Raise e, Raise e' => e = e'
  | _, _ => False
  end.

Definition framed {A} (fr : Frame) (R : A -> A -> Prop) (m m' : M A) : Prop :=
  forall self, related fr R (m self) (m' (prepend fr self)).

(** A reference to a family, after [fr] has been put in front. *)
Definition shifted (fr : Frame) (h : nat) : nat :=
  (length (metrics_before fr) + h)%nat.

Definition moved (fr : Frame) (h h' : nat) : Prop :=
  h' = shifted fr h.

Definition extended (fr : Frame) (out out' : list GaugeMetricFamily) : Prop :=
  out' = metrics_before fr ++ out.

(** ** The effect of each method on a collector that has done nothing yet *)

Definition ping_effect (kdp : Remote) (rid : option Z) : Collector :=
  {| resource_id := rid;
     metrics := [];
     logger := ping_log kdp;
     calls := ["ping"] |}.

Definition get_api_version_effect (cfg : Config) (kdp : Remote)
    (rid : option Z) : Collector :=
  {| resource_id := rid;
     metrics := [family "kdp_api_version" "Version of KDP API"
                   ["name"; "version"; "mode"]
                   (api_version_samples cfg kdp)];
     logger := started_record cfg "get_api_version"
               :: failure cfg "get_api_version" (api_version_outcome kdp);
     calls := ["get_api_version"] |}.

Definition client_resource_list_effect (cfg : Config) (kdp : Remote)
    (rid : option Z) : Collector :=
  let r := answered (client_resource_list_reply kdp) in
  {| resource_id := resolved cfg kdp rid;
     metrics := [family "kdp_client_resource" "Client resources"
                   ["name"; "group"; "internal_ip"; "external_ip";
                    "redirection_method"]
                   (map client_resource_sample (matching cfg (records r)))];
     logger := started_record cfg "client_resource_list"
               :: failure cfg "client_resource_list" r;
     calls := ["client_resource_list"] |}.

Definition get_protocol_ratio_effect (cfg : Config) (kdp : Remote)
    (rid : option Z) : Collector :=
  let r := scoped rid (get_protocol_ratio_reply kdp) in
  {| resource_id := rid;
     metrics := [];
     logger := started_record cfg "get_protocol_ratio"
               :: failure cfg "get_protocol_ratio" r;
     calls := scoped_calls "get_protocol_ratio" rid |}.

Definition get_resource_geo_ratio_effect (cfg : Config) (kdp : Remote)
    (rid : option Z) : Collector :=
  let r := scoped rid (get_resource_geo_ratio_reply kdp) in
  {| resource_id := rid;
     metrics := [family "kdp_resource_geo_ratio_prc"
                   "Requests by Country. Ratio." ["name"; "country"]
                   (map (geo_sample cfg) (records r))];
     logger := started_record cfg "get_resource_geo_ratio"
               :: failure cfg "get_resource_geo_ratio" r;
     calls := scoped_calls "get_resource_geo_ratio" rid |}.

Definition get_measured_parameter_list_effect (cfg : Config) (kdp : Remote)
    (rid : option Z) : Collector :=
  let r := scoped rid (get_measured_parameter_list_reply kdp) in
  {| resource_id := rid;
     metrics := [];
     logger := started_record cfg "get_measured_parameter_list"
               :: failure cfg "get_measured_parameter_list" r;
     calls := scoped_calls "get_measured_parameter_list" rid |}.

Definition get_measured_parameter_data_effect (cfg : Config) (kdp : Remote)
    (rid : option Z) : Collector :=
  let r := scoped rid (get_measured_parameter_data_reply kdp) in
  {| resource_id := rid;
     metrics := [];
     logger := started_record cfg "get_measured_parameter_data"
               :: failure cfg "get_measured_parameter_data" r;
     calls := scoped_calls "get_measured_parameter_data" rid |}.

(** What [get_measured_parameter_list] and [get_measured_parameter_data]
    return: the records, or [None] after a failure. *)
Definition returned {A} (r : exn + list A) : option (list A) :=
  match r with
  | inl _ => None
  | inr req => Some req
  end.

Definition get_resource_new_ip_blocks_effect (cfg : Config) (kdp : Remote)
    (rid : option Z) : Collector :=
  let r := scoped rid (get_resource_new_ip_blocks_reply kdp) in
  {| resource_id := rid;
     metrics := [family "kdp_resource_new_ip_blocks_count"
                   "Count of new IP blocked. Count." ["name"]
                   (map (new_ip_sample cfg) (records r))];
     logger := started_record cfg "get_resource_new_ip_blocks"
               :: failure cfg "get_resource_new_ip_blocks" r;
     calls := scoped_calls "get_resource_new_ip_blocks" rid |}.

Definition get_resource_anomaly_list_effect (cfg : Config) (kdp : Remote)
    (rid : option Z) : Collector :=
  let r := scoped rid (get_resource_anomaly_list_reply kdp) in
  {| resource_id := rid;
     metrics := [family "kdp_resource_anomaly_max_value"
                   "Anomaly. Value of measured parameter in a max point."
                   ["name"; "parameter"; "state"; "color"]
                   (map (anomaly_value_sample cfg) (records r));
                 family "kdp_resource_anomaly_max_percent"
                   "Anomaly. Percent of deviation in measured parameter."
                   ["name"; "parameter"; "state"; "color"]
                   (map (anomaly_percent_sample cfg) (records r))];
     logger := started_record cfg "get_resource_anomaly_list"
               :: failure cfg "get_resource_anomaly_list" r;
     calls := scoped_calls "get_resource_anomaly_list" rid |}.

Definition attack_active_list_effect (cfg : Config) (kdp : Remote)
    (rid : option Z) : Collector :=
  let r := attack_outcome kdp rid in
  {| resource_id := rid;
     metrics := [family "kdp_resource_attack_incoming_traffic_bps"
                   "Anomaly. Incoming traffic during anomaly. bps."
                   ["name"; "attack_id"; "attack_type"]
                   (map (fun i => {| labels := attack_labels cfg i;
                                     value := Attack.max_point_value_bps i |})
                        (records r));
                 family "kdp_resource_attack_incoming_traffic_pps"
                   "Anomaly. Incoming traffic during anomaly. pps."
                   ["name"; "attack_id"; "attack_type"]
                   (map (fun i => {| labels := attack_labels cfg i;
                                     value := Attack.max_point_value_pps i |})
                        (records r));
                 family "kdp_resource_attack_http_rate"
                   "Anomaly. HTTP requests rate during anomaly. hits/s."
                   ["name"; "attack_id"; "attack_type"]
                   (map (fun i => {| labels := attack_labels cfg i;
                                     value := Attack.max_point_value_pps i |})
                        (records r))];
     logger := started_record cfg "attack_active_list"
               :: failure cfg "attack_active_list" r;
     calls := ["attack_active_list"] |}.

(** The families [measured_parameters] registers, in order, before any
    sample is added. *)
Definition parameter_families : list GaugeMetricFamily :=
  [family "kdp_ip_rate_direction"
     "Number of IP addresses. Direction." ["resource"; "type"] [];
   family "kdp_ip_rate_threshold"
     "Number of IP addresses. Threshold." ["resource"; "type"] [];
   family "kdp_ip_rate_mult1"
     "Number of IP addresses. Mult1." ["resource"; "type"] [];
   family "kdp_ip_rate_mult2"
     "Number of IP addresses. Mult2." ["resource"; "type"] [];
   family "kdp_ip_rate"
     "Number of IP addresses. IPs/min." ["resource"; "type"] [];
   family "kdp_syn_packets_direction"
     "Number of incoming TCP packets with SYN flag. Direction." ["resource"; "type"] [];
   family "kdp_syn_packets_threshold"
     "Number of incoming TCP packets with SYN flag. Threshold." ["resource"; "type"] [];
   family "kdp_syn_packets_mult1"
     "Number of incoming TCP packets with SYN flag. Mult1." ["resource"; "type"] [];
   family "kdp_syn_packets_mult2"
     "Number of incoming TCP packets with SYN flag. Mult2." ["resource"; "type"] [];
   family "kdp_syn_packets"
     "Number of incoming TCP packets with SYN flag. pps." ["resource"; "type"] [];
   family "kdp_syn_rating_direction"
     "SYN rating. Direction." ["resource"; "type"] [];
   family "kdp_syn_rating_threshold"
     "SYN rating. Threshold." ["resource"; "type"] [];
   family "kdp_syn_rating_mult1"
     "SYN rating. Mult1." ["resource"; "type"] [];
   family "kdp_syn_rating_mult2"
     "SYN rating. Mult2." ["resource"; "type"] [];
   family "kdp_syn_rating"
     "SYN rating. times." ["resource"; "type"] [];
   family "kdp_incoming_traffic_bps_direction"
     "Incoming traffic speed in bits per second. Direction." ["resource"; "type"] [];
   family "kdp_incoming_traffic_bps_threshold"
     "Incoming traffic speed in bits per second. Threshold." ["resource"; "type"] [];
   family "kdp_incoming_traffic_bps_mult1"
     "Incoming traffic speed in bits per second. Mult1." ["resource"; "type"] [];
   family "kdp_incoming_traffic_bps_mult2"
     "Incoming traffic speed in bits per second. Mult2." ["resource"; "type"] [];
   family "kdp_incoming_traffic_bps"
     "Incoming traffic speed in bits per second. bps." ["resource"; "type"] [];
   family "kdp_incoming_traffic_pps_direction"
     "Incoming traffic speed in packets per second. Direction." ["resource"; "type"] [];
   family "kdp_incoming_traffic_pps_threshold"
     "Incoming traffic speed in packets per second. Threshold." ["resource"; "type"] [];
   family "kdp_incoming_traffic_pps_mult1"
     "Incoming traffic speed in packets per second. Mult1." ["resource"; "type"] [];
   family "kdp_incoming_traffic_pps_mult2"
     "Incoming traffic speed in packets per second. Mult2." ["resource"; "type"] [];
   family "kdp_incoming_traffic_pps"
     "Incoming traffic speed in packets per second. pps." ["resource"; "type"] [];
   family "kdp_outgoing_traffic_bps_direction"
     "Outgoing traffic speed in bits per second. Direction." ["resource"; "type"] [];
   family "kdp_outgoing_traffic_bps_threshold"
     "Outgoing traffic speed in bits per second. Threshold." ["resource"; "type"] [];
   family "kdp_outgoing_traffic_bps_mult1"
     "Outgoing traffic speed in bits per second. Mult1." ["resource"; "type"] [];
   family "kdp_outgoing_traffic_bps_mult2"
     "Outgoing traffic speed in bits per second. Mult2." ["resource"; "type"] [];
   family "kdp_outgoing_traffic_bps"
     "Outgoing traffic speed in bits per second. bps." ["resource"; "type"] [];
   family "kdp_outgoing_traffic_pps_direction"
     "Outgoing traffic speed in packets per second. Direction." ["resource"; "type"] [];
   family "kdp_outgoing_traffic_pps_threshold"
     "Outgoing traffic speed in packets per second. Threshold." ["resource"; "type"] [];
   family "kdp_outgoing_traffic_pps_mult1"
     "Outgoing traffic speed in packets per second. Mult1." ["resource"; "type"] [];
   family "kdp_outgoing_traffic_pps_mult2"
     "Outgoing traffic speed in packets per second. Mult2." ["resource"; "type"] [];
   family "kdp_outgoing_traffic_pps"
     "Outgoing traffic speed in packets per second. pps." ["resource"; "type"] [];
   family "kdp_incoming_icmp_traffic_pps_direction"
     "Incoming ICMP traffic speed in packets per second. Direction." ["resource"; "type"] [];
   family "kdp_incoming_icmp_traffic_pps_threshold"
     "Incoming ICMP traffic speed in packets per second. Threshold." ["resource"; "type"] [];
   family "kdp_incoming_icmp_traffic_pps_mult1"
     "Incoming ICMP traffic speed in packets per second. Mult1." ["resource"; "type"] [];
   family "kdp_incoming_icmp_traffic_pps_mult2"
     "Incoming ICMP traffic speed in packets per second. Mult2." ["resource"; "type"] [];
   family "kdp_incoming_icmp_traffic_pps"
     "Incoming ICMP traffic speed in packets per second. pps." ["resource"; "type"] [];
   family "kdp_incoming_tcp_traffic_pps_direction"
     "Incoming TCP traffic speed in packets per second. Direction." ["resource"; "type"] [];
   family "kdp_incoming_tcp_traffic_pps_threshold"
     "Incoming TCP traffic speed in packets per second. Threshold." ["resource"; "type"] [];
   family "kdp_incoming_tcp_traffic_pps_mult1"
     "Incoming TCP traffic speed in packets per second. Mult1." ["resource"; "type"] [];
   family "kdp_incoming_tcp_traffic_pps_mult2"
     "Incoming TCP traffic speed in packets per second. Mult2." ["resource"; "type"] [];
   family "kdp_incoming_tcp_traffic_pps"
     "Incoming TCP traffic speed in packets per second. pps." ["resource"; "type"] [];
   family "kdp_http_hits_rate_direction"
     "HTTP. Number of requests. Direction." ["resource"; "type"] [];
   family "kdp_http_hits_rate_threshold"
     "HTTP. Number of requests. Threshold." ["resource"; "type"] [];
   family "kdp_http_hits_rate_mult1"
     "HTTP. Number of requests. Mult1." ["resource"; "type"] [];
   family "kdp_http_hits_rate_mult2"
     "HTTP. Number of requests. Mult2." ["resource"; "type"] [];
   family "kdp_http_hits_rate"
     "HTTP. Number of requests. hits/sec." ["resource"; "type"] []].

(** A computation that only adds samples: it returns normally and the
    families it leaves depend on the families it finds, not on the rest
    of the collector. *)
Definition metric_only (m : M unit) : Prop :=
  forall rid ms lg cs,
    m (Build_Collector rid ms lg cs) =
    (Ok tt,
     Build_Collector rid
       (metrics (snd (m (Build_Collector None ms [] [])))) lg cs).

(** A computation that leaves the list of family names as it is. *)
Definition keeps_names {A} (m : M A) : Prop :=
  forall self,
    map name (metrics (snd (m self))) = map name (metrics self).

(** The fifty families of [measured_parameters] with the samples the
    loops have added. *)
Definition classifier_families (cfg : Config)
    (param_list : option (list MeasuredParameter.t))
    (param_data : option (list ParameterData.t)) : list GaugeMetricFamily :=
  metrics (snd (measured_parameters cfg param_list param_data (fresh None))).

(** Iterating over [None] is the only failure of the loops. *)
Definition classifier_outcome
    (param_list : option (list MeasuredParameter.t))
    (param_data : option (list ParameterData.t)) : exn + unit :=
  match param_list, param_data with
  | None, _ => inl (TypeError "'NoneType' object is not iterable")
  | Some (_ :: _), None => inl (TypeError "'NoneType' object is not iterable")
  | _, _ => inr tt
  end.

Definition measured_parameters_effect (cfg : Config)
    (param_list : option (list MeasuredParameter.t))
    (param_data : option (list ParameterData.t))
    (rid : option Z) : Collector :=
  {| resource_id := rid;
     metrics := classifier_families cfg param_list param_data;
     logger := started_record cfg "measured_parameters"
               :: failure cfg "measured_parameters"
                    (classifier_outcome param_list param_data);
     calls := [] |}.

(** ** One pass of [collect], step by step *)

(** The collector after a method whose effect on a fresh collector is
    [effect]. *)
Definition after (self : Collector) (effect : option Z -> Collector)
    : Collector :=
  prepend (frame_of self) (effect (resource_id self)).

Definition warning_effect (kdp : Remote) (rid : option Z) : Collector :=
  {| resource_id := rid;
     metrics := [];
     logger := if ping_result kdp then []
               else [{| level := WARNING;
                        msg := "Skipping the API availability check" |}];
     calls := [] |}.

(** What the two measured-parameter requests hand to the classifier when
    the resource id is [rid]. *)
Definition plist_of (kdp : Remote) (rid : option Z)
    : option (list MeasuredParameter.t) :=
  returned (scoped rid (get_measured_parameter_list_reply kdp)).

Definition pdata_of (kdp : Remote) (rid : option Z)
    : option (list ParameterData.t) :=
  returned (scoped rid (get_measured_parameter_data_reply kdp)).

Definition classifier_effect (cfg : Config) (kdp : Remote) (rid : option Z)
    : Collector :=
  measured_parameters_effect cfg (plist_of kdp rid) (pdata_of kdp rid) rid.

(** The collector at the end of [collect]. *)
Definition collect_state (cfg : Config) (kdp : Remote) (self : Collector)
    : Collector :=
  let self := after self (ping_effect kdp) in
  let self := after self (warning_effect kdp) in
  let self := after self (get_api_version_effect cfg kdp) in
  let self := after self (client_resource_list_effect cfg kdp) in
  let self := after self (get_measured_parameter_list_effect cfg kdp) in
  let self := after self (get_measured_parameter_data_effect cfg kdp) in
  let self := after self (classifier_effect cfg kdp) in
  let self := after self (get_protocol_ratio_effect cfg kdp) in
  let self := after self (get_resource_geo_ratio_effect cfg kdp) in
  let self := after self (get_resource_new_ip_blocks_effect cfg kdp) in
  let self := after self (get_resource_anomaly_list_effect cfg kdp) in
  after self (attack_active_list_effect cfg kdp).

(** The remote calls of one pass, in the order of the code, when the
    resource id after [client_resource_list] is [rid]. *)
Definition collect_calls (rid : option Z) : list string :=
  ["ping"; "get_api_version"; "client_resource_list"]
  ++ scoped_calls "get_measured_parameter_list" rid
  ++ scoped_calls "get_measured_parameter_data" rid
  ++ scoped_calls "get_protocol_ratio" rid
  ++ scoped_calls "get_resource_geo_ratio" rid
  ++ scoped_calls "get_resource_new_ip_blocks" rid
  ++ scoped_calls "get_resource_anomaly_list" rid
  ++ ["attack_active_list"].

(** The families one pass adds, in the order of the code. *)
Definition collect_families (cfg : Config) (kdp : Remote) (rid : option Z)
    : list GaugeMetricFamily :=
  metrics (get_api_version_effect cfg kdp rid)
  ++ metrics (client_resource_list_effect cfg kdp rid)
  ++ metrics (classifier_effect cfg kdp (resolved cfg kdp rid))
  ++ metrics (get_resource_geo_ratio_effect cfg kdp (resolved cfg kdp rid))
  ++ metrics (get_resource_new_ip_blocks_effect cfg kdp
                (resolved cfg kdp rid))
  ++ metrics (get_resource_anomaly_list_effect cfg kdp
                (resolved cfg kdp rid))
  ++ metrics (attack_active_list_effect cfg kdp (resolved cfg kdp rid)).

(** The names of the families one pass registers, in order. *)
Definition catalog : list string :=
  ["kdp_api_version"; "kdp_client_resource"]
  ++ map name parameter_families
  ++ ["kdp_resource_geo_ratio_prc"; "kdp_resource_new_ip_blocks_count";
      "kdp_resource_anomaly_max_value"; "kdp_resource_anomaly_max_percent";
      "kdp_resource_attack_incoming_traffic_bps";
      "kdp_resource_attack_incoming_traffic_pps";
      "kdp_resource_attack_http_rate"].

(** The families of the last four steps of a pass when the resource id
    is [rid]: their samples come from the answers to their own requests. *)
Definition last_families (cfg : Config) (kdp : Remote) (rid : option Z)
    : list GaugeMetricFamily :=
  [family "kdp_resource_geo_ratio_prc"
     "Requests by Country. Ratio." ["name"; "country"]
     (map (geo_sample cfg)
        (records (scoped rid (get_resource_geo_ratio_reply kdp))));
   family "kdp_resource_new_ip_blocks_count"
     "Count of new IP blocked. Count." ["name"]
     (map (new_ip_sample cfg)
        (records (scoped rid (get_resource_new_ip_blocks_reply kdp))));
   family "kdp_resource_anomaly_max_value"
     "Anomaly. Value of measured parameter in a max point."
     ["name"; "parameter"; "state"; "color"]
     (map (anomaly_value_sample cfg)
        (records (scoped rid (get_resource_anomaly_list_reply kdp))));
   family "kdp_resource_anomaly_max_percent"
     "Anomaly. Percent of deviation in measured parameter."
     ["name"; "parameter"; "state"; "color"]
     (map (anomaly_percent_sample cfg)
        (records (scoped rid (get_resource_anomaly_list_reply kdp))));
   family "kdp_resource_attack_incoming_traffic_bps"
     "Anomaly. Incoming traffic during anomaly. bps."
     ["name"; "attack_id"; "attack_type"]
     (map (fun i => {| labels := attack_labels cfg i;
                       value := Attack.max_point_value_bps i |})
        (records (attack_outcome kdp rid)));
   family "kdp_resource_attack_incoming_traffic_pps"
     "Anomaly. Incoming traffic during anomaly. pps."
     ["name"; "attack_id"; "attack_type"]
     (map (fun i => {| labels := attack_labels cfg i;
                       value := Attack.max_point_value_pps i |})
        (records (attack_outcome kdp rid)));
   family "kdp_resource_attack_http_rate"
     "Anomaly. HTTP requests rate during anomaly. hits/s."
     ["name"; "attack_id"; "attack_type"]
     (map (fun i => {| labels := attack_labels cfg i;
                       value := Attack.max_point_value_pps i |})
        (records (attack_outcome kdp rid)))].

(** The ten names the classifier dispatches on. *)
Definition known_short_names : list string :=
  ["Number of IPs"; "SYN packets"; "SYN rating";
   "Incoming traffic in bps"; "Incoming traffic in pps";
   "Outgoing traffic in bps"; "Outgoing traffic in pps";
   "Incoming ICMP traffic"; "Incoming TCP traffic"; "HTTP. Requests"].

(** The fifty families after the loops have run over the definitions
    [pl] and the data points [pd]. *)
Definition classified (cfg : Config) (pl : list MeasuredParameter.t)
    (pd : list ParameterData.t) : list GaugeMetricFamily :=
  metrics (snd (measured_parameter_loops cfg
       0 1 2 3 4 5 6 7 8 9 10 11 12 13 14 15 16 17 18 19 20 21 22
       23 24 25 26 27 28 29 30 31 32 33 34 35 36 37 38 39 40 41 42
       43 44 45 46 47 48 49
       (Some pl) (Some pd)
       {| resource_id := None; metrics := parameter_families;
          logger := []; calls := [] |})).

(** The samples of the families of [out] whose name is [n]. *)
Definition samples_named (n : string) (out : list GaugeMetricFamily)
    : list Sample :=
  flat_map samples (filter (fun f => name f = n) out).

(** The order of the remote calls as the specification lists it. *)
Definition specified_calls : list string :=
  ["ping"; "get_api_version"; "client_resource_list";
   "get_protocol_ratio"; "get_resource_geo_ratio";
   "get_resource_new_ip_blocks";
   "get_measured_parameter_list"; "get_measured_parameter_data";
   "get_resource_anomaly_list"; "attack_active_list"].

(** The methods that log their start, in the order [collect] runs them. *)
Definition collect_methods : list string :=
  ["get_api_version"; "client_resource_list";
   "get_measured_parameter_list"; "get_measured_parameter_data";
   "measured_parameters"; "get_protocol_ratio"; "get_resource_geo_ratio";
   "get_resource_new_ip_blocks"; "get_resource_anomaly_list";
   "attack_active_list"].

(** ** Concrete inputs used by the examples below *)

Definition example_config : Config :=
  {| kdp_client_id := 1;
     kdp_user_id := 2;
     kdp_secret_key := "secret";
     resource_name := "site";
     locale_id := 10 |}.

Definition example_resource (i : Z) (n : string) : Resource.t :=
  {| Resource.id := i;
     Resource.name := n;
     Resource.group_id := 1;
     Resource.group := "web";
     Resource.internal_ip := "10.0.0.1";
     Resource.external_ip := "192.0.2.1";
     Resource.redirection_method_name := "bgp" |}.

Definition example_definition (n : string) : MeasuredParameter.t :=
  {| MeasuredParameter.id := 5;
     MeasuredParameter.short_name := n;
     MeasuredParameter.description := "";
     MeasuredParameter.unit_type_name := "pps";
     MeasuredParameter.direction := 1;
     MeasuredParameter.parent_id := 0;
     MeasuredParameter.check_id := 3;
     MeasuredParameter.is_favourite := "t" |}.

Definition example_point (stamp : string) (ty : Z) (v : pyvalue)
    : ParameterData.t :=
  {| ParameterData.unit_check_id := 5;
     ParameterData.timestamp := stamp;
     ParameterData.type := ty;
     ParameterData.value := v;
     ParameterData.threshold := VNum 100;
     ParameterData.mult1 := VNum 2;
     ParameterData.mult2 := VNum 3 |}.

Definition example_attack (i rid : Z) : Attack.t :=
  {| Attack.attack_id := i;
     Attack.attack_type := "SYN flood";
     Attack.start := "2023-11-14 22:10:00";
     Attack.resource_id := rid;
     Attack.resource_name := "site";
     Attack.group_id := 1;
     Attack.group_name := "web";
     Attack.max_point_value_bps := VNum 8000;
     Attack.max_point_value_pps := VNum 40;
     Attack.max_point_value_rps := VNum 6 |}.

Definition example_anomaly : Anomaly.t :=
  {| Anomaly.id := 11;
     Anomaly.color := 2;
     Anomaly.start := "2023-11-14 22:10:00";
     Anomaly.last := "2023-11-14 22:12:00";
     Anomaly.state := "active";
     Anomaly.measured_parameter_id := 5;
     Anomaly.measured_parameter_type_id := 3;
     Anomaly.measured_parameter_short_name := "SYN packets";
     Anomaly.measured_parameter_units := "pps";
     Anomaly.measured_parameter_direction := "1";
     Anomaly.max_point_timestamp := "2023-11-14 22:11:00";
     Anomaly.max_point_value := VNum 40;
     Anomaly.max_point_threshold := VNum 10;
     Anomaly.max_point_percentage := VNum 400 |}.

(** A service that answers every request.  Two resources carry the
    configured name, and the five-minute window holds two minutes of
    new-IP-block counts and two dirty points of one parameter. *)
Definition example_remote : Remote :=
  {| ping_reply := Reply 1;
     get_api_version_reply :=
       Reply (Some {| ApiVersion.version := "1.0";
                      ApiVersion.mode := "client" |});
     client_resource_list_reply :=
       Reply [example_resource 7 "site"; example_resource 8 "other";
              example_resource 9 "site"];
     get_protocol_ratio_reply :=
       Reply [{| ProtocolRatio.timestamp := "2023-11-14 22:11:00";
                 ProtocolRatio.elements := [("tcp", "0.9")] |}];
     get_resource_geo_ratio_reply :=
       Reply [{| GeoRatio.country := "Russia"; GeoRatio.value := VNum 1 |}];
     get_measured_parameter_list_reply :=
       Reply [example_definition "SYN packets"];
     get_measured_parameter_data_reply :=
       Reply [example_point "2023-11-14 22:11:00" 0 (VNum (25 # 2));
              example_point "2023-11-14 22:11:00" 2 (VNum 3);
              example_point "2023-11-14 22:12:00" 0 (VNum 14)];
     get_resource_new_ip_blocks_reply :=
       Reply [{| NewIpBlocks.timestamp := "2023-11-14 22:11:00";
                 NewIpBlocks.new_ip_blocks := VInt 3 |};
              {| NewIpBlocks.timestamp := "2023-11-14 22:12:00";
                 NewIpBlocks.new_ip_blocks := VInt 4 |}];
     get_resource_anomaly_list_reply := Reply [example_anomaly];
     attack_active_list_reply :=
       Reply [example_attack 21 9; example_attack 22 8] |}.

(** The same service when no resource carries the configured name. *)
Definition example_remote_unresolved : Remote :=
  {| ping_reply := ping_reply example_remote;
     get_api_version_reply := get_api_version_reply example_remote;
     client_resource_list_reply := Reply [example_resource 8 "other"];
     get_protocol_ratio_reply := get_protocol_ratio_reply example_remote;
     get_resource_geo_ratio_reply :=
       get_resource_geo_ratio_reply example_remote;
     get_measured_parameter_list_reply :=
       get_measured_parameter_list_reply example_remote;
     get_measured_parameter_data_reply :=
       get_measured_parameter_data_reply example_remote;
     get_resource_new_ip_blocks_reply :=
       get_resource_new_ip_blocks_reply example_remote;
     get_resource_anomaly_list_reply :=
       get_resource_anomaly_list_reply example_remote;
     attack_active_list_reply := attack_active_list_reply example_remote |}.

(** The same service when the geo-ratio request raises. *)
Definition example_remote_geo_fault : Remote :=
  {| ping_reply := ping_reply example_remote;
     get_api_version_reply := get_api_version_reply example_remote;
     client_resource_list_reply := client_resource_list_reply example_remote;
     get_protocol_ratio_reply := get_protocol_ratio_reply example_remote;
     get_resource_geo_ratio_reply := Fault "Server raised fault";
     get_measured_parameter_list_reply :=
       get_measured_parameter_list_reply example_remote;
     get_measured_parameter_data_reply :=
       get_measured_parameter_data_reply example_remote;
     get_resource_new_ip_blocks_reply :=
       get_resource_new_ip_blocks_reply example_remote;
     get_resource_anomaly_list_reply :=
       get_resource_anomaly_list_reply example_remote;
     attack_active_list_reply := attack_active_list_reply example_remote |}.

(** ** Further notions used by the properties of the signer *)

(** The characters [hexdigest] may produce. *)
Definition lower_hex (c : ascii) : Prop :=
  In c (list_ascii_of_string "0123456789abcdef").

(** [''.join(str(arg) for arg in args)]. *)
Definition joined_args (args : list pyarg) : string :=
  String.concat "" (map str args).

(** ** The classifier as a table

    What the nested loops and the chain of comparisons of
    [measured_parameters] amount to: a data point is joined to a
    definition by its [unit_check_id] when its value is not null, the
    [short_name] selects one of ten kinds, and a joined pair adds five
    samples to the five families of its kind. *)

Definition joins (l : MeasuredParameter.t) (d : ParameterData.t) : bool :=
  (MeasuredParameter.id l =? ParameterData.unit_check_id d)
  && is_not_None (ParameterData.value d).

Definition dtype_of (ty : Z) : string :=
  if ty =? 0 then "dirty" else if ty =? 2 then "clean" else "N/A".

(** The position of a [short_name] among the ten known names. *)
Definition kind_of (n : string) : option nat :=
  if String.eqb n "Number of IPs" then Some 0%nat
  else if String.eqb n "SYN packets" then Some 1%nat
  else if String.eqb n "SYN rating" then Some 2%nat
  else if String.eqb n "Incoming traffic in bps" then Some 3%nat
  else if String.eqb n "Incoming traffic in pps" then Some 4%nat
  else if String.eqb n "Outgoing traffic in bps" then Some 5%nat
  else if String.eqb n "Outgoing traffic in pps" then Some 6%nat
  else if String.eqb n "Incoming ICMP traffic" then Some 7%nat
  else if String.eqb n "Incoming TCP traffic" then Some 8%nat
  else if String.eqb n "HTTP. Requests" then Some 9%nat
  else None.

(** One call of [add_metric]: the position of the family among the
    fifty, the label values and the value. *)
Definition addition : Type := nat * list string * pyvalue.

(** The calls of [add_metric] for one definition and one data point. *)
Definition emitted (cfg : Config) (l : MeasuredParameter.t)
    (d : ParameterData.t) : list addition :=
  if joins l d then
    match kind_of (MeasuredParameter.short_name l) with
    | Some k =>
        let lbls := [resource_name cfg; dtype_of (ParameterData.type d)] in
        [((5 * k)%nat, lbls, VInt (MeasuredParameter.direction l));
         ((5 * k + 1)%nat, lbls, ParameterData.threshold d);
         ((5 * k + 2)%nat, lbls, ParameterData.mult1 d);
         ((5 * k + 3)%nat, lbls, ParameterData.mult2 d);
         ((5 * k + 4)%nat, lbls, ParameterData.value d)]
    | None => []
    end
  else [].

(** All the calls, definition by definition and, for each definition,
    data point by data point. *)
Definition additions (cfg : Config) (pl : list MeasuredParameter.t)
    (pd : list ParameterData.t) : list addition :=
  flat_map (fun l => flat_map (emitted cfg l) pd) pl.

Definition place (ms : list GaugeMetricFamily) (a : addition)
    : list GaugeMetricFamily :=
  let '(h, lbls, v) := a in alter (add_sample lbls v) h ms.

(** The pairs of a definition of a known kind and a data point joined to
    it. *)
Definition joined_pairs (pl : list MeasuredParameter.t)
    (pd : list ParameterData.t)
    : list (MeasuredParameter.t * ParameterData.t) :=
  flat_map (fun l =>
    match kind_of (MeasuredParameter.short_name l) with
    | Some _ => map (pair l) (filter (fun d => joins l d = true) pd)
    | None => []
    end) pl.

(** A sample of the classifier: labelled with the configured resource
    and one of the three types. *)
Definition classifier_sample (cfg : Config) (s : Sample) : Prop :=
  exists ty,
    labels s = [("resource", resource_name cfg); ("type", ty)] /\
    In ty ["dirty"; "clean"; "N/A"].

(** ** Further notions used by the properties of a whole pass *)

(** The service with another answer to [ping]. *)
Definition with_ping (r : Response Z) (kdp : Remote) : Remote :=
  {| ping_reply := r;
     get_api_version_reply := get_api_version_reply kdp;
     client_resource_list_reply := client_resource_list_reply kdp;
     get_protocol_ratio_reply := get_protocol_ratio_reply kdp;
     get_resource_geo_ratio_reply := get_resource_geo_ratio_reply kdp;
     get_measured_parameter_list_reply :=
       get_measured_parameter_list_reply kdp;
     get_measured_parameter_data_reply :=
       get_measured_parameter_data_reply kdp;
     get_resource_new_ip_blocks_reply := get_resource_new_ip_blocks_reply kdp;
     get_resource_anomaly_list_reply := get_resource_anomaly_list_reply kdp;
     attack_active_list_reply := attack_active_list_reply kdp |}.

(** A request that raises. *)
Definition faulty {A} (r : Response A) : Prop := exists text, r = Fault text.

(** A service every request to which raises. *)
Definition unreachable (kdp : Remote) : Prop :=
  faulty (ping_reply kdp) /\
  faulty (get_api_version_reply kdp) /\
  faulty (client_resource_list_reply kdp) /\
  faulty (get_protocol_ratio_reply kdp) /\
  faulty (get_resource_geo_ratio_reply kdp) /\
  faulty (get_measured_parameter_list_reply kdp) /\
  faulty (get_measured_parameter_data_reply kdp) /\
  faulty (get_resource_new_ip_blocks_reply kdp) /\
  faulty (get_resource_anomaly_list_reply kdp) /\
  faulty (attack_active_list_reply kdp).

(** The service when the connection times out. *)
Definition example_remote_down : Remote :=
  {| ping_reply := Fault "timed out";
     get_api_version_reply := Fault "timed out";
     client_resource_list_reply := Fault "timed out";
     get_protocol_ratio_reply := Fault "timed out";
     get_resource_geo_ratio_reply := Fault "timed out";
     get_measured_parameter_list_reply := Fault "timed out";
     get_measured_parameter_data_reply := Fault "timed out";
     get_resource_new_ip_blocks_reply := Fault "timed out";
     get_resource_anomaly_list_reply := Fault "timed out";
     attack_active_list_reply := Fault "timed out" |}.

(** * Properties *)

(** ** The frame rules *)

Section FrameRules.

Variable fr : Frame.

Lemma framed_ret {A} (R : A -> A -> Prop) a a' :
  R a a' -> framed fr R (ret a) (ret a').
Proof. intros H self. split; [reflexivity | exact H]. Qed.

Lemma framed_raise {A} (R : A -> A -> Prop) e :
  framed fr R (raise e) (raise e).
Proof. intros self. split; reflexivity. Qed.

Lemma framed_bind {A B} (R : A -> A -> Prop) (R' : B -> B -> Prop)
    (m m' : M A) (k k' : A -> M B) :
  framed fr R m m' ->
  (forall a a', R a a' -> framed fr R' (k a) (k' a')) ->
  framed fr R' (bind m k) (bind m' k').
Proof.
  intros Hm Hk self. unfold bind.
  destruct (Hm self) as [Hs Hr].
  destruct (m self) as [[a|e] s1], (m' (prepend fr self)) as [[a'|e'] s1'];
    simpl in *; try contradiction; subst.
  - apply Hk, Hr.
  - split; reflexivity.
Qed.

Lemma framed_try_except {A} (R : A -> A -> Prop) (b b' : M A)
    (h h' : exn -> M A) :
  framed fr R b b' ->
  (forall e, framed fr R (h e) (h' e)) ->
  framed fr R (try_except b h) (try_except b' h').
Proof.
  intros Hb Hh self. unfold try_except.
  destruct (Hb self) as [Hs Hr].
  destruct (b self) as [[a|e] s1], (b' (prepend fr self)) as [[a'|e'] s1'];
    simpl in *; try contradiction; subst.
  - split; [reflexivity | exact Hr].
  - apply Hh.
Qed.

Lemma framed_for_each {A} (xs : list A) (f f' : A -> M unit) :
  (forall x, framed fr eq (f x) (f' x)) ->
  framed fr eq (for_each xs f) (for_each xs f').
Proof.
  intros Hf. induction xs as [|x xs IH]; simpl.
  - apply framed_ret. reflexivity.
  - eapply framed_bind; [apply Hf | intros; apply IH].
Qed.

Lemma framed_if {A} (R : A -> A -> Prop) (c : bool) (a a' b b' : M A) :
  framed fr R a a' -> framed fr R b b' ->
  framed fr R (if c then a else b) (if c then a' else b').
Proof. destruct c; auto. Qed.

Lemma framed_same {A} (m : M A) :
  (forall self, m (prepend fr self) =
                (fst (m self), prepend fr (snd (m self)))) ->
  framed fr eq m m.
Proof.
  intros H self. rewrite H. split; [reflexivity|].
  simpl. destruct (fst (m self)); reflexivity.
Qed.

Lemma framed_log lv text : framed fr eq (log lv text) (log lv text).
Proof.
  apply framed_same. intros self. unfold log, prepend. simpl.
  rewrite app_assoc. reflexivity.
Qed.

Lemma framed_assert b : framed fr eq (assert b) (assert b).
Proof. apply framed_same. destruct b; reflexivity. Qed.

Lemma framed_iter {A} (xs : option (list A)) :
  framed fr eq (iter xs) (iter xs).
Proof. apply framed_same. destruct xs; reflexivity. Qed.

Lemma framed_self_resource_id :
  framed fr eq self_resource_id self_resource_id.
Proof.
  apply framed_same. intros self. unfold self_resource_id. simpl.
  destruct (resource_id self); reflexivity.
Qed.

Lemma framed_set_resource_id rid :
  framed fr eq (set_resource_id rid) (set_resource_id rid).
Proof. apply framed_same. reflexivity. Qed.

Lemma framed_service {A} op (answer : Response A) :
  framed fr eq (service op answer) (service op answer).
Proof.
  apply framed_same. intros self. unfold service, prepend.
  destruct answer; simpl; rewrite app_assoc; reflexivity.
Qed.

Lemma framed_register n d l :
  framed fr (moved fr) (register n d l) (register n d l).
Proof.
  intros self. split; simpl.
  - unfold prepend. simpl. rewrite app_assoc. reflexivity.
  - unfold moved, shifted. rewrite length_app. reflexivity.
Qed.

Lemma framed_add_metric h h' lbls v :
  moved fr h h' ->
  framed fr eq (add_metric h lbls v) (add_metric h' lbls v).
Proof.
  intros -> self. split; simpl; [|reflexivity].
  unfold prepend, shifted. simpl. rewrite alter_app_r. reflexivity.
Qed.

Lemma framed_metrics :
  framed fr (extended fr)
    (fun self => (Ok (metrics self), self))
    (fun self => (Ok (metrics self), self)).
Proof. intros self. split; reflexivity. Qed.

End FrameRules.

Ltac framed_step :=
  unfold moved, shifted in *; subst;
  lazymatch goal with
  | |- framed _ _ (bind _ _) (bind _ _) =>
      eapply framed_bind; [| intros ? ? ?]
  | |- framed _ _ (try_except _ _) (try_except _ _) =>
      apply framed_try_except; [| intros ?]
  | |- framed _ _ (for_each _ _) (for_each _ _) =>
      apply framed_for_each; intros ?
  | |- framed _ _ (if _ then _ else _) (if _ then _ else _) =>
      apply framed_if
  | |- framed _ _ (match ?x with Some _ => _ | None => _ end) _ =>
      destruct x
  | |- framed _ _ (log _ _) _ => apply framed_log
  | |- framed _ _ (started _ _) _ => apply framed_log
  | |- framed _ _ (failed _ _ _) _ => apply framed_log
  | |- framed _ _ (assert _) _ => apply framed_assert
  | |- framed _ _ (iter _) _ => apply framed_iter
  | |- framed _ _ self_resource_id _ => apply framed_self_resource_id
  | |- framed _ _ (set_resource_id _) _ => apply framed_set_resource_id
  | |- framed _ _ (service _ _) _ => apply framed_service
  | |- framed _ _ (register _ _ _) _ => apply framed_register
  | |- framed _ _ (add_metric _ _ _) _ =>
      apply framed_add_metric; reflexivity
  | |- framed _ _ (raise _) _ => apply framed_raise
  | |- framed _ _ (ret _) _ =>
      apply framed_ret; first [reflexivity | assumption]
  end.

Ltac framed_auto := repeat framed_step.

Section ClassifierIsFramed.

Variable fr : Frame.
Variable cfg : Config.

Variables
  metric_ip_rate_direction metric_ip_rate_threshold metric_ip_rate_mult1
  metric_ip_rate_mult2 metric_ip_rate metric_syn_packets_direction
  metric_syn_packets_threshold metric_syn_packets_mult1
  metric_syn_packets_mult2 metric_syn_packets metric_syn_rating_direction
  metric_syn_rating_threshold metric_syn_rating_mult1
  metric_syn_rating_mult2 metric_syn_rating
  metric_incoming_traffic_bps_direction
  metric_incoming_traffic_bps_threshold metric_incoming_traffic_bps_mult1
  metric_incoming_traffic_bps_mult2 metric_incoming_traffic_bps
  metric_incoming_traffic_pps_direction
  metric_incoming_traffic_pps_threshold metric_incoming_traffic_pps_mult1
  metric_incoming_traffic_pps_mult2 metric_incoming_traffic_pps
  metric_outgoing_traffic_bps_direction
  metric_outgoing_traffic_bps_threshold metric_outgoing_traffic_bps_mult1
  metric_outgoing_traffic_bps_mult2 metric_outgoing_traffic_bps
  metric_outgoing_traffic_pps_direction
  metric_outgoing_traffic_pps_threshold metric_outgoing_traffic_pps_mult1
  metric_outgoing_traffic_pps_mult2 metric_outgoing_traffic_pps
  metric_incoming_icmp_traffic_pps_direction
  metric_incoming_icmp_traffic_pps_threshold
  metric_incoming_icmp_traffic_pps_mult1
  metric_incoming_icmp_traffic_pps_mult2 metric_incoming_icmp_traffic_pps
  metric_incoming_tcp_traffic_pps_direction
  metric_incoming_tcp_traffic_pps_threshold
  metric_incoming_tcp_traffic_pps_mult1
  metric_incoming_tcp_traffic_pps_mult2 metric_incoming_tcp_traffic_pps
  metric_http_hits_rate_direction metric_http_hits_rate_threshold
  metric_http_hits_rate_mult1 metric_http_hits_rate_mult2
  metric_http_hits_rate
  : nat.

Lemma measured_parameter_loops_framed pl pd :
  framed fr eq
    (measured_parameter_loops cfg
       metric_ip_rate_direction metric_ip_rate_threshold
       metric_ip_rate_mult1 metric_ip_rate_mult2 metric_ip_rate
       metric_syn_packets_direction metric_syn_packets_threshold
       metric_syn_packets_mult1 metric_syn_packets_mult2 metric_syn_packets
       metric_syn_rating_direction metric_syn_rating_threshold
       metric_syn_rating_mult1 metric_syn_rating_mult2 metric_syn_rating
       metric_incoming_traffic_bps_direction
       metric_incoming_traffic_bps_threshold
       metric_incoming_traffic_bps_mult1 metric_incoming_traffic_bps_mult2
       metric_incoming_traffic_bps metric_incoming_traffic_pps_direction
       metric_incoming_traffic_pps_threshold
       metric_incoming_traffic_pps_mult1 metric_incoming_traffic_pps_mult2
       metric_incoming_traffic_pps metric_outgoing_traffic_bps_direction
       metric_outgoing_traffic_bps_threshold
       metric_outgoing_traffic_bps_mult1 metric_outgoing_traffic_bps_mult2
       metric_outgoing_traffic_bps metric_outgoing_traffic_pps_direction
       metric_outgoing_traffic_pps_threshold
       metric_outgoing_traffic_pps_mult1 metric_outgoing_traffic_pps_mult2
       metric_outgoing_traffic_pps
       metric_incoming_icmp_traffic_pps_direction
       metric_incoming_icmp_traffic_pps_threshold
       metric_incoming_icmp_traffic_pps_mult1
       metric_incoming_icmp_traffic_pps_mult2
       metric_incoming_icmp_traffic_pps
       metric_incoming_tcp_traffic_pps_direction
       metric_incoming_tcp_traffic_pps_threshold
       metric_incoming_tcp_traffic_pps_mult1
       metric_incoming_tcp_traffic_pps_mult2
       metric_incoming_tcp_traffic_pps metric_http_hits_rate_direction
       metric_http_hits_rate_threshold metric_http_hits_rate_mult1
       metric_http_hits_rate_mult2 metric_http_hits_rate
       pl pd)
    (measured_parameter_loops cfg
       (shifted fr metric_ip_rate_direction)
       (shifted fr metric_ip_rate_threshold) (shifted fr metric_ip_rate_mult1)
       (shifted fr metric_ip_rate_mult2) (shifted fr metric_ip_rate)
       (shifted fr metric_syn_packets_direction)
       (shifted fr metric_syn_packets_threshold)
       (shifted fr metric_syn_packets_mult1)
       (shifted fr metric_syn_packets_mult2) (shifted fr metric_syn_packets)
       (shifted fr metric_syn_rating_direction)
       (shifted fr metric_syn_rating_threshold)
       (shifted fr metric_syn_rating_mult1) (shifted fr metric_syn_rating_mult2)
       (shifted fr metric_syn_rating)
       (shifted fr metric_incoming_traffic_bps_direction)
       (shifted fr metric_incoming_traffic_bps_threshold)
       (shifted fr metric_incoming_traffic_bps_mult1)
       (shifted fr metric_incoming_traffic_bps_mult2)
       (shifted fr metric_incoming_traffic_bps)
       (shifted fr metric_incoming_traffic_pps_direction)
       (shifted fr metric_incoming_traffic_pps_threshold)
       (shifted fr metric_incoming_traffic_pps_mult1)
       (shifted fr metric_incoming_traffic_pps_mult2)
       (shifted fr metric_incoming_traffic_pps)
       (shifted fr metric_outgoing_traffic_bps_direction)
       (shifted fr metric_outgoing_traffic_bps_threshold)
       (shifted fr metric_outgoing_traffic_bps_mult1)
       (shifted fr metric_outgoing_traffic_bps_mult2)
       (shifted fr metric_outgoing_traffic_bps)
       (shifted fr metric_outgoing_traffic_pps_direction)
       (shifted fr metric_outgoing_traffic_pps_threshold)
       (shifted fr metric_outgoing_traffic_pps_mult1)
       (shifted fr metric_outgoing_traffic_pps_mult2)
       (shifted fr metric_outgoing_traffic_pps)
       (shifted fr metric_incoming_icmp_traffic_pps_direction)
       (shifted fr metric_incoming_icmp_traffic_pps_threshold)
       (shifted fr metric_incoming_icmp_traffic_pps_mult1)
       (shifted fr metric_incoming_icmp_traffic_pps_mult2)
       (shifted fr metric_incoming_icmp_traffic_pps)
       (shifted fr metric_incoming_tcp_traffic_pps_direction)
       (shifted fr metric_incoming_tcp_traffic_pps_threshold)
       (shifted fr metric_incoming_tcp_traffic_pps_mult1)
       (shifted fr metric_incoming_tcp_traffic_pps_mult2)
       (shifted fr metric_incoming_tcp_traffic_pps)
       (shifted fr metric_http_hits_rate_direction)
       (shifted fr metric_http_hits_rate_threshold)
       (shifted fr metric_http_hits_rate_mult1)
       (shifted fr metric_http_hits_rate_mult2)
       (shifted fr metric_http_hits_rate)
       pl pd).
Proof. unfold measured_parameter_loops, shifted. framed_auto. Qed.

End ClassifierIsFramed.

Section MethodsAreFramed.

Variable fr : Frame.
Variable cfg : Config.
Variable kdp : Remote.

Lemma ping_framed : framed fr eq (ping kdp) (ping kdp).
Proof. unfold ping. framed_auto. Qed.

Lemma get_api_version_framed :
  framed fr eq (get_api_version cfg kdp) (get_api_version cfg kdp).
Proof. unfold get_api_version. framed_auto. Qed.

Lemma client_resource_list_framed :
  framed fr eq (client_resource_list cfg kdp) (client_resource_list cfg kdp).
Proof. unfold client_resource_list. framed_auto. Qed.

Lemma get_protocol_ratio_framed :
  framed fr eq (get_protocol_ratio cfg kdp) (get_protocol_ratio cfg kdp).
Proof. unfold get_protocol_ratio. framed_auto. Qed.

Lemma get_resource_geo_ratio_framed :
  framed fr eq (get_resource_geo_ratio cfg kdp)
    (get_resource_geo_ratio cfg kdp).
Proof. unfold get_resource_geo_ratio. framed_auto. Qed.

Lemma get_measured_parameter_list_framed :
  framed fr eq (get_measured_parameter_list cfg kdp)
    (get_measured_parameter_list cfg kdp).
Proof. unfold get_measured_parameter_list. framed_auto. Qed.

Lemma get_measured_parameter_data_framed :
  framed fr eq (get_measured_parameter_data cfg kdp)
    (get_measured_parameter_data cfg kdp).
Proof. unfold get_measured_parameter_data. framed_auto. Qed.

Lemma get_resource_new_ip_blocks_framed :
  framed fr eq (get_resource_new_ip_blocks cfg kdp)
    (get_resource_new_ip_blocks cfg kdp).
Proof. unfold get_resource_new_ip_blocks. framed_auto. Qed.

Lemma get_resource_anomaly_list_framed :
  framed fr eq (get_resource_anomaly_list cfg kdp)
    (get_resource_anomaly_list cfg kdp).
Proof. unfold get_resource_anomaly_list. framed_auto. Qed.

Lemma attack_active_list_framed :
  framed fr eq (attack_active_list cfg kdp) (attack_active_list cfg kdp).
Proof. unfold attack_active_list. framed_auto. Qed.

Lemma measured_parameters_framed pl pd :
  framed fr eq (measured_parameters cfg pl pd)
    (measured_parameters cfg pl pd).
Proof.
  unfold measured_parameters. framed_auto.
  apply measured_parameter_loops_framed.
Qed.

End MethodsAreFramed.

(** ** Running a method on any collector *)

Lemma prepend_fresh self :
  prepend (frame_of self) (fresh (resource_id self)) = self.
Proof.
  destruct self as [rid ms lg cs]. unfold prepend, frame_of, fresh. simpl.
  rewrite !app_nil_r. reflexivity.
Qed.

Lemma run_framed {A} (m : M A) self :
  framed (frame_of self) eq m m ->
  m self = (fst (m (fresh (resource_id self))),
            prepend (frame_of self) (snd (m (fresh (resource_id self))))).
Proof.
  intros H. specialize (H (fresh (resource_id self))).
  rewrite prepend_fresh in H. destruct H as [Hs Hr].
  destruct (m self) as [r s1]. simpl in *. subst s1. f_equal.
  destruct (m (fresh (resource_id self))) as [[a|e] s2], r as [a'|e'];
    simpl in *; try contradiction; congruence.
Qed.

Lemma run_effect {A} (m : M A) (a : A) (effect : option Z -> Collector) :
  (forall fr, framed fr eq m m) ->
  (forall rid, m (fresh rid) = (Ok a, effect rid)) ->
  forall self,
    m self = (Ok a, prepend (frame_of self) (effect (resource_id self))).
Proof.
  intros Hf He self. rewrite (run_framed m self (Hf _)), He. reflexivity.
Qed.

(** ** Single steps of a computation *)

Lemma run_bind {A B} (m : M A) (k : A -> M B) self :
  bind m k self =
  match m self with
  | (Ok a, self') => k a self'
  | (Raise e, self') => (Raise e, self')
  end.
Proof. reflexivity. Qed.

Lemma run_try_except {A} (body : M A) (handler : exn -> M A) self :
  try_except body handler self =
  match body self with
  | (Ok a, self') => (Ok a, self')
  | (Raise e, self') => handler e self'
  end.
Proof. reflexivity. Qed.

Lemma run_ret {A} (a : A) self : ret a self = (Ok a, self).
Proof. reflexivity. Qed.

Lemma run_raise {A} (e : exn) self : @raise A e self = (Raise e, self).
Proof. reflexivity. Qed.

Lemma run_log lv text rid ms lg cs :
  log lv text (Build_Collector rid ms lg cs) =
  (Ok tt, Build_Collector rid ms (lg ++ [{| level := lv; msg := text |}]) cs).
Proof. reflexivity. Qed.

Lemma run_started cfg method rid ms lg cs :
  started cfg method (Build_Collector rid ms lg cs) =
  (Ok tt, Build_Collector rid ms (lg ++ [started_record cfg method]) cs).
Proof. reflexivity. Qed.

Lemma run_failed cfg method e rid ms lg cs :
  failed cfg method e (Build_Collector rid ms lg cs) =
  (Ok tt, Build_Collector rid ms (lg ++ [failed_record cfg method e]) cs).
Proof. reflexivity. Qed.

Lemma run_register n d l rid ms lg cs :
  register n d l (Build_Collector rid ms lg cs) =
  (Ok (length ms), Build_Collector rid (ms ++ [family n d l []]) lg cs).
Proof. reflexivity. Qed.

Lemma run_service {A} op (answer : Response A) rid ms lg cs :
  service op answer (Build_Collector rid ms lg cs) =
  (match answer with
   | Fault text => Raise (WebFault text)
   | Reply a => Ok a
   end, Build_Collector rid ms lg (cs ++ [op])).
Proof. destruct answer; reflexivity. Qed.

Lemma run_assert b self :
  assert b self = (if b then Ok tt else Raise AssertionError, self).
Proof. destruct b; reflexivity. Qed.

Lemma run_self_resource_id rid ms lg cs :
  self_resource_id (Build_Collector rid ms lg cs) =
  (match rid with
   | Some r => Ok r
   | None => Raise (AttributeError "resource_id")
   end, Build_Collector rid ms lg cs).
Proof. destruct rid; reflexivity. Qed.

Lemma run_set_resource_id r rid ms lg cs :
  set_resource_id r (Build_Collector rid ms lg cs) =
  (Ok tt, Build_Collector (Some r) ms lg cs).
Proof. reflexivity. Qed.

Lemma run_add_metric h lbls v rid ms lg cs :
  add_metric h lbls v (Build_Collector rid ms lg cs) =
  (Ok tt, Build_Collector rid (alter (add_sample lbls v) h ms) lg cs).
Proof. reflexivity. Qed.

Lemma add_sample_family lbls v n d l smp :
  add_sample lbls v (family n d l smp) =
  family n d l (smp ++ [{| labels := zip l lbls; value := v |}]).
Proof. reflexivity. Qed.

Ltac run_step :=
  first
    [ rewrite run_bind
    | rewrite run_try_except
    | rewrite run_ret
    | rewrite run_raise
    | rewrite run_started
    | rewrite run_failed
    | rewrite run_log
    | rewrite run_register
    | rewrite run_service
    | rewrite run_assert
    | rewrite run_self_resource_id
    | rewrite run_set_resource_id
    | rewrite run_add_metric ].

Ltac run_simpl :=
  cbn [fst snd alter list_alter app length zip zip_with truthy negb
       Z.eqb Pos.eqb resource_id metrics logger calls];
  rewrite ?add_sample_family.

Ltac run := repeat (run_step; run_simpl).

(** ** The loops *)

Lemma loop_one {A} (lbls : A -> list string) (val : A -> pyvalue)
    (req : list A) :
  forall rid n d l smp lg cs,
    for_each req (fun i => add_metric 0 (lbls i) (val i))
      (Build_Collector rid [family n d l smp] lg cs) =
    (Ok tt,
     Build_Collector rid
       [family n d l
          (smp ++ map (fun i => {| labels := zip l (lbls i);
                                   value := val i |}) req)]
       lg cs).
Proof.
  induction req as [|i req IH]; intros; cbn [for_each map].
  - rewrite app_nil_r. reflexivity.
  - run. rewrite IH, <- app_assoc. reflexivity.
Qed.

Lemma matching_cons cfg i req :
  matching cfg (i :: req) =
  if String.eqb (Resource.name i) (resource_name cfg)
  then i :: matching cfg req else matching cfg req.
Proof.
  unfold matching. rewrite filter_cons.
  destruct (String.eqb (Resource.name i) (resource_name cfg)); reflexivity.
Qed.

Lemma client_resource_list_loop cfg (req : list Resource.t) :
  forall rid n d smp lg cs,
    for_each req (fun i =>
      if String.eqb (Resource.name i) (resource_name cfg) then
        bind (set_resource_id (Resource.id i)) (fun _ =>
        add_metric 0
          [Resource.name i; Resource.group i; Resource.internal_ip i;
           Resource.external_ip i; Resource.redirection_method_name i]
          (VInt 1))
      else ret tt)
      (Build_Collector rid
         [family n d ["name"; "group"; "internal_ip"; "external_ip";
                      "redirection_method"] smp] lg cs) =
    (Ok tt,
     Build_Collector
       (match last (matching cfg req) with
        | Some i => Some (Resource.id i)
        | None => rid
        end)
       [family n d ["name"; "group"; "internal_ip"; "external_ip";
                    "redirection_method"]
          (smp ++ map client_resource_sample (matching cfg req))] lg cs).
Proof.
  induction req as [|i req IH]; intros; cbn [for_each].
  - rewrite app_nil_r. reflexivity.
  - rewrite matching_cons, run_bind.
    destruct (String.eqb (Resource.name i) (resource_name cfg)).
    + run. rewrite IH, <- app_assoc, last_cons. cbn [map app].
      destruct (last (matching cfg req)); reflexivity.
    + run. rewrite IH. reflexivity.
Qed.

Lemma anomaly_loop cfg (req : list Anomaly.t) :
  forall rid n1 d1 n2 d2 smp1 smp2 lg cs,
    for_each req (fun i =>
      bind (add_metric 0
        [resource_name cfg; Anomaly.measured_parameter_short_name i;
         Anomaly.state i; str_of_Z (Anomaly.color i)]
        (Anomaly.max_point_value i)) (fun _ =>
      add_metric 1
        [resource_name cfg; Anomaly.measured_parameter_short_name i;
         Anomaly.state i; str_of_Z (Anomaly.color i)]
        (Anomaly.max_point_percentage i)))
      (Build_Collector rid
         [family n1 d1 ["name"; "parameter"; "state"; "color"] smp1;
          family n2 d2 ["name"; "parameter"; "state"; "color"] smp2]
         lg cs) =
    (Ok tt,
     Build_Collector rid
       [family n1 d1 ["name"; "parameter"; "state"; "color"]
          (smp1 ++ map (anomaly_value_sample cfg) req);
        family n2 d2 ["name"; "parameter"; "state"; "color"]
          (smp2 ++ map (anomaly_percent_sample cfg) req)]
       lg cs).
Proof.
  induction req as [|i req IH]; intros; cbn [for_each map].
  - rewrite !app_nil_r. reflexivity.
  - run. rewrite IH, <- !app_assoc. reflexivity.
Qed.

Lemma own_attacks_cons rid i req :
  own_attacks rid (i :: req) =
  if Attack.resource_id i =? rid then i :: own_attacks rid req
  else own_attacks rid req.
Proof.
  unfold own_attacks. rewrite filter_cons.
  destruct (Attack.resource_id i =? rid); reflexivity.
Qed.

Lemma attack_loop cfg (req : list Attack.t) :
  forall rid n1 d1 n2 d2 n3 d3 smp1 smp2 smp3 lg cs,
    for_each req (fun i =>
      bind self_resource_id (fun r =>
      if Attack.resource_id i =? r then
        bind (add_metric 0
          [resource_name cfg; str_of_Z (Attack.attack_id i);
           Attack.attack_type i]
          (Attack.max_point_value_bps i)) (fun _ =>
        bind (add_metric 1
          [resource_name cfg; str_of_Z (Attack.attack_id i);
           Attack.attack_type i]
          (Attack.max_point_value_pps i)) (fun _ =>
        add_metric 2
          [resource_name cfg; str_of_Z (Attack.attack_id i);
           Attack.attack_type i]
          (Attack.max_point_value_pps i)))
      else ret tt))
      (Build_Collector (Some rid)
         [family n1 d1 ["name"; "attack_id"; "attack_type"] smp1;
          family n2 d2 ["name"; "attack_id"; "attack_type"] smp2;
          family n3 d3 ["name"; "attack_id"; "attack_type"] smp3]
         lg cs) =
    (Ok tt,
     Build_Collector (Some rid)
       [family n1 d1 ["name"; "attack_id"; "attack_type"]
          (smp1 ++ map (fun i => {| labels := attack_labels cfg i;
                                    value := Attack.max_point_value_bps i |})
                       (own_attacks rid req));
        family n2 d2 ["name"; "attack_id"; "attack_type"]
          (smp2 ++ map (fun i => {| labels := attack_labels cfg i;
                                    value := Attack.max_point_value_pps i |})
                       (own_attacks rid req));
        family n3 d3 ["name"; "attack_id"; "attack_type"]
          (smp3 ++ map (fun i => {| labels := attack_labels cfg i;
                                    value := Attack.max_point_value_pps i |})
                       (own_attacks rid req))]
       lg cs).
Proof.
  induction req as [|i req IH]; intros; cbn [for_each].
  - rewrite !app_nil_r. reflexivity.
  - rewrite own_attacks_cons. run.
    destruct (Attack.resource_id i =? rid).
    + run. rewrite IH, <- !app_assoc. reflexivity.
    + run. rewrite IH. reflexivity.
Qed.

(** ** The methods on a fresh collector *)

Section Fresh.

Variable cfg : Config.
Variable kdp : Remote.
Variable rid : option Z.

Lemma ping_fresh :
  ping kdp (fresh rid) = (Ok (ping_result kdp), ping_effect kdp rid).
Proof.
  unfold ping, ping_result, ping_effect, ping_log, fresh.
  destruct (ping_reply kdp) as [t|[|[p|p|]|p]] eqn:E;
    run; rewrite ?E; run; reflexivity.
Qed.

Lemma get_api_version_fresh :
  get_api_version cfg kdp (fresh rid) =
  (Ok tt, get_api_version_effect cfg kdp rid).
Proof.
  unfold get_api_version, get_api_version_effect, api_version_samples,
    api_version_outcome, fresh.
  destruct (get_api_version_reply kdp) as [t|[req|]] eqn:E;
    run; rewrite ?E; run; reflexivity.
Qed.

Lemma client_resource_list_fresh :
  client_resource_list cfg kdp (fresh rid) =
  (Ok tt, client_resource_list_effect cfg kdp rid).
Proof.
  unfold client_resource_list, client_resource_list_effect, resolved, fresh.
  destruct (client_resource_list_reply kdp) as [t|[|i req]] eqn:E;
    run; rewrite ?E; run; try reflexivity.
  rewrite client_resource_list_loop. reflexivity.
Qed.

Lemma get_protocol_ratio_fresh :
  get_protocol_ratio cfg kdp (fresh rid) =
  (Ok tt, get_protocol_ratio_effect cfg kdp rid).
Proof.
  unfold get_protocol_ratio, get_protocol_ratio_effect, fresh.
  destruct rid as [r|];
    [destruct (get_protocol_ratio_reply kdp) as [t|[|i req]] eqn:E|];
    run; rewrite ?E; run; reflexivity.
Qed.

Lemma get_resource_geo_ratio_fresh :
  get_resource_geo_ratio cfg kdp (fresh rid) =
  (Ok tt, get_resource_geo_ratio_effect cfg kdp rid).
Proof.
  unfold get_resource_geo_ratio, get_resource_geo_ratio_effect, fresh.
  destruct rid as [r|];
    [destruct (get_resource_geo_ratio_reply kdp) as [t|[|i req]] eqn:E|];
    run; rewrite ?E; run; try reflexivity.
  rewrite (loop_one (fun i => [resource_name cfg; GeoRatio.country i])
             GeoRatio.value).
  reflexivity.
Qed.

Lemma get_measured_parameter_list_fresh :
  get_measured_parameter_list cfg kdp (fresh rid) =
  (Ok (returned (scoped rid (get_measured_parameter_list_reply kdp))),
   get_measured_parameter_list_effect cfg kdp rid).
Proof.
  unfold get_measured_parameter_list, get_measured_parameter_list_effect,
    fresh.
  destruct rid as [r|];
    [destruct (get_measured_parameter_list_reply kdp) as [t|[|i req]] eqn:E|];
    run; rewrite ?E; run; reflexivity.
Qed.

Lemma get_measured_parameter_data_fresh :
  get_measured_parameter_data cfg kdp (fresh rid) =
  (Ok (returned (scoped rid (get_measured_parameter_data_reply kdp))),
   get_measured_parameter_data_effect cfg kdp rid).
Proof.
  unfold get_measured_parameter_data, get_measured_parameter_data_effect,
    fresh.
  destruct rid as [r|];
    [destruct (get_measured_parameter_data_reply kdp) as [t|[|i req]] eqn:E|];
    run; rewrite ?E; run; reflexivity.
Qed.

Lemma get_resource_new_ip_blocks_fresh :
  get_resource_new_ip_blocks cfg kdp (fresh rid) =
  (Ok tt, get_resource_new_ip_blocks_effect cfg kdp rid).
Proof.
  unfold get_resource_new_ip_blocks, get_resource_new_ip_blocks_effect,
    fresh.
  destruct rid as [r|];
    [destruct (get_resource_new_ip_blocks_reply kdp) as [t|[|i req]] eqn:E|];
    run; rewrite ?E; run; try reflexivity.
  rewrite (loop_one (fun _ => [resource_name cfg])
             NewIpBlocks.new_ip_blocks).
  reflexivity.
Qed.

Lemma get_resource_anomaly_list_fresh :
  get_resource_anomaly_list cfg kdp (fresh rid) =
  (Ok tt, get_resource_anomaly_list_effect cfg kdp rid).
Proof.
  unfold get_resource_anomaly_list, get_resource_anomaly_list_effect, fresh.
  destruct rid as [r|];
    [destruct (get_resource_anomaly_list_reply kdp) as [t|[|i req]] eqn:E|];
    run; rewrite ?E; run; try reflexivity.
  rewrite anomaly_loop. reflexivity.
Qed.

Lemma attack_active_list_fresh :
  attack_active_list cfg kdp (fresh rid) =
  (Ok tt, attack_active_list_effect cfg kdp rid).
Proof.
  unfold attack_active_list, attack_active_list_effect, attack_outcome,
    fresh.
  destruct (attack_active_list_reply kdp) as [t|[|i req]] eqn:E;
    destruct rid as [r|];
    run; rewrite ?E; run; try reflexivity.
  rewrite attack_loop. reflexivity.
Qed.

End Fresh.

(** ** Computations that only add samples *)

Lemma metric_only_ret : metric_only (ret tt).
Proof. intros rid ms lg cs. reflexivity. Qed.

Lemma metric_only_add_metric h lbls v : metric_only (add_metric h lbls v).
Proof. intros rid ms lg cs. reflexivity. Qed.

Lemma metric_only_bind (m : M unit) (k : unit -> M unit) :
  metric_only m -> (forall u, metric_only (k u)) -> metric_only (bind m k).
Proof.
  intros Hm Hk rid ms lg cs. unfold bind.
  rewrite (Hm None ms [] []), (Hm rid ms lg cs). cbn [snd metrics].
  rewrite (Hk tt None _ [] []), (Hk tt rid _ lg cs). reflexivity.
Qed.

Lemma metric_only_if (c : bool) (a b : M unit) :
  metric_only a -> metric_only b -> metric_only (if c then a else b).
Proof. destruct c; auto. Qed.

Lemma metric_only_for_each {A} (xs : list A) (f : A -> M unit) :
  (forall x, metric_only (f x)) -> metric_only (for_each xs f).
Proof.
  intros Hf. induction xs as [|x xs IH]; cbn [for_each].
  - apply metric_only_ret.
  - apply metric_only_bind; [apply Hf | intros _; apply IH].
Qed.

Lemma metric_only_iter {A} (xs : list A) (k : list A -> M unit) :
  metric_only (k xs) -> metric_only (bind (iter (Some xs)) k).
Proof. intros H rid ms lg cs. unfold bind, iter, ret. apply H. Qed.

Ltac metric_only_step :=
  lazymatch goal with
  | |- metric_only (bind (iter (Some _)) _) => apply metric_only_iter
  | |- metric_only (bind _ _) => apply metric_only_bind; [| intros ?]
  | |- metric_only (for_each _ _) => apply metric_only_for_each; intros ?
  | |- metric_only (if _ then _ else _) => apply metric_only_if
  | |- metric_only (add_metric _ _ _) => apply metric_only_add_metric
  | |- metric_only (ret tt) => apply metric_only_ret
  end.

Section ClassifierLoops.

Variable cfg : Config.

Variables
  metric_ip_rate_direction metric_ip_rate_threshold metric_ip_rate_mult1
  metric_ip_rate_mult2 metric_ip_rate metric_syn_packets_direction
  metric_syn_packets_threshold metric_syn_packets_mult1
  metric_syn_packets_mult2 metric_syn_packets metric_syn_rating_direction
  metric_syn_rating_threshold metric_syn_rating_mult1
  metric_syn_rating_mult2 metric_syn_rating
  metric_incoming_traffic_bps_direction
  metric_incoming_traffic_bps_threshold metric_incoming_traffic_bps_mult1
  metric_incoming_traffic_bps_mult2 metric_incoming_traffic_bps
  metric_incoming_traffic_pps_direction
  metric_incoming_traffic_pps_threshold metric_incoming_traffic_pps_mult1
  metric_incoming_traffic_pps_mult2 metric_incoming_traffic_pps
  metric_outgoing_traffic_bps_direction
  metric_outgoing_traffic_bps_threshold metric_outgoing_traffic_bps_mult1
  metric_outgoing_traffic_bps_mult2 metric_outgoing_traffic_bps
  metric_outgoing_traffic_pps_direction
  metric_outgoing_traffic_pps_threshold metric_outgoing_traffic_pps_mult1
  metric_outgoing_traffic_pps_mult2 metric_outgoing_traffic_pps
  metric_incoming_icmp_traffic_pps_direction
  metric_incoming_icmp_traffic_pps_threshold
  metric_incoming_icmp_traffic_pps_mult1
  metric_incoming_icmp_traffic_pps_mult2 metric_incoming_icmp_traffic_pps
  metric_incoming_tcp_traffic_pps_direction
  metric_incoming_tcp_traffic_pps_threshold
  metric_incoming_tcp_traffic_pps_mult1
  metric_incoming_tcp_traffic_pps_mult2 metric_incoming_tcp_traffic_pps
  metric_http_hits_rate_direction metric_http_hits_rate_threshold
  metric_http_hits_rate_mult1 metric_http_hits_rate_mult2
  metric_http_hits_rate
  : nat.

Local Abbreviation loops := (measured_parameter_loops cfg
  metric_ip_rate_direction metric_ip_rate_threshold metric_ip_rate_mult1
  metric_ip_rate_mult2 metric_ip_rate metric_syn_packets_direction
  metric_syn_packets_threshold metric_syn_packets_mult1
  metric_syn_packets_mult2 metric_syn_packets metric_syn_rating_direction
  metric_syn_rating_threshold metric_syn_rating_mult1
  metric_syn_rating_mult2 metric_syn_rating
  metric_incoming_traffic_bps_direction
  metric_incoming_traffic_bps_threshold metric_incoming_traffic_bps_mult1
  metric_incoming_traffic_bps_mult2 metric_incoming_traffic_bps
  metric_incoming_traffic_pps_direction
  metric_incoming_traffic_pps_threshold metric_incoming_traffic_pps_mult1
  metric_incoming_traffic_pps_mult2 metric_incoming_traffic_pps
  metric_outgoing_traffic_bps_direction
  metric_outgoing_traffic_bps_threshold metric_outgoing_traffic_bps_mult1
  metric_outgoing_traffic_bps_mult2 metric_outgoing_traffic_bps
  metric_outgoing_traffic_pps_direction
  metric_outgoing_traffic_pps_threshold metric_outgoing_traffic_pps_mult1
  metric_outgoing_traffic_pps_mult2 metric_outgoing_traffic_pps
  metric_incoming_icmp_traffic_pps_direction
  metric_incoming_icmp_traffic_pps_threshold
  metric_incoming_icmp_traffic_pps_mult1
  metric_incoming_icmp_traffic_pps_mult2 metric_incoming_icmp_traffic_pps
  metric_incoming_tcp_traffic_pps_direction
  metric_incoming_tcp_traffic_pps_threshold
  metric_incoming_tcp_traffic_pps_mult1
  metric_incoming_tcp_traffic_pps_mult2 metric_incoming_tcp_traffic_pps
  metric_http_hits_rate_direction metric_http_hits_rate_threshold
  metric_http_hits_rate_mult1 metric_http_hits_rate_mult2
  metric_http_hits_rate).

Lemma measured_parameter_loops_metric_only pl pd :
  metric_only (loops (Some pl) (Some pd)).
Proof.
  unfold loops, measured_parameter_loops. repeat metric_only_step.
Qed.

Lemma measured_parameter_loops_no_list pd self :
  loops None pd self =
  (Raise (TypeError "'NoneType' object is not iterable"), self).
Proof. reflexivity. Qed.

Lemma measured_parameter_loops_no_data l pl self :
  loops (Some (l :: pl)) None self =
  (Raise (TypeError "'NoneType' object is not iterable"), self).
Proof. reflexivity. Qed.

Lemma measured_parameter_loops_nil pd self :
  loops (Some []) pd self = (Ok tt, self).
Proof. reflexivity. Qed.

End ClassifierLoops.

(** ** [measured_parameters] on a collector without families *)

Lemma measured_parameters_registers cfg pl pd rid lg cs :
  measured_parameters cfg pl pd (Build_Collector rid [] lg cs) =
  try_except
    (measured_parameter_loops cfg
       0 1 2 3 4 5 6 7 8 9 10 11 12 13 14 15 16 17 18 19 20 21 22
       23 24 25 26 27 28 29 30 31 32 33 34 35 36 37 38 39 40 41 42
       43 44 45 46 47 48 49
       pl pd)
    (failed cfg "measured_parameters")
    (Build_Collector rid parameter_families
       (lg ++ [started_record cfg "measured_parameters"]) cs).
Proof. reflexivity. Qed.

Lemma measured_parameters_empty cfg pl pd rid lg cs :
  measured_parameters cfg pl pd (Build_Collector rid [] lg cs) =
  (Ok tt,
   Build_Collector rid
     (match classifier_outcome pl pd with
      | inl _ => parameter_families
      | inr _ =>
          metrics (snd (measured_parameter_loops cfg
       0 1 2 3 4 5 6 7 8 9 10 11 12 13 14 15 16 17 18 19 20 21 22
       23 24 25 26 27 28 29 30 31 32 33 34 35 36 37 38 39 40 41 42
       43 44 45 46 47 48 49
            pl pd (Build_Collector None parameter_families [] [])))
      end)
     (lg ++ started_record cfg "measured_parameters"
         :: failure cfg "measured_parameters" (classifier_outcome pl pd))
     cs).
Proof.
  rewrite measured_parameters_registers, run_try_except.
  destruct pl as [[|l pl]|]; [| destruct pd as [pd|] |].
  - rewrite !measured_parameter_loops_nil. reflexivity.
  - rewrite measured_parameter_loops_metric_only. reflexivity.
  - rewrite measured_parameter_loops_no_data, run_failed.
    cbn [classifier_outcome failure]. rewrite <- app_assoc. reflexivity.
  - rewrite measured_parameter_loops_no_list, run_failed.
    cbn [classifier_outcome failure]. rewrite <- app_assoc. reflexivity.
Qed.

Lemma measured_parameters_fresh cfg pl pd rid :
  measured_parameters cfg pl pd (fresh rid) =
  (Ok tt, measured_parameters_effect cfg pl pd rid).
Proof.
  unfold measured_parameters_effect, classifier_families, fresh.
  rewrite !measured_parameters_empty. reflexivity.
Qed.

(** ** The methods on any collector *)

Section Run.

Variable cfg : Config.
Variable kdp : Remote.
Variable self : Collector.

Lemma ping_run :
  ping kdp self = (Ok (ping_result kdp), after self (ping_effect kdp)).
Proof.
  apply (run_effect (ping kdp) _ (ping_effect kdp)).
  - intros fr. apply ping_framed.
  - apply ping_fresh.
Qed.

Lemma warning_run :
  (if negb (ping_result kdp)
   then log WARNING "Skipping the API availability check"
   else ret tt) self =
  (Ok tt, after self (warning_effect kdp)).
Proof.
  unfold after, warning_effect, prepend, frame_of.
  destruct self as [rid ms lg cs], (ping_result kdp); cbn;
    rewrite !app_nil_r; reflexivity.
Qed.

Lemma get_api_version_run :
  get_api_version cfg kdp self =
  (Ok tt, after self (get_api_version_effect cfg kdp)).
Proof.
  apply (run_effect (get_api_version cfg kdp) _
           (get_api_version_effect cfg kdp)).
  - intros fr. apply get_api_version_framed.
  - apply get_api_version_fresh.
Qed.

Lemma client_resource_list_run :
  client_resource_list cfg kdp self =
  (Ok tt, after self (client_resource_list_effect cfg kdp)).
Proof.
  apply (run_effect (client_resource_list cfg kdp) _
           (client_resource_list_effect cfg kdp)).
  - intros fr. apply client_resource_list_framed.
  - apply client_resource_list_fresh.
Qed.

Lemma get_protocol_ratio_run :
  get_protocol_ratio cfg kdp self =
  (Ok tt, after self (get_protocol_ratio_effect cfg kdp)).
Proof.
  apply (run_effect (get_protocol_ratio cfg kdp) _
           (get_protocol_ratio_effect cfg kdp)).
  - intros fr. apply get_protocol_ratio_framed.
  - apply get_protocol_ratio_fresh.
Qed.

Lemma get_resource_geo_ratio_run :
  get_resource_geo_ratio cfg kdp self =
  (Ok tt, after self (get_resource_geo_ratio_effect cfg kdp)).
Proof.
  apply (run_effect (get_resource_geo_ratio cfg kdp) _
           (get_resource_geo_ratio_effect cfg kdp)).
  - intros fr. apply get_resource_geo_ratio_framed.
  - apply get_resource_geo_ratio_fresh.
Qed.

Lemma get_measured_parameter_list_run :
  get_measured_parameter_list cfg kdp self =
  (Ok (plist_of kdp (resource_id self)),
   after self (get_measured_parameter_list_effect cfg kdp)).
Proof.
  rewrite (run_framed _ self (get_measured_parameter_list_framed _ cfg kdp)),
    get_measured_parameter_list_fresh.
  reflexivity.
Qed.

Lemma get_measured_parameter_data_run :
  get_measured_parameter_data cfg kdp self =
  (Ok (pdata_of kdp (resource_id self)),
   after self (get_measured_parameter_data_effect cfg kdp)).
Proof.
  rewrite (run_framed _ self (get_measured_parameter_data_framed _ cfg kdp)),
    get_measured_parameter_data_fresh.
  reflexivity.
Qed.

Lemma measured_parameters_run pl pd :
  measured_parameters cfg pl pd self =
  (Ok tt, after self (measured_parameters_effect cfg pl pd)).
Proof.
  apply (run_effect (measured_parameters cfg pl pd) _
           (measured_parameters_effect cfg pl pd)).
  - intros fr. apply measured_parameters_framed.
  - apply measured_parameters_fresh.
Qed.

Lemma get_resource_new_ip_blocks_run :
  get_resource_new_ip_blocks cfg kdp self =
  (Ok tt, after self (get_resource_new_ip_blocks_effect cfg kdp)).
Proof.
  apply (run_effect (get_resource_new_ip_blocks cfg kdp) _
           (get_resource_new_ip_blocks_effect cfg kdp)).
  - intros fr. apply get_resource_new_ip_blocks_framed.
  - apply get_resource_new_ip_blocks_fresh.
Qed.

Lemma get_resource_anomaly_list_run :
  get_resource_anomaly_list cfg kdp self =
  (Ok tt, after self (get_resource_anomaly_list_effect cfg kdp)).
Proof.
  apply (run_effect (get_resource_anomaly_list cfg kdp) _
           (get_resource_anomaly_list_effect cfg kdp)).
  - intros fr. apply get_resource_anomaly_list_framed.
  - apply get_resource_anomaly_list_fresh.
Qed.

Lemma attack_active_list_run :
  attack_active_list cfg kdp self =
  (Ok tt, after self (attack_active_list_effect cfg kdp)).
Proof.
  apply (run_effect (attack_active_list cfg kdp) _
           (attack_active_list_effect cfg kdp)).
  - intros fr. apply attack_active_list_framed.
  - apply attack_active_list_fresh.
Qed.

End Run.

(** ** The whole pass *)

Lemma collect_run cfg kdp self :
  collect cfg kdp self =
  (Ok (metrics (collect_state cfg kdp self)), collect_state cfg kdp self).
Proof.
  unfold collect, collect_state.
  rewrite run_bind, ping_run.
  rewrite run_bind, warning_run.
  rewrite run_bind, get_api_version_run.
  rewrite run_bind, client_resource_list_run.
  rewrite run_bind, get_measured_parameter_list_run.
  rewrite run_bind, get_measured_parameter_data_run.
  rewrite run_bind, measured_parameters_run.
  rewrite run_bind, get_protocol_ratio_run.
  rewrite run_bind, get_resource_geo_ratio_run.
  rewrite run_bind, get_resource_new_ip_blocks_run.
  rewrite run_bind, get_resource_anomaly_list_run.
  rewrite run_bind, attack_active_list_run.
  reflexivity.
Qed.

Lemma resource_id_after self effect :
  resource_id (after self effect) = resource_id (effect (resource_id self)).
Proof. reflexivity. Qed.

Lemma calls_after self effect :
  calls (after self effect) = calls self ++ calls (effect (resource_id self)).
Proof. reflexivity. Qed.

Lemma metrics_after self effect :
  metrics (after self effect) =
  metrics self ++ metrics (effect (resource_id self)).
Proof. reflexivity. Qed.

Lemma logger_after self effect :
  logger (after self effect) =
  logger self ++ logger (effect (resource_id self)).
Proof. reflexivity. Qed.

Lemma collect_state_resource_id cfg kdp self :
  resource_id (collect_state cfg kdp self) =
  resolved cfg kdp (resource_id self).
Proof. reflexivity. Qed.

Lemma collect_state_calls cfg kdp self :
  calls (collect_state cfg kdp self) =
  calls self ++ collect_calls (resolved cfg kdp (resource_id self)).
Proof.
  unfold collect_state, collect_calls.
  rewrite !calls_after, !resource_id_after.
  cbn [calls resource_id ping_effect warning_effect get_api_version_effect
       client_resource_list_effect get_measured_parameter_list_effect
       get_measured_parameter_data_effect classifier_effect
       measured_parameters_effect get_protocol_ratio_effect
       get_resource_geo_ratio_effect get_resource_new_ip_blocks_effect
       get_resource_anomaly_list_effect attack_active_list_effect].
  rewrite <- !app_assoc. reflexivity.
Qed.

Lemma collect_state_metrics cfg kdp self :
  metrics (collect_state cfg kdp self) =
  metrics self ++ collect_families cfg kdp (resource_id self).
Proof.
  unfold collect_state, collect_families.
  rewrite !metrics_after, !resource_id_after.
  cbn [metrics resource_id ping_effect warning_effect get_api_version_effect
       client_resource_list_effect get_measured_parameter_list_effect
       get_measured_parameter_data_effect classifier_effect
       measured_parameters_effect get_protocol_ratio_effect
       get_resource_geo_ratio_effect get_resource_new_ip_blocks_effect
       get_resource_anomaly_list_effect attack_active_list_effect].
  rewrite ?app_nil_r, <- !app_assoc. reflexivity.
Qed.

(** ** The signer *)

(** The digest agrees with [hashlib] on the test suite of RFC 1321. *)
Example md5_empty : MD5.hexdigest "" = "d41d8cd98f00b204e9800998ecf8427e".
Proof. vm_compute. reflexivity. Qed.

Example md5_abc : MD5.hexdigest "abc" = "900150983cd24fb0d6963f7d28e17f72".
Proof. vm_compute. reflexivity. Qed.

Example md5_message_digest :
  MD5.hexdigest "message digest" = "f96b697d7cb7938d525a2f31aaf161d0".
Proof. vm_compute. reflexivity. Qed.

Example md5_two_blocks :
  MD5.hexdigest
    "12345678901234567890123456789012345678901234567890123456789012345678901234567890"
  = "57edf4a22be3c955ac49da2e2107b67a".
Proof. vm_compute. reflexivity. Qed.

Module SignerFacts.

Import Signer.

Lemma Qfloor_unique (x : Q) (k : Z) :
  (inject_Z k <= x)%Q -> (x < inject_Z (k + 1))%Q -> Qfloor x = k.
Proof.
  intros Hlo Hhi.
  pose proof (Qfloor_le x) as H1.
  pose proof (Qlt_floor x) as H2.
  assert (Hk1 : (k < Qfloor x + 1)%Z) by (rewrite Zlt_Qlt; lra).
  assert (Hk2 : (Qfloor x < k + 1)%Z) by (rewrite Zlt_Qlt; lra).
  lia.
Qed.


Lemma py_round_upper (x : Q) (k : Z) :
  (inject_Z k + (1 # 2) < x)%Q -> (x < inject_Z k + 1)%Q ->
  py_round x = k + 1.
Proof.
  intros Hlo Hhi. unfold py_round.
  assert (Hf : Qfloor x = k).
  { apply Qfloor_unique; [lra|]. rewrite inject_Z_plus.
    change (inject_Z 1) with 1%Q. lra. }
  rewrite Hf.
  destruct (Qcompare_spec (x - inject_Z k) (1 # 2)) as [E|L|G];
    try lra. reflexivity.
Qed.

Lemma div600 (t : Q) : (t / 600 == t * (1 # 600))%Q.
Proof. reflexivity. Qed.

Lemma floor_bucket_interval (t : Q) (k : Z) :
  (inject_Z (600 * k) <= t)%Q -> (t < inject_Z (600 * k + 600))%Q ->
  floor_bucket t = 600 * k.
Proof.
  intros Hlo Hhi.
  rewrite inject_Z_plus in Hhi. rewrite inject_Z_mult in Hlo, Hhi.
  change (inject_Z 600) with 600%Q in *.
  unfold floor_bucket. pose proof (div600 t) as Hd.
  rewrite (Qfloor_unique (t / 600) k); [lia | lra |].
  rewrite inject_Z_plus. change (inject_Z 1) with 1%Q. lra.
Qed.


(** C2 (the code departs from the claim): [authenticate] rounds the clock
    to the nearest multiple of 600 seconds, not down.  For every clock
    reading in the upper half of a 600-second interval, strictly between
    [600k + 300] and [600k + 600], the bucket that is signed is
    [600k + 600], while the floor of the claim is [600k]. *)
Theorem unix_time_upper_half (t : Q) (k : Z) :
  (inject_Z (600 * k + 300) < t)%Q -> (t < inject_Z (600 * k + 600))%Q ->
  unix_time t = 600 * k + 600 /\ floor_bucket t = 600 * k.
Proof.
  intros Hlo Hhi. split.
  - rewrite inject_Z_plus, inject_Z_mult in Hlo, Hhi.
    change (inject_Z 600) with 600%Q in *.
    change (inject_Z 300) with 300%Q in *.
    unfold unix_time. pose proof (div600 t) as Hd.
    rewrite (py_round_upper (t / 600) k); [lia | lra | lra].
  - apply floor_bucket_interval; [|assumption].
    rewrite inject_Z_plus, inject_Z_mult in Hlo. rewrite inject_Z_mult.
    change (inject_Z 600) with 600%Q in *.
    change (inject_Z 300) with 300%Q in *. lra.
Qed.

Lemma unix_time_upper_half_witness :
  unix_time 1700000800 = 1700001000 /\ floor_bucket 1700000800 = 1700000400.
Proof.
  apply (unix_time_upper_half 1700000800 2833334); reflexivity.
Defined.

End SignerFacts.

(** The signature is a function of the credentials, the method, the
    arguments and the bucket [unix_time] alone. *)
Lemma authenticate_same_unix_time cfg t1 t2 method args :
  Signer.unix_time t1 = Signer.unix_time t2 ->
  authenticate cfg t1 method args = authenticate cfg t2 method args.
Proof. unfold authenticate. intros ->. reflexivity. Qed.

Lemma to_int_not_nil (z : Z) :
  Z.to_int z <> Decimal.Pos Decimal.Nil /\
  Z.to_int z <> Decimal.Neg Decimal.Nil.
Proof.
  destruct z as [|p|p]; simpl; split; try discriminate;
    intros [= H]; apply (DecimalPos.Unsigned.to_uint_nonnil p H).
Qed.

Lemma str_of_Z_inj (a b : Z) : str_of_Z a = str_of_Z b -> a = b.
Proof.
  unfold str_of_Z. intros H.
  assert (E : Some (Z.to_int a) = Some (Z.to_int b)).
  { destruct (to_int_not_nil a) as [Ha1 Ha2].
    destruct (to_int_not_nil b) as [Hb1 Hb2].
    rewrite <- (NilZero.isi (Z.to_int a)), <- (NilZero.isi (Z.to_int b)),
      H by assumption.
    reflexivity. }
  injection E as E.
  rewrite <- (DecimalZ.of_to a), <- (DecimalZ.of_to b), E. reflexivity.
Qed.

Lemma append_inj_r (s a b : string) : s +:+ a = s +:+ b -> a = b.
Proof.
  induction s as [|c s IH]; simpl; [auto|]. intros [= H]. auto.
Qed.

(** The signed messages of two different buckets differ. *)
Lemma message_inj_bucket cfg method args (b1 b2 : Z) :
  message cfg method args b1 = message cfg method args b2 -> b1 = b2.
Proof.
  unfold message. intros H.
  apply str_of_Z_inj.
  repeat (apply append_inj_r in H). exact H.
Qed.

(** C9 (the code departs from the claim): two clock readings of one
    600-second interval, with the same credentials, method and
    arguments, are signed with different buckets and carry different
    signatures when one lies before and the other after the middle of
    the interval. *)
Theorem signature_differs_within_bucket :
  Signer.floor_bucket 1700000500 = Signer.floor_bucket 1700000800 /\
  Signer.unix_time 1700000500 <> Signer.unix_time 1700000800 /\
  hash (authenticate example_config 1700000500 "get_api_version"
          [AStr "None"]) <>
  hash (authenticate example_config 1700000800 "get_api_version"
          [AStr "None"]).
Proof. vm_compute. repeat split; discriminate. Qed.

(** ** Loops in general *)

Lemma for_each_app {A} (xs ys : list A) (f : A -> M unit) :
  forall self,
    for_each (xs ++ ys) f self =
    bind (for_each xs f) (fun _ => for_each ys f) self.
Proof.
  induction xs as [|x xs IH]; intros self; cbn [for_each app].
  - reflexivity.
  - rewrite !run_bind. destruct (f x self) as [[u|e] self1]; [|reflexivity].
    rewrite IH, run_bind. reflexivity.
Qed.

Lemma for_each_ext {A} (xs : list A) (f g : A -> M unit) :
  (forall x self, f x self = g x self) ->
  forall self, for_each xs f self = for_each xs g self.
Proof.
  intros H. induction xs as [|x xs IH]; intros self; cbn [for_each].
  - reflexivity.
  - rewrite !run_bind, H. destruct (g x self) as [[u|e] self1]; auto.
Qed.

Lemma for_each_skip {A} (xs : list A) (f : A -> M unit) :
  (forall x self, f x self = (Ok tt, self)) ->
  forall self, for_each xs f self = (Ok tt, self).
Proof.
  intros H. induction xs as [|x xs IH]; intros self; cbn [for_each].
  - reflexivity.
  - rewrite run_bind, H. apply IH.
Qed.

Lemma for_each_drop {A} (xs ys : list A) (x : A) (f : A -> M unit) :
  (forall self, f x self = (Ok tt, self)) ->
  forall self, for_each (xs ++ x :: ys) f self = for_each (xs ++ ys) f self.
Proof.
  intros H self. rewrite !for_each_app, !run_bind.
  destruct (for_each xs f self) as [[u|e] self1]; [|reflexivity].
  cbn [for_each]. rewrite run_bind, H. reflexivity.
Qed.

(** ** What the classifier drops *)

Lemma unknown_short_name (s n : string) :
  ~ In s known_short_names -> In n known_short_names ->
  String.eqb s n = false.
Proof.
  intros Hs Hn. apply String.eqb_neq. intros ->. contradiction.
Qed.

Section ClassifierDrops.

Variable cfg : Config.

Variables
  metric_ip_rate_direction metric_ip_rate_threshold metric_ip_rate_mult1
  metric_ip_rate_mult2 metric_ip_rate metric_syn_packets_direction
  metric_syn_packets_threshold metric_syn_packets_mult1
  metric_syn_packets_mult2 metric_syn_packets metric_syn_rating_direction
  metric_syn_rating_threshold metric_syn_rating_mult1
  metric_syn_rating_mult2 metric_syn_rating
  metric_incoming_traffic_bps_direction
  metric_incoming_traffic_bps_threshold metric_incoming_traffic_bps_mult1
  metric_incoming_traffic_bps_mult2 metric_incoming_traffic_bps
  metric_incoming_traffic_pps_direction
  metric_incoming_traffic_pps_threshold metric_incoming_traffic_pps_mult1
  metric_incoming_traffic_pps_mult2 metric_incoming_traffic_pps
  metric_outgoing_traffic_bps_direction
  metric_outgoing_traffic_bps_threshold metric_outgoing_traffic_bps_mult1
  metric_outgoing_traffic_bps_mult2 metric_outgoing_traffic_bps
  metric_outgoing_traffic_pps_direction
  metric_outgoing_traffic_pps_threshold metric_outgoing_traffic_pps_mult1
  metric_outgoing_traffic_pps_mult2 metric_outgoing_traffic_pps
  metric_incoming_icmp_traffic_pps_direction
  metric_incoming_icmp_traffic_pps_threshold
  metric_incoming_icmp_traffic_pps_mult1
  metric_incoming_icmp_traffic_pps_mult2 metric_incoming_icmp_traffic_pps
  metric_incoming_tcp_traffic_pps_direction
  metric_incoming_tcp_traffic_pps_threshold
  metric_incoming_tcp_traffic_pps_mult1
  metric_incoming_tcp_traffic_pps_mult2 metric_incoming_tcp_traffic_pps
  metric_http_hits_rate_direction metric_http_hits_rate_threshold
  metric_http_hits_rate_mult1 metric_http_hits_rate_mult2
  metric_http_hits_rate
  : nat.

Local Abbreviation loops := (measured_parameter_loops cfg
  metric_ip_rate_direction metric_ip_rate_threshold metric_ip_rate_mult1
  metric_ip_rate_mult2 metric_ip_rate metric_syn_packets_direction
  metric_syn_packets_threshold metric_syn_packets_mult1
  metric_syn_packets_mult2 metric_syn_packets metric_syn_rating_direction
  metric_syn_rating_threshold metric_syn_rating_mult1
  metric_syn_rating_mult2 metric_syn_rating
  metric_incoming_traffic_bps_direction
  metric_incoming_traffic_bps_threshold metric_incoming_traffic_bps_mult1
  metric_incoming_traffic_bps_mult2 metric_incoming_traffic_bps
  metric_incoming_traffic_pps_direction
  metric_incoming_traffic_pps_threshold metric_incoming_traffic_pps_mult1
  metric_incoming_traffic_pps_mult2 metric_incoming_traffic_pps
  metric_outgoing_traffic_bps_direction
  metric_outgoing_traffic_bps_threshold metric_outgoing_traffic_bps_mult1
  metric_outgoing_traffic_bps_mult2 metric_outgoing_traffic_bps
  metric_outgoing_traffic_pps_direction
  metric_outgoing_traffic_pps_threshold metric_outgoing_traffic_pps_mult1
  metric_outgoing_traffic_pps_mult2 metric_outgoing_traffic_pps
  metric_incoming_icmp_traffic_pps_direction
  metric_incoming_icmp_traffic_pps_threshold
  metric_incoming_icmp_traffic_pps_mult1
  metric_incoming_icmp_traffic_pps_mult2 metric_incoming_icmp_traffic_pps
  metric_incoming_tcp_traffic_pps_direction
  metric_incoming_tcp_traffic_pps_threshold
  metric_incoming_tcp_traffic_pps_mult1
  metric_incoming_tcp_traffic_pps_mult2 metric_incoming_tcp_traffic_pps
  metric_http_hits_rate_direction metric_http_hits_rate_threshold
  metric_http_hits_rate_mult1 metric_http_hits_rate_mult2
  metric_http_hits_rate).

Lemma measured_parameter_loops_null_value pl pd1 d pd2 self :
  ParameterData.value d = VNone ->
  loops (Some pl) (Some (pd1 ++ d :: pd2)) self =
  loops (Some pl) (Some (pd1 ++ pd2)) self.
Proof.
  intros Hd. unfold loops, measured_parameter_loops.
  rewrite !run_bind. cbn [iter]. rewrite !run_ret.
  apply for_each_ext. intros l self1.
  rewrite !run_bind. cbn [iter]. rewrite !run_ret.
  apply for_each_drop. intros self2.
  rewrite Hd, andb_false_r. reflexivity.
Qed.

Lemma measured_parameter_loops_unknown pl1 l pl2 pd self :
  ~ In (MeasuredParameter.short_name l) known_short_names ->
  loops (Some (pl1 ++ l :: pl2)) (Some pd) self =
  loops (Some (pl1 ++ pl2)) (Some pd) self.
Proof.
  intros Hl. unfold loops, measured_parameter_loops.
  rewrite !run_bind. cbn [iter]. rewrite !run_ret.
  apply for_each_drop. intros self1.
  rewrite run_bind. cbn [iter]. rewrite run_ret.
  apply for_each_skip. intros d self2.
  destruct (_ && _); [|reflexivity].
  rewrite !(unknown_short_name _ _ Hl) by (cbn; tauto).
  reflexivity.
Qed.

End ClassifierDrops.

(** ** [measured_parameters] when both requests have succeeded *)

Lemma classifier_outcome_some pl pd :
  classifier_outcome (Some pl) (Some pd) = inr tt.
Proof. destruct pl; reflexivity. Qed.

Lemma classifier_families_some cfg pl pd :
  classifier_families cfg (Some pl) (Some pd) = classified cfg pl pd.
Proof.
  unfold classifier_families, fresh.
  rewrite measured_parameters_empty, classifier_outcome_some. reflexivity.
Qed.

Lemma measured_parameters_some cfg pl pd self :
  measured_parameters cfg (Some pl) (Some pd) self =
  (Ok tt,
   {| resource_id := resource_id self;
      metrics := metrics self ++ classified cfg pl pd;
      logger := logger self ++ [started_record cfg "measured_parameters"];
      calls := calls self |}).
Proof.
  rewrite measured_parameters_run.
  unfold after, prepend, measured_parameters_effect.
  rewrite classifier_families_some, classifier_outcome_some.
  cbn [resource_id metrics logger calls frame_of metrics_before
       logger_before calls_before failure].
  rewrite app_nil_r. reflexivity.
Qed.

(** C7: a data point whose value is null adds no sample to any family,
    whatever its [unit_check_id]: the classifier behaves as if the data
    point were not in the list. *)
Theorem null_value_is_never_emitted cfg pl pd1 d pd2 self :
  ParameterData.value d = VNone ->
  measured_parameters cfg (Some pl) (Some (pd1 ++ d :: pd2)) self =
  measured_parameters cfg (Some pl) (Some (pd1 ++ pd2)) self.
Proof.
  intros Hd. rewrite !measured_parameters_some. unfold classified.
  rewrite (measured_parameter_loops_null_value _
             _ _ _ _ _ _ _ _ _ _ _ _ _ _ _ _ _ _ _ _ _ _ _ _ _ _ _ _ _ _ _
             _ _ _ _ _ _ _ _ _ _ _ _ _ _ _ _ _ _ _
             pl pd1 d pd2 _ Hd).
  reflexivity.
Qed.

(** C8: a definition whose [short_name] is not one of the ten known names
    adds no sample, whatever the data points: the classifier behaves as
    if the definition were not in the list, it returns normally and logs
    nothing but its start. *)
Theorem unknown_short_name_is_dropped cfg pl1 l pl2 pd self :
  ~ In (MeasuredParameter.short_name l) known_short_names ->
  measured_parameters cfg (Some (pl1 ++ l :: pl2)) (Some pd) self =
  measured_parameters cfg (Some (pl1 ++ pl2)) (Some pd) self /\
  fst (measured_parameters cfg (Some (pl1 ++ l :: pl2)) (Some pd) self) =
  Ok tt /\
  logger (snd (measured_parameters cfg (Some (pl1 ++ l :: pl2)) (Some pd)
                 self)) =
  logger self ++ [started_record cfg "measured_parameters"].
Proof.
  intros Hl. rewrite !measured_parameters_some. unfold classified.
  rewrite (measured_parameter_loops_unknown _
             _ _ _ _ _ _ _ _ _ _ _ _ _ _ _ _ _ _ _ _ _ _ _ _ _ _ _ _ _ _ _
             _ _ _ _ _ _ _ _ _ _ _ _ _ _ _ _ _ _ _
             pl1 l pl2 pd _ Hl).
  repeat split.
Qed.

Lemma null_value_is_never_emitted_witness :
  ParameterData.value (example_point "2023-11-14 22:13:00" 0 VNone) = VNone /\
  measured_parameters example_config
    (Some [example_definition "SYN packets"])
    (Some ([example_point "2023-11-14 22:11:00" 0 (VNum (25 # 2))]
           ++ example_point "2023-11-14 22:13:00" 0 VNone
           :: [example_point "2023-11-14 22:11:00" 2 (VNum 3)]))
    (fresh (Some 9)) =
  measured_parameters example_config
    (Some [example_definition "SYN packets"])
    (Some ([example_point "2023-11-14 22:11:00" 0 (VNum (25 # 2))]
           ++ [example_point "2023-11-14 22:11:00" 2 (VNum 3)]))
    (fresh (Some 9)).
Proof.
  split; [reflexivity|].
  apply (null_value_is_never_emitted example_config
           [example_definition "SYN packets"]
           [example_point "2023-11-14 22:11:00" 0 (VNum (25 # 2))]
           (example_point "2023-11-14 22:13:00" 0 VNone)
           [example_point "2023-11-14 22:11:00" 2 (VNum 3)]
           (fresh (Some 9))).
  reflexivity.
Defined.

Lemma unknown_short_name_is_dropped_witness :
  ~ In (MeasuredParameter.short_name (example_definition "UDP packets"))
      known_short_names /\
  measured_parameters example_config
    (Some ([example_definition "SYN packets"]
           ++ example_definition "UDP packets" :: []))
    (Some [example_point "2023-11-14 22:11:00" 0 (VNum (25 # 2))])
    (fresh (Some 9)) =
  measured_parameters example_config
    (Some ([example_definition "SYN packets"] ++ []))
    (Some [example_point "2023-11-14 22:11:00" 0 (VNum (25 # 2))])
    (fresh (Some 9)).
Proof.
  assert (H : ~ In (MeasuredParameter.short_name
                      (example_definition "UDP packets"))
                known_short_names).
  { cbn. intros H. decompose [or] H; discriminate || contradiction. }
  split; [exact H|].
  apply (unknown_short_name_is_dropped example_config
           [example_definition "SYN packets"]
           (example_definition "UDP packets") []
           [example_point "2023-11-14 22:11:00" 0 (VNum (25 # 2))]
           (fresh (Some 9)) H).
Defined.

(** C6: one definition [{id=5, short_name="SYN packets", direction=1}]
    and the two data points [{unit_check_id=5, type=0, value=12.5}] and
    [{unit_check_id=5, type=2, value=3.0}] make the classifier emit
    exactly ten samples: each of the five SYN-packet families receives
    one sample labelled dirty and one labelled clean, with the direction
    of the definition and the threshold, multipliers and value of the
    data point. *)
Theorem classifier_join cfg self l d1 d2 :
  MeasuredParameter.id l = 5 ->
  MeasuredParameter.short_name l = "SYN packets" ->
  MeasuredParameter.direction l = 1 ->
  ParameterData.unit_check_id d1 = 5 ->
  ParameterData.type d1 = 0 ->
  ParameterData.value d1 = VNum (25 # 2) ->
  ParameterData.unit_check_id d2 = 5 ->
  ParameterData.type d2 = 2 ->
  ParameterData.value d2 = VNum 3 ->
  let dirty := [("resource", resource_name cfg); ("type", "dirty")] in
  let clean := [("resource", resource_name cfg); ("type", "clean")] in
  let out := classified cfg [l] [d1; d2] in
  measured_parameters cfg (Some [l]) (Some [d1; d2]) self =
  (Ok tt,
   {| resource_id := resource_id self;
      metrics := metrics self ++ out;
      logger := logger self ++ [started_record cfg "measured_parameters"];
      calls := calls self |}) /\
  length (flat_map samples out) = 10%nat /\
  samples_named "kdp_syn_packets_direction" out =
    [{| labels := dirty; value := VInt 1 |};
     {| labels := clean; value := VInt 1 |}] /\
  samples_named "kdp_syn_packets_threshold" out =
    [{| labels := dirty; value := ParameterData.threshold d1 |};
     {| labels := clean; value := ParameterData.threshold d2 |}] /\
  samples_named "kdp_syn_packets_mult1" out =
    [{| labels := dirty; value := ParameterData.mult1 d1 |};
     {| labels := clean; value := ParameterData.mult1 d2 |}] /\
  samples_named "kdp_syn_packets_mult2" out =
    [{| labels := dirty; value := ParameterData.mult2 d1 |};
     {| labels := clean; value := ParameterData.mult2 d2 |}] /\
  samples_named "kdp_syn_packets" out =
    [{| labels := dirty; value := VNum (25 # 2) |};
     {| labels := clean; value := VNum 3 |}].
Proof.
  destruct l, d1, d2.
  cbn [MeasuredParameter.id MeasuredParameter.short_name
       MeasuredParameter.direction ParameterData.unit_check_id
       ParameterData.type ParameterData.value ParameterData.threshold
       ParameterData.mult1 ParameterData.mult2].
  intros. subst.
  split; [apply measured_parameters_some|].
  vm_compute. repeat split.
Qed.

Lemma classifier_join_witness :
  let out := classified example_config [example_definition "SYN packets"]
               [example_point "2023-11-14 22:11:00" 0 (VNum (25 # 2));
                example_point "2023-11-14 22:11:00" 2 (VNum 3)] in
  length (flat_map samples out) = 10%nat /\
  samples_named "kdp_syn_packets" out =
    [{| labels := [("resource", "site"); ("type", "dirty")];
        value := VNum (25 # 2) |};
     {| labels := [("resource", "site"); ("type", "clean")];
        value := VNum 3 |}].
Proof.
  pose proof (classifier_join example_config (fresh None)
                (example_definition "SYN packets")
                (example_point "2023-11-14 22:11:00" 0 (VNum (25 # 2)))
                (example_point "2023-11-14 22:11:00" 2 (VNum 3))
                eq_refl eq_refl eq_refl eq_refl eq_refl eq_refl
                eq_refl eq_refl eq_refl) as H.
  cbv zeta in H. destruct H as (_ & Hn & _ & _ & _ & _ & Hv).
  split; [exact Hn | exact Hv].
Defined.

(** ** The resolver *)

(** C3 (the claim as stated fails): with two records carrying the
    configured name the resolver does not keep the id of the first. *)
Lemma first_match_is_overwritten :
  resource_id
    (snd (client_resource_list example_config example_remote (fresh None)))
  <> first_match example_config
       [example_resource 7 "site"; example_resource 8 "other";
        example_resource 9 "site"].
Proof. vm_compute. discriminate. Qed.

(** C3, amended: [client_resource_list] returns normally and leaves in
    [resource_id] the id of the LAST record that carries the configured
    name; when the request fails or no record matches, [resource_id] is
    left as it was (absent on a new collector).  When it is absent
    after the resolution, the pass still completes: the six
    resource-scoped requests are not sent, and only [ping],
    [get_api_version], [client_resource_list] and [attack_active_list]
    reach the service. *)
Theorem client_resource_list_keeps_last_match cfg kdp self :
  (fst (client_resource_list cfg kdp self) = Ok tt /\
   resource_id (snd (client_resource_list cfg kdp self)) =
   match last (matching cfg
                 (records (answered (client_resource_list_reply kdp)))) with
   | Some i => Some (Resource.id i)
   | None => resource_id self
   end) /\
  (resolved cfg kdp (resource_id self) = None ->
   fst (collect cfg kdp self) = Ok (metrics (snd (collect cfg kdp self))) /\
   calls (snd (collect cfg kdp self)) =
   calls self ++
   ["ping"; "get_api_version"; "client_resource_list";
    "attack_active_list"]).
Proof.
  split.
  - rewrite client_resource_list_run. split; reflexivity.
  - intros Hnone. rewrite collect_run. cbn [fst snd].
    rewrite collect_state_calls, Hnone. split; reflexivity.
Qed.

Lemma client_resource_list_keeps_last_match_witness :
  resolved example_config example_remote_unresolved None = None /\
  calls (snd (collect example_config example_remote_unresolved
                (fresh None))) =
  ["ping"; "get_api_version"; "client_resource_list"; "attack_active_list"].
Proof.
  split; [reflexivity|].
  apply (proj2 (client_resource_list_keeps_last_match example_config
                  example_remote_unresolved (fresh None))).
  reflexivity.
Defined.

(** ** The order of the calls *)

(** C4 (the claim as stated fails): when every request is answered, the
    calls do not reach the service in the order the specification
    lists. *)
Lemma collect_calls_not_as_specified :
  calls (snd (collect example_config example_remote (fresh None)))
  <> specified_calls.
Proof. rewrite collect_run. vm_compute. discriminate. Qed.

(** C4, amended: every pass returns normally and sends its requests in
    the order ping, API version, resource list, measured-parameter list,
    measured-parameter data, protocol ratio, geo ratio, new-IP blocks,
    anomaly list, active attacks, each exactly once, when a resource id
    is known after the resource list; when none is known, the six
    resource-scoped requests are not sent. *)
Theorem collect_calls_in_code_order cfg kdp self :
  fst (collect cfg kdp self) = Ok (metrics (snd (collect cfg kdp self))) /\
  calls (snd (collect cfg kdp self)) =
  calls self ++
  match resolved cfg kdp (resource_id self) with
  | Some _ =>
      ["ping"; "get_api_version"; "client_resource_list";
       "get_measured_parameter_list"; "get_measured_parameter_data";
       "get_protocol_ratio"; "get_resource_geo_ratio";
       "get_resource_new_ip_blocks"; "get_resource_anomaly_list";
       "attack_active_list"]
  | None =>
      ["ping"; "get_api_version"; "client_resource_list";
       "attack_active_list"]
  end.
Proof.
  rewrite collect_run. cbn [fst snd]. rewrite collect_state_calls.
  split; [reflexivity|].
  destruct (resolved cfg kdp (resource_id self)); reflexivity.
Qed.

(** ** The family names survive the loops *)

Lemma keeps_names_ret {A} (a : A) : keeps_names (ret a).
Proof. intros self. reflexivity. Qed.

Lemma keeps_names_add_metric h lbls v : keeps_names (add_metric h lbls v).
Proof.
  intros self. cbn [add_metric snd metrics].
  generalize (metrics self) as ms. revert h.
  induction h as [|h IH]; intros [|f ms]; cbn; try reflexivity.
  f_equal. apply IH.
Qed.

Lemma keeps_names_bind {A B} (m : M A) (k : A -> M B) :
  keeps_names m -> (forall a, keeps_names (k a)) -> keeps_names (bind m k).
Proof.
  intros Hm Hk self. unfold bind. specialize (Hm self).
  destruct (m self) as [[a|e] self1]; cbn [snd] in *; [|exact Hm].
  rewrite Hk. exact Hm.
Qed.

Lemma keeps_names_if {A} (c : bool) (a b : M A) :
  keeps_names a -> keeps_names b -> keeps_names (if c then a else b).
Proof. destruct c; auto. Qed.

Lemma keeps_names_for_each {A} (xs : list A) (f : A -> M unit) :
  (forall x, keeps_names (f x)) -> keeps_names (for_each xs f).
Proof.
  intros Hf. induction xs as [|x xs IH]; cbn [for_each].
  - apply keeps_names_ret.
  - apply keeps_names_bind; [apply Hf | intros _; apply IH].
Qed.

Lemma keeps_names_iter {A} (xs : option (list A)) : keeps_names (iter xs).
Proof. intros self. destruct xs; reflexivity. Qed.

Ltac keeps_names_step :=
  lazymatch goal with
  | |- keeps_names (bind _ _) => apply keeps_names_bind; [| intros ?]
  | |- keeps_names (for_each _ _) => apply keeps_names_for_each; intros ?
  | |- keeps_names (if _ then _ else _) => apply keeps_names_if
  | |- keeps_names (add_metric _ _ _) => apply keeps_names_add_metric
  | |- keeps_names (iter _) => apply keeps_names_iter
  | |- keeps_names (ret _) => apply keeps_names_ret
  end.

Section ClassifierNames.

Variable cfg : Config.

Variables
  metric_ip_rate_direction metric_ip_rate_threshold metric_ip_rate_mult1
  metric_ip_rate_mult2 metric_ip_rate metric_syn_packets_direction
  metric_syn_packets_threshold metric_syn_packets_mult1
  metric_syn_packets_mult2 metric_syn_packets metric_syn_rating_direction
  metric_syn_rating_threshold metric_syn_rating_mult1
  metric_syn_rating_mult2 metric_syn_rating
  metric_incoming_traffic_bps_direction
  metric_incoming_traffic_bps_threshold metric_incoming_traffic_bps_mult1
  metric_incoming_traffic_bps_mult2 metric_incoming_traffic_bps
  metric_incoming_traffic_pps_direction
  metric_incoming_traffic_pps_threshold metric_incoming_traffic_pps_mult1
  metric_incoming_traffic_pps_mult2 metric_incoming_traffic_pps
  metric_outgoing_traffic_bps_direction
  metric_outgoing_traffic_bps_threshold metric_outgoing_traffic_bps_mult1
  metric_outgoing_traffic_bps_mult2 metric_outgoing_traffic_bps
  metric_outgoing_traffic_pps_direction
  metric_outgoing_traffic_pps_threshold metric_outgoing_traffic_pps_mult1
  metric_outgoing_traffic_pps_mult2 metric_outgoing_traffic_pps
  metric_incoming_icmp_traffic_pps_direction
  metric_incoming_icmp_traffic_pps_threshold
  metric_incoming_icmp_traffic_pps_mult1
  metric_incoming_icmp_traffic_pps_mult2 metric_incoming_icmp_traffic_pps
  metric_incoming_tcp_traffic_pps_direction
  metric_incoming_tcp_traffic_pps_threshold
  metric_incoming_tcp_traffic_pps_mult1
  metric_incoming_tcp_traffic_pps_mult2 metric_incoming_tcp_traffic_pps
  metric_http_hits_rate_direction metric_http_hits_rate_threshold
  metric_http_hits_rate_mult1 metric_http_hits_rate_mult2
  metric_http_hits_rate
  : nat.

Lemma measured_parameter_loops_keeps_names pl pd :
  keeps_names
    (measured_parameter_loops cfg
       metric_ip_rate_direction metric_ip_rate_threshold
       metric_ip_rate_mult1 metric_ip_rate_mult2 metric_ip_rate
       metric_syn_packets_direction metric_syn_packets_threshold
       metric_syn_packets_mult1 metric_syn_packets_mult2 metric_syn_packets
       metric_syn_rating_direction metric_syn_rating_threshold
       metric_syn_rating_mult1 metric_syn_rating_mult2 metric_syn_rating
       metric_incoming_traffic_bps_direction
       metric_incoming_traffic_bps_threshold
       metric_incoming_traffic_bps_mult1 metric_incoming_traffic_bps_mult2
       metric_incoming_traffic_bps metric_incoming_traffic_pps_direction
       metric_incoming_traffic_pps_threshold
       metric_incoming_traffic_pps_mult1 metric_incoming_traffic_pps_mult2
       metric_incoming_traffic_pps metric_outgoing_traffic_bps_direction
       metric_outgoing_traffic_bps_threshold
       metric_outgoing_traffic_bps_mult1 metric_outgoing_traffic_bps_mult2
       metric_outgoing_traffic_bps metric_outgoing_traffic_pps_direction
       metric_outgoing_traffic_pps_threshold
       metric_outgoing_traffic_pps_mult1 metric_outgoing_traffic_pps_mult2
       metric_outgoing_traffic_pps
       metric_incoming_icmp_traffic_pps_direction
       metric_incoming_icmp_traffic_pps_threshold
       metric_incoming_icmp_traffic_pps_mult1
       metric_incoming_icmp_traffic_pps_mult2
       metric_incoming_icmp_traffic_pps
       metric_incoming_tcp_traffic_pps_direction
       metric_incoming_tcp_traffic_pps_threshold
       metric_incoming_tcp_traffic_pps_mult1
       metric_incoming_tcp_traffic_pps_mult2
       metric_incoming_tcp_traffic_pps metric_http_hits_rate_direction
       metric_http_hits_rate_threshold metric_http_hits_rate_mult1
       metric_http_hits_rate_mult2 metric_http_hits_rate
       pl pd).
Proof. unfold measured_parameter_loops. repeat keeps_names_step. Qed.

End ClassifierNames.

Lemma classifier_families_names cfg pl pd :
  map name (classifier_families cfg pl pd) = map name parameter_families.
Proof.
  unfold classifier_families, fresh. rewrite measured_parameters_empty.
  cbn [snd metrics]. destruct (classifier_outcome pl pd); [reflexivity|].
  apply measured_parameter_loops_keeps_names.
Qed.

Lemma collect_families_names cfg kdp rid :
  map name (collect_families cfg kdp rid) = catalog.
Proof.
  unfold collect_families, catalog, classifier_effect,
    measured_parameters_effect.
  cbn [metrics get_api_version_effect client_resource_list_effect
       get_resource_geo_ratio_effect get_resource_new_ip_blocks_effect
       get_resource_anomaly_list_effect attack_active_list_effect].
  rewrite !map_app, classifier_families_names. reflexivity.
Qed.

Lemma collect_families_last cfg kdp rid :
  exists earlier,
    collect_families cfg kdp rid =
    earlier ++ last_families cfg kdp (resolved cfg kdp rid).
Proof.
  exists (metrics (get_api_version_effect cfg kdp rid)
          ++ metrics (client_resource_list_effect cfg kdp rid)
          ++ metrics (classifier_effect cfg kdp (resolved cfg kdp rid))).
  unfold collect_families. rewrite <- !app_assoc. reflexivity.
Qed.

Ltac find_started :=
  repeat (rewrite logger_after; apply in_or_app;
          first [ right; left; reflexivity | left ]).

Lemma collect_state_logger cfg kdp self :
  Forall (fun method => In (started_record cfg method)
                          (logger (collect_state cfg kdp self)))
    collect_methods.
Proof.
  unfold collect_state, collect_methods. cbv zeta.
  repeat (apply List.Forall_cons; [find_started|]).
  apply List.Forall_nil.
Qed.

(** ** Fault isolation *)

(** C5: whatever the service answers and whatever the collector holds,
    [collect] returns normally with the families of the collector; every
    method has logged its start and every family of the catalogue has
    been registered, so no failure of a step has kept a later step from
    running; the requests that reach the service depend on the answers
    only through the resolved resource id; and the families of the
    geo-ratio, new-IP-block, anomaly and attack steps end the output,
    each with the samples of its own answer (none when its own request
    fails), whatever happened to the requests before it. *)
Theorem collect_isolates_failures cfg kdp self :
  let final := snd (collect cfg kdp self) in
  fst (collect cfg kdp self) = Ok (metrics final) /\
  Forall (fun method => In (started_record cfg method) (logger final))
    collect_methods /\
  map name (metrics final) = map name (metrics self) ++ catalog /\
  calls final =
    calls self ++ collect_calls (resolved cfg kdp (resource_id self)) /\
  exists earlier,
    metrics final =
    earlier ++
    last_families cfg kdp (resolved cfg kdp (resource_id self)).
Proof.
  cbv zeta. rewrite collect_run. cbn [fst snd].
  split; [reflexivity|]. split; [apply collect_state_logger|].
  rewrite collect_state_metrics, collect_state_calls.
  split; [|split; [reflexivity|]].
  - rewrite map_app, collect_families_names. reflexivity.
  - destruct (collect_families_last cfg kdp (resource_id self))
      as [earlier ->].
    exists (metrics self ++ earlier). rewrite app_assoc. reflexivity.
Qed.

(** The example of C5: the geo-ratio request raises, and the samples of
    the new-IP-block, anomaly and attack requests are in the output. *)
Lemma geo_fault_keeps_later_samples :
  let out := metrics (snd (collect example_config example_remote_geo_fault
                             (fresh None))) in
  fst (collect example_config example_remote_geo_fault (fresh None)) =
  Ok out /\
  samples_named "kdp_resource_geo_ratio_prc" out = [] /\
  samples_named "kdp_resource_new_ip_blocks_count" out =
    [{| labels := [("name", "site")]; value := VInt 3 |};
     {| labels := [("name", "site")]; value := VInt 4 |}] /\
  samples_named "kdp_resource_anomaly_max_value" out =
    [{| labels := [("name", "site"); ("parameter", "SYN packets");
                   ("state", "active"); ("color", "2")];
        value := VNum 40 |}] /\
  samples_named "kdp_resource_attack_incoming_traffic_bps" out =
    [{| labels := [("name", "site"); ("attack_id", "21");
                   ("attack_type", "SYN flood")];
        value := VNum 8000 |}] /\
  calls (snd (collect example_config example_remote_geo_fault
                (fresh None))) =
    ["ping"; "get_api_version"; "client_resource_list";
     "get_measured_parameter_list"; "get_measured_parameter_data";
     "get_protocol_ratio"; "get_resource_geo_ratio";
     "get_resource_new_ip_blocks"; "get_resource_anomaly_list";
     "attack_active_list"].
Proof. cbv zeta. rewrite collect_run. vm_compute. repeat split. Qed.

(** ** Duplicate label tuples *)

Lemma not_NoDup_elem {A} (x : A) (l : list A) : x ∈ l -> ~ NoDup (x :: l).
Proof. intros Hx H. apply NoDup_cons in H as [H _]. exact (H Hx). Qed.

(** Every sample of the new-IP-block family carries the same label
    tuple, one sample for each record of the answer. *)
Lemma new_ip_blocks_share_labels cfg kdp self rid req :
  resource_id self = Some rid ->
  get_resource_new_ip_blocks_reply kdp = Reply req ->
  exists f,
    metrics (snd (get_resource_new_ip_blocks cfg kdp self)) =
    metrics self ++ [f] /\
    name f = "kdp_resource_new_ip_blocks_count" /\
    map labels (samples f) =
    map (fun _ => [("name", resource_name cfg)]) req.
Proof.
  intros Hrid Hreq. rewrite get_resource_new_ip_blocks_run.
  eexists. split; [reflexivity|]. split; [reflexivity|].
  cbn [samples family]. rewrite Hrid. unfold scoped, answered.
  rewrite Hreq. destruct req as [|i req]; [reflexivity|].
  cbn [records]. rewrite map_map. reflexivity.
Qed.

(** C1 (the code departs from the claim): in one pass over a service
    that reports two minutes of new-IP-block counts and two dirty points
    of one measured parameter, the family
    [kdp_resource_new_ip_blocks_count] receives two samples with the
    label tuple [(name)], and [kdp_syn_packets] two samples with the
    label tuple [(resource, dirty)]. *)
Theorem collect_repeats_label_tuples :
  let out := metrics (snd (collect example_config example_remote
                             (fresh None))) in
  fst (collect example_config example_remote (fresh None)) = Ok out /\
  samples_named "kdp_resource_new_ip_blocks_count" out =
    [{| labels := [("name", "site")]; value := VInt 3 |};
     {| labels := [("name", "site")]; value := VInt 4 |}] /\
  samples_named "kdp_syn_packets" out =
    [{| labels := [("resource", "site"); ("type", "dirty")];
        value := VNum (25 # 2) |};
     {| labels := [("resource", "site"); ("type", "clean")];
        value := VNum 3 |};
     {| labels := [("resource", "site"); ("type", "dirty")];
        value := VNum 14 |}] /\
  ~ NoDup (map labels (samples_named "kdp_resource_new_ip_blocks_count" out))
  /\ ~ NoDup (map labels (samples_named "kdp_syn_packets" out)).
Proof.
  cbv zeta. rewrite collect_run. vm_compute.
  repeat split; apply not_NoDup_elem; repeat constructor.
Qed.

(** ** Active attacks *)

(** C10: with a resolved resource id, every attack record of that
    resource adds exactly one sample to each of the three attack
    families, the records of other resources add none, and the sample of
    [kdp_resource_attack_http_rate] carries [max_point_value_pps], the
    value of the pps family, not [max_point_value_rps]. *)
Theorem attack_http_rate_carries_pps cfg kdp self rid req :
  resource_id self = Some rid ->
  attack_active_list_reply kdp = Reply req ->
  metrics (snd (attack_active_list cfg kdp self)) =
  metrics self ++
  [family "kdp_resource_attack_incoming_traffic_bps"
     "Anomaly. Incoming traffic during anomaly. bps."
     ["name"; "attack_id"; "attack_type"]
     (map (fun i => {| labels := attack_labels cfg i;
                       value := Attack.max_point_value_bps i |})
        (own_attacks rid req));
   family "kdp_resource_attack_incoming_traffic_pps"
     "Anomaly. Incoming traffic during anomaly. pps."
     ["name"; "attack_id"; "attack_type"]
     (map (fun i => {| labels := attack_labels cfg i;
                       value := Attack.max_point_value_pps i |})
        (own_attacks rid req));
   family "kdp_resource_attack_http_rate"
     "Anomaly. HTTP requests rate during anomaly. hits/s."
     ["name"; "attack_id"; "attack_type"]
     (map (fun i => {| labels := attack_labels cfg i;
                       value := Attack.max_point_value_pps i |})
        (own_attacks rid req))].
Proof.
  intros Hrid Hreq. rewrite attack_active_list_run.
  unfold after, prepend, attack_active_list_effect, attack_outcome, answered.
  rewrite Hrid, Hreq. destruct req; reflexivity.
Qed.

Lemma attack_http_rate_carries_pps_witness :
  resource_id (fresh (Some 9)) = Some 9 /\
  attack_active_list_reply example_remote =
  Reply [example_attack 21 9; example_attack 22 8] /\
  samples_named "kdp_resource_attack_http_rate"
    (metrics (snd (attack_active_list example_config example_remote
                     (fresh (Some 9))))) =
  [{| labels := [("name", "site"); ("attack_id", "21");
                 ("attack_type", "SYN flood")];
      value := VNum 40 |}].
Proof.
  split; [reflexivity|]. split; [reflexivity|].
  rewrite (attack_http_rate_carries_pps example_config example_remote
             (fresh (Some 9)) 9
             [example_attack 21 9; example_attack 22 8]
             eq_refl eq_refl).
  reflexivity.
Defined.

(** ** More on the signer *)

Module SignerBounds.

Import Signer.



Lemma py_round_floor (x : Q) :
  Qfloor x <= py_round x <= Qfloor x + 1.
Proof.
  unfold py_round.
  destruct (x - inject_Z (Qfloor x) ?= 1 # 2)%Q;
    try destruct (Z.even (Qfloor x)); lia.
Qed.

Lemma py_round_mono (x y : Q) : (x <= y)%Q -> py_round x <= py_round y.
Proof.
  intros Hxy.
  pose proof (Qfloor_resp_le x y Hxy) as Hf.
  destruct (Z.eq_dec (Qfloor x) (Qfloor y)) as [E|N].
  - unfold py_round. rewrite <- E.
    destruct (Qcompare_spec (x - inject_Z (Qfloor x)) (1 # 2)) as [Ex|Lx|Gx];
      destruct (Qcompare_spec (y - inject_Z (Qfloor x)) (1 # 2))
        as [Ey|Ly|Gy];
      try destruct (Z.even (Qfloor x)); try lia; lra.
  - pose proof (py_round_floor x). pose proof (py_round_floor y). lia.
Qed.

(** A later clock reading is never signed with an earlier bucket. *)
Theorem unix_time_monotone (t1 t2 : Q) :
  (t1 <= t2)%Q -> unix_time t1 <= unix_time t2.
Proof.
  intros H. unfold unix_time.
  assert (Hd : (t1 / 600 <= t2 / 600)%Q).
  { pose proof (SignerFacts.div600 t1). pose proof (SignerFacts.div600 t2).
    lra. }
  pose proof (py_round_mono _ _ Hd). lia.
Qed.

Lemma unix_time_monotone_witness :
  unix_time 1700000500 <= unix_time 1700000800.
Proof. apply (unix_time_monotone 1700000500 1700000800). discriminate. Defined.

(** Exactly in the middle of a 600-second interval the bucket goes to
    the even multiple of 600: down when [k] is even, up when it is odd. *)
Theorem unix_time_tie (t : Q) (k : Z) :
  (t == inject_Z (600 * k + 300))%Q ->
  unix_time t = if Z.even k then 600 * k else 600 * k + 600.
Proof.
  intros Ht. rewrite inject_Z_plus, inject_Z_mult in Ht.
  change (inject_Z 600) with 600%Q in Ht.
  change (inject_Z 300) with 300%Q in Ht.
  pose proof (SignerFacts.div600 t) as Hd.
  unfold unix_time, py_round.
  assert (Hf : Qfloor (t / 600) = k).
  { apply SignerFacts.Qfloor_unique; [lra|]. rewrite inject_Z_plus.
    change (inject_Z 1) with 1%Q. lra. }
  rewrite Hf.
  destruct (Qcompare_spec (t / 600 - inject_Z k) (1 # 2)) as [E|L|G];
    try lra.
  destruct (Z.even k); lia.
Qed.

Lemma unix_time_tie_witness :
  unix_time 1700000700 = 1700000400 /\ unix_time 1700001300 = 1700001600.
Proof.
  split.
  - apply (unix_time_tie 1700000700 2833334). reflexivity.
  - apply (unix_time_tie 1700001300 2833335). reflexivity.
Defined.

End SignerBounds.


(** *** The shape of the signature *)

Lemma length_le_bytes (k : nat) (n : Z) : length (MD5.le_bytes k n) = k.
Proof.
  revert n. induction k as [|k IH]; intros n; cbn [MD5.le_bytes length].
  - reflexivity.
  - rewrite IH. reflexivity.
Qed.

Lemma le_bytes_range (k : nat) (n : Z) :
  Forall (fun b => 0 <= b < 256) (MD5.le_bytes k n).
Proof.
  revert n. induction k as [|k IH]; intros n; cbn [MD5.le_bytes].
  - constructor.
  - constructor; [|apply IH].
    change 255 with (Z.ones 8). rewrite Z.land_ones by lia.
    apply Z.mod_pos_bound. lia.
Qed.

Lemma hex_digit_lower (n : Z) : 0 <= n < 16 -> lower_hex (MD5.hex_digit n).
Proof.
  intros H. unfold lower_hex, MD5.hex_digit.
  apply nth_In. cbn [length list_ascii_of_string]. lia.
Qed.

Lemma hex_shape (bs : list Z) :
  Forall (fun b => 0 <= b < 256) bs ->
  String.length (MD5.hex bs) = (2 * length bs)%nat /\
  Forall lower_hex (list_ascii_of_string (MD5.hex bs)).
Proof.
  induction 1 as [|b bs Hb Hbs [IHl IHc]];
    cbn [MD5.hex String.length list_ascii_of_string length].
  - split; [reflexivity | constructor].
  - split; [lia|].
    constructor; [|constructor; [|exact IHc]]; apply hex_digit_lower.
    + rewrite Z.shiftr_div_pow2 by lia. change (2 ^ 4) with 16.
      split; [apply Z.div_pos; lia | apply Z.div_lt_upper_bound; lia].
    + change 15 with (Z.ones 4). rewrite Z.land_ones by lia.
      apply Z.mod_pos_bound. lia.
Qed.

(** Whatever is signed, the [hash] of the token is 32 characters long
    and made of the digits and the lowercase letters a to f, as the
    docstring of [authenticate] requires. *)
Theorem authenticate_hash_shape cfg t method args :
  String.length (hash (authenticate cfg t method args)) = 32%nat /\
  Forall lower_hex
    (list_ascii_of_string (hash (authenticate cfg t method args))).
Proof.
  cbn [authenticate hash]. unfold MD5.hexdigest, MD5.digest.
  match goal with |- context [MD5.hex ?bs] =>
    assert (Hb : Forall (fun b => 0 <= b < 256) bs /\ length bs = 16%nat)
  end.
  { split.
    - rewrite !Forall_app. repeat split; apply le_bytes_range.
    - rewrite !length_app, !length_le_bytes. reflexivity. }
  destruct Hb as [Hr Hl]. destruct (hex_shape _ Hr) as [H1 H2].
  rewrite Hl in H1. split; assumption.
Qed.

(** *** What the signature does not separate *)

Lemma append_nil_r (s : string) : s +:+ "" = s.
Proof.
  induction s as [|c s IH]; [reflexivity|].
  change (String c (s +:+ "") = String c s). rewrite IH. reflexivity.
Qed.

Lemma append_assoc (a b c : string) : (a +:+ b) +:+ c = a +:+ b +:+ c.
Proof.
  induction a as [|x a IH]; [reflexivity|].
  change (String x ((a +:+ b) +:+ c) = String x (a +:+ b +:+ c)).
  rewrite IH. reflexivity.
Qed.

Lemma concat_cons (s : string) (l : list string) :
  String.concat "" (s :: l) = s +:+ String.concat "" l.
Proof. destruct l; cbn [String.concat]; [rewrite append_nil_r|]; reflexivity. Qed.

Lemma fold_append (args : list pyarg) (acc : string) :
  fold_left (fun a arg => a +:+ str arg) args acc =
  acc +:+ joined_args args.
Proof.
  unfold joined_args. revert acc.
  induction args as [|arg args IH]; intros acc; cbn [fold_left map].
  - cbn [String.concat]. rewrite append_nil_r. reflexivity.
  - rewrite IH, concat_cons, append_assoc. reflexivity.
Qed.

Lemma arg_list_joined (args : list pyarg) : arg_list args = joined_args args.
Proof. unfold arg_list. rewrite fold_append. reflexivity. Qed.

(** The arguments are signed as one string without separators: two
    calls whose method name followed by the rendered arguments spell the
    same text get the same token, whatever the split into method and
    arguments and whether an argument is a number or a string. *)
Theorem authenticate_joins_arguments cfg t method1 args1 method2 args2 :
  method1 +:+ joined_args args1 = method2 +:+ joined_args args2 ->
  authenticate cfg t method1 args1 = authenticate cfg t method2 args2.
Proof.
  intros H. unfold authenticate, message.
  rewrite !arg_list_joined, H. reflexivity.
Qed.

Lemma authenticate_joins_arguments_witness :
  authenticate example_config 1700000500 "get_protocol_ratio"
    [AInt 1; AInt 10; AInt 9] =
  authenticate example_config 1700000500 "get_protocol_ratio"
    [AInt 11; AStr "09"].
Proof.
  apply (authenticate_joins_arguments example_config 1700000500
           "get_protocol_ratio" [AInt 1; AInt 10; AInt 9]
           "get_protocol_ratio" [AInt 11; AStr "09"]).
  reflexivity.
Defined.

(** Two different buckets never give the same signed message. *)
Theorem message_separates_buckets cfg method args (b1 b2 : Z) :
  b1 <> b2 -> message cfg method args b1 <> message cfg method args b2.
Proof. intros Hb H. apply Hb. exact (message_inj_bucket _ _ _ _ _ H). Qed.

Lemma message_separates_buckets_witness :
  message example_config "ping" [] 1700000400 <>
  message example_config "ping" [] 1700001000.
Proof.
  apply (message_separates_buckets example_config "ping" [] 1700000400
           1700001000).
  discriminate.
Defined.

(** ** The methods one by one *)

(** [ping] never raises and returns [True] exactly when the service
    answers 1; it sends one request, and touches neither the families
    nor the resource id. *)
Theorem ping_reports_availability kdp self :
  fst (ping kdp self) =
  Ok (match ping_reply kdp with Reply 1 => true | _ => false end) /\
  calls (snd (ping kdp self)) = calls self ++ ["ping"] /\
  metrics (snd (ping kdp self)) = metrics self /\
  resource_id (snd (ping kdp self)) = resource_id self.
Proof.
  rewrite ping_run. cbn [fst snd].
  rewrite calls_after, metrics_after, resource_id_after.
  cbn [ping_effect calls metrics resource_id]. rewrite app_nil_r.
  repeat split.
Qed.

(** A falsy answer of [ping] (0) fails the assertion: it is logged as a
    failed ping with an empty reason, while any other answer than 1 is
    logged as an unavailable API. *)
Theorem ping_logs_the_reason kdp self answer :
  ping_reply kdp = Reply answer ->
  logger (snd (ping kdp self)) =
  logger self ++
  [if answer =? 1 then
     {| level := INFO; msg := "KDP API is available" |}
   else if answer =? 0 then
     {| level := ERROR; msg := "Failed to ping KDP API: " |}
   else {| level := ERROR; msg := "KDP API is unavailable" |}].
Proof.
  intros H. rewrite ping_run. cbn [fst snd]. rewrite logger_after.
  cbn [ping_effect logger]. unfold ping_log. rewrite H.
  destruct answer as [|[p|p|]|p]; reflexivity.
Qed.

Lemma ping_logs_the_reason_witness :
  logger (snd (ping example_remote (fresh None))) =
  [{| level := INFO; msg := "KDP API is available" |}].
Proof.
  apply (ping_logs_the_reason example_remote (fresh None) 1). reflexivity.
Defined.

(** [get_api_version] registers the family [kdp_api_version] whatever
    happens; it adds the sample (name, version, mode) with value 1 when
    the service answers, and no sample when the request raises or the
    answer is empty. *)
Theorem get_api_version_adds_one_family cfg kdp self :
  fst (get_api_version cfg kdp self) = Ok tt /\
  metrics (snd (get_api_version cfg kdp self)) =
  metrics self ++
  [family "kdp_api_version" "Version of KDP API"
     ["name"; "version"; "mode"]
     match get_api_version_reply kdp with
     | Reply (Some req) =>
         [{| labels := [("name", resource_name cfg);
                        ("version", ApiVersion.version req);
                        ("mode", ApiVersion.mode req)];
             value := VInt 1 |}]
     | _ => []
     end].
Proof.
  rewrite get_api_version_run. cbn [fst snd]. split; [reflexivity|].
  rewrite metrics_after. cbn [get_api_version_effect metrics].
  unfold api_version_samples, api_version_outcome.
  destruct (get_api_version_reply kdp) as [t|[req|]]; reflexivity.
Qed.

(** [client_resource_list] adds one sample for every record that carries
    the configured name, in the order of the answer, and none for the
    other records. *)
Theorem client_resource_list_samples cfg kdp self req :
  client_resource_list_reply kdp = Reply req ->
  metrics (snd (client_resource_list cfg kdp self)) =
  metrics self ++
  [family "kdp_client_resource" "Client resources"
     ["name"; "group"; "internal_ip"; "external_ip"; "redirection_method"]
     (map client_resource_sample
        (filter (fun i => String.eqb (Resource.name i) (resource_name cfg)
                          = true) req))].
Proof.
  intros H. rewrite client_resource_list_run. cbn [fst snd].
  rewrite metrics_after.
  cbn [client_resource_list_effect metrics]. unfold answered.
  rewrite H. destruct req; reflexivity.
Qed.

Lemma client_resource_list_samples_witness :
  samples_named "kdp_client_resource"
    (metrics (snd (client_resource_list example_config example_remote
                     (fresh None)))) =
  [client_resource_sample (example_resource 7 "site");
   client_resource_sample (example_resource 9 "site")].
Proof.
  rewrite (client_resource_list_samples example_config example_remote
             (fresh None) _ eq_refl).
  reflexivity.
Defined.

(** [get_protocol_ratio] only asks: whatever the service answers, the
    families and their samples are left as they are; the request is sent
    exactly when a resource id is known. *)
Theorem get_protocol_ratio_maps_nothing cfg kdp self :
  fst (get_protocol_ratio cfg kdp self) = Ok tt /\
  metrics (snd (get_protocol_ratio cfg kdp self)) = metrics self /\
  resource_id (snd (get_protocol_ratio cfg kdp self)) = resource_id self /\
  calls (snd (get_protocol_ratio cfg kdp self)) =
  calls self ++
  match resource_id self with
  | Some _ => ["get_protocol_ratio"]
  | None => []
  end.
Proof.
  rewrite get_protocol_ratio_run. cbn [fst snd].
  rewrite metrics_after, resource_id_after, calls_after.
  cbn [get_protocol_ratio_effect metrics resource_id calls].
  rewrite app_nil_r. repeat split.
Qed.

(** With a resource id and a non-empty answer, [get_resource_geo_ratio]
    adds one sample for each record, in the order of the answer,
    labelled with the configured name and the country of the record. *)
Theorem get_resource_geo_ratio_samples cfg kdp self rid i req :
  resource_id self = Some rid ->
  get_resource_geo_ratio_reply kdp = Reply (i :: req) ->
  get_resource_geo_ratio cfg kdp self =
  (Ok tt,
   {| resource_id := Some rid;
      metrics :=
        metrics self ++
        [family "kdp_resource_geo_ratio_prc" "Requests by Country. Ratio."
           ["name"; "country"]
           (map (fun r => {| labels := [("name", resource_name cfg);
                                        ("country", GeoRatio.country r)];
                             value := GeoRatio.value r |}) (i :: req))];
      logger := logger self
                ++ [started_record cfg "get_resource_geo_ratio"];
      calls := calls self ++ ["get_resource_geo_ratio"] |}).
Proof.
  intros Hrid Hreq. rewrite get_resource_geo_ratio_run.
  unfold after, prepend, get_resource_geo_ratio_effect.
  rewrite Hrid. cbn [scoped answered]. rewrite Hreq. reflexivity.
Qed.

Lemma get_resource_geo_ratio_samples_witness :
  samples_named "kdp_resource_geo_ratio_prc"
    (metrics (snd (get_resource_geo_ratio example_config example_remote
                     (fresh (Some 9))))) =
  [{| labels := [("name", "site"); ("country", "Russia")];
      value := VNum 1 |}].
Proof.
  rewrite (get_resource_geo_ratio_samples example_config example_remote
             (fresh (Some 9)) 9 _ _ eq_refl eq_refl).
  reflexivity.
Defined.

(** Without a resource id [get_resource_geo_ratio] sends nothing: it
    registers its family without samples and logs the missing
    attribute. *)
Theorem get_resource_geo_ratio_without_id cfg kdp self :
  resource_id self = None ->
  get_resource_geo_ratio cfg kdp self =
  (Ok tt,
   {| resource_id := None;
      metrics :=
        metrics self ++
        [family "kdp_resource_geo_ratio_prc" "Requests by Country. Ratio."
           ["name"; "country"] []];
      logger :=
        logger self
        ++ [started_record cfg "get_resource_geo_ratio";
            {| level := ERROR;
               msg := resource_name cfg
                      +:+ ": get_resource_geo_ratio failed with: "
                      +:+ "'Collector' object has no attribute 'resource_id'"
            |}];
      calls := calls self |}).
Proof.
  intros Hrid. rewrite get_resource_geo_ratio_run.
  unfold after, prepend, get_resource_geo_ratio_effect.
  rewrite Hrid. cbn [scoped records failure map metrics logger calls
                     resource_id frame_of metrics_before logger_before
                     calls_before scoped_calls].
  rewrite app_nil_r. reflexivity.
Qed.

Lemma get_resource_geo_ratio_without_id_witness :
  calls (snd (get_resource_geo_ratio example_config example_remote
                (fresh None))) = [].
Proof.
  rewrite (get_resource_geo_ratio_without_id example_config example_remote
             (fresh None) eq_refl).
  reflexivity.
Defined.

(** [get_measured_parameter_list] and [get_measured_parameter_data]
    return the records of the answer when a resource id is known and the
    answer is not empty, and [None] in every other case; they never
    raise and register no family. *)
Theorem measured_parameter_requests_return cfg kdp self :
  (fst (get_measured_parameter_list cfg kdp self) =
   Ok match resource_id self, get_measured_parameter_list_reply kdp with
      | Some _, Reply (i :: req) => Some (i :: req)
      | _, _ => None
      end /\
   metrics (snd (get_measured_parameter_list cfg kdp self)) = metrics self)
  /\
  (fst (get_measured_parameter_data cfg kdp self) =
   Ok match resource_id self, get_measured_parameter_data_reply kdp with
      | Some _, Reply (i :: req) => Some (i :: req)
      | _, _ => None
      end /\
   metrics (snd (get_measured_parameter_data cfg kdp self)) = metrics self).
Proof.
  rewrite get_measured_parameter_list_run, get_measured_parameter_data_run.
  cbn [fst snd]. rewrite !metrics_after.
  cbn [get_measured_parameter_list_effect
       get_measured_parameter_data_effect metrics].
  rewrite !app_nil_r. unfold plist_of, pdata_of, scoped, answered.
  repeat split;
    destruct (resource_id self);
    try destruct (get_measured_parameter_list_reply kdp) as [t|[|i req]];
    try destruct (get_measured_parameter_data_reply kdp) as [t'|[|i' req']];
    reflexivity.
Qed.

(** The two anomaly families always receive their samples in pairs: the
    same number of samples, with the same label tuples in the same
    order. *)
Theorem anomaly_families_are_aligned cfg kdp self :
  exists value_family percent_family,
    metrics (snd (get_resource_anomaly_list cfg kdp self)) =
    metrics self ++ [value_family; percent_family] /\
    name value_family = "kdp_resource_anomaly_max_value" /\
    name percent_family = "kdp_resource_anomaly_max_percent" /\
    map labels (samples value_family) =
    map labels (samples percent_family).
Proof.
  rewrite get_resource_anomaly_list_run. cbn [fst snd].
  rewrite metrics_after.
  cbn [get_resource_anomaly_list_effect metrics].
  eexists _, _. split; [reflexivity|]. split; [reflexivity|].
  split; [reflexivity|].
  cbn [samples family]. rewrite !map_map. reflexivity.
Qed.

(** With a resource id and a non-empty answer, each anomaly record adds
    its peak value to one family and its percentage to the other. *)
Theorem get_resource_anomaly_list_samples cfg kdp self rid i req :
  resource_id self = Some rid ->
  get_resource_anomaly_list_reply kdp = Reply (i :: req) ->
  metrics (snd (get_resource_anomaly_list cfg kdp self)) =
  metrics self ++
  [family "kdp_resource_anomaly_max_value"
     "Anomaly. Value of measured parameter in a max point."
     ["name"; "parameter"; "state"; "color"]
     (map (fun a => {| labels := anomaly_labels cfg a;
                       value := Anomaly.max_point_value a |}) (i :: req));
   family "kdp_resource_anomaly_max_percent"
     "Anomaly. Percent of deviation in measured parameter."
     ["name"; "parameter"; "state"; "color"]
     (map (fun a => {| labels := anomaly_labels cfg a;
                       value := Anomaly.max_point_percentage a |})
        (i :: req))].
Proof.
  intros Hrid Hreq. rewrite get_resource_anomaly_list_run. cbn [fst snd].
  rewrite metrics_after.
  cbn [get_resource_anomaly_list_effect metrics].
  rewrite Hrid. cbn [scoped answered]. rewrite Hreq. reflexivity.
Qed.

Lemma get_resource_anomaly_list_samples_witness :
  samples_named "kdp_resource_anomaly_max_percent"
    (metrics (snd (get_resource_anomaly_list example_config example_remote
                     (fresh (Some 9))))) =
  [{| labels := [("name", "site"); ("parameter", "SYN packets");
                 ("state", "active"); ("color", "2")];
      value := VNum 400 |}].
Proof.
  rewrite (get_resource_anomaly_list_samples example_config example_remote
             (fresh (Some 9)) 9 _ _ eq_refl eq_refl).
  reflexivity.
Defined.

(** [attack_active_list] needs no resource id to ask: without one the
    request is still sent, but the filter fails at the first record, so
    that no sample is added and the missing attribute is logged. *)
Theorem attack_active_list_without_id cfg kdp self i req :
  resource_id self = None ->
  attack_active_list_reply kdp = Reply (i :: req) ->
  let final := snd (attack_active_list cfg kdp self) in
  fst (attack_active_list cfg kdp self) = Ok tt /\
  calls final = calls self ++ ["attack_active_list"] /\
  flat_map samples (metrics final) = flat_map samples (metrics self) /\
  logger final =
  logger self
  ++ [started_record cfg "attack_active_list";
      failed_record cfg "attack_active_list" (AttributeError "resource_id")].
Proof.
  intros Hrid Hreq. cbv zeta. rewrite attack_active_list_run.
  cbn [fst snd]. rewrite calls_after, metrics_after, logger_after.
  cbn [attack_active_list_effect calls metrics logger].
  unfold attack_outcome, answered. rewrite Hrid, Hreq.
  cbn [records failure map]. rewrite flat_map_app.
  cbn [flat_map samples family app]. rewrite app_nil_r. repeat split.
Qed.

Lemma attack_active_list_without_id_witness :
  calls (snd (attack_active_list example_config example_remote
                (fresh None))) = ["attack_active_list"].
Proof.
  apply (attack_active_list_without_id example_config example_remote
           (fresh None) _ _ eq_refl eq_refl).
Defined.

(** When no attack record belongs to the resolved resource, the three
    attack families stay empty and nothing is logged but the start. *)
Theorem attack_active_list_of_other_resources cfg kdp self rid req :
  resource_id self = Some rid ->
  attack_active_list_reply kdp = Reply req ->
  Forall (fun i => Attack.resource_id i <> rid) req ->
  flat_map samples (metrics (snd (attack_active_list cfg kdp self))) =
  flat_map samples (metrics self).
Proof.
  intros Hrid Hreq Hother.
  assert (E : own_attacks rid req = []).
  { clear Hreq. induction Hother as [|i req Hi _ IH]; [reflexivity|].
    rewrite own_attacks_cons.
    apply Z.eqb_neq in Hi. rewrite Hi. exact IH. }
  rewrite attack_active_list_run. cbn [snd]. rewrite metrics_after.
  cbn [attack_active_list_effect metrics].
  unfold attack_outcome, answered. rewrite Hrid, Hreq.
  assert (R : records (match req with
                       | [] => inl AssertionError
                       | i :: l => inr (own_attacks rid (i :: l))
                       end) = []).
  { destruct req; [reflexivity | exact E]. }
  destruct req as [|i req'];
    [| cbn [records] in *; rewrite R];
    rewrite flat_map_app; cbn [flat_map samples family app map records];
    rewrite app_nil_r; reflexivity.
Qed.

Lemma attack_active_list_of_other_resources_witness :
  flat_map samples
    (metrics (snd (attack_active_list example_config example_remote
                     (fresh (Some 7))))) = [].
Proof.
  apply (attack_active_list_of_other_resources example_config example_remote
           (fresh (Some 7)) 7 _ eq_refl eq_refl).
  repeat constructor; discriminate.
Defined.

(** ** The classifier as a table *)

Lemma for_each_fold {A} (xs : list A) (f : A -> M unit)
    (g : A -> list addition) :
  (forall x rid ms lg cs,
     f x (Build_Collector rid ms lg cs) =
     (Ok tt, Build_Collector rid (fold_left place (g x) ms) lg cs)) ->
  forall rid ms lg cs,
    for_each xs f (Build_Collector rid ms lg cs) =
    (Ok tt,
     Build_Collector rid (fold_left place (flat_map g xs) ms) lg cs).
Proof.
  intros Hf. induction xs as [|x xs IH]; intros rid ms lg cs;
    cbn [for_each flat_map].
  - reflexivity.
  - rewrite run_bind, Hf, IH, fold_left_app. reflexivity.
Qed.

Lemma measured_parameter_loops_additions cfg pl pd rid ms lg cs :
  measured_parameter_loops cfg
    0 1 2 3 4 5 6 7 8 9 10 11 12 13 14 15 16 17 18 19 20 21 22
    23 24 25 26 27 28 29 30 31 32 33 34 35 36 37 38 39 40 41 42
    43 44 45 46 47 48 49
    (Some pl) (Some pd) (Build_Collector rid ms lg cs) =
  (Ok tt,
   Build_Collector rid (fold_left place (additions cfg pl pd) ms) lg cs).
Proof.
  unfold measured_parameter_loops, additions.
  rewrite run_bind. cbn [iter]. rewrite run_ret.
  apply for_each_fold. clear. intros l rid ms lg cs.
  rewrite run_bind. cbn [iter]. rewrite run_ret.
  apply for_each_fold. clear rid ms lg cs. intros d rid ms lg cs.
  unfold emitted, joins, kind_of, dtype_of.
  destruct (_ && _); [|reflexivity].
  repeat match goal with
  | |- context [String.eqb ?a ?b] =>
      destruct (String.eqb a b); [reflexivity|]
  end.
  reflexivity.
Qed.

Lemma classified_additions cfg pl pd :
  classified cfg pl pd =
  fold_left place (additions cfg pl pd) parameter_families.
Proof.
  unfold classified. rewrite measured_parameter_loops_additions.
  reflexivity.
Qed.

(** The nested loops and the ten-way comparison of [measured_parameters]
    compute what a table does: with both answers at hand, the families
    they leave are the fifty registered families with the samples of
    [additions] placed one after the other. *)
Theorem classifier_is_table_driven cfg pl pd self :
  measured_parameters cfg (Some pl) (Some pd) self =
  (Ok tt,
   {| resource_id := resource_id self;
      metrics := metrics self
                 ++ fold_left place (additions cfg pl pd) parameter_families;
      logger := logger self ++ [started_record cfg "measured_parameters"];
      calls := calls self |}).
Proof.
  rewrite measured_parameters_some, classified_additions. reflexivity.
Qed.

(** *** Counting the samples *)

Lemma length_fold_place (es : list addition) (ms : list GaugeMetricFamily) :
  length (fold_left place es ms) = length ms.
Proof.
  revert ms. induction es as [|[[h lbls] v] es IH]; intros ms;
    cbn [fold_left place]; [reflexivity|].
  rewrite IH. apply length_alter.
Qed.

Lemma count_add_sample lbls v (h : nat) (ms : list GaugeMetricFamily) :
  (h < length ms)%nat ->
  length (flat_map samples (alter (add_sample lbls v) h ms)) =
  S (length (flat_map samples ms)).
Proof.
  revert h. induction ms as [|f ms IH]; intros h Hh; cbn [length] in Hh.
  - lia.
  - destruct h as [|h]; cbn [alter list_alter flat_map].
    + unfold add_sample at 1. cbn [samples].
      rewrite !length_app. cbn [length]. lia.
    + rewrite !length_app, (IH h) by lia. lia.
Qed.

Lemma count_fold_place (es : list addition) (ms : list GaugeMetricFamily) :
  Forall (fun a => (fst (fst a) < length ms)%nat) es ->
  length (flat_map samples (fold_left place es ms)) =
  (length (flat_map samples ms) + length es)%nat.
Proof.
  revert ms. induction es as [|[[h lbls] v] es IH]; intros ms Hes;
    cbn [fold_left place length].
  - lia.
  - apply Forall_cons in Hes as [Hh Hes]. cbn [fst] in Hh.
    rewrite IH, count_add_sample by (rewrite ?length_alter; assumption).
    lia.
Qed.

Lemma kind_of_bound (n : string) (k : nat) :
  kind_of n = Some k -> (k < 10)%nat.
Proof.
  unfold kind_of.
  repeat match goal with
  | |- context [String.eqb ?a ?b] =>
      destruct (String.eqb a b); [intros [= <-]; lia|]
  end.
  discriminate.
Qed.

Lemma emitted_positions cfg l d :
  Forall (fun a => (fst (fst a) < 50)%nat) (emitted cfg l d).
Proof.
  unfold emitted. destruct (joins l d); [|constructor].
  destruct (kind_of (MeasuredParameter.short_name l)) as [k|] eqn:E;
    [|constructor].
  apply kind_of_bound in E.
  repeat (constructor; [cbn [fst]; lia|]). constructor.
Qed.

Lemma additions_positions cfg pl pd :
  Forall (fun a => (fst (fst a) < 50)%nat) (additions cfg pl pd).
Proof.
  unfold additions.
  induction pl as [|l pl IHl]; cbn [flat_map]; [constructor|].
  apply Forall_app. split; [|exact IHl].
  clear. induction pd as [|d pd IHd]; cbn [flat_map]; [constructor|].
  apply Forall_app. split; [apply emitted_positions | exact IHd].
Qed.

Lemma length_emitted cfg l pd :
  length (flat_map (emitted cfg l) pd) =
  match kind_of (MeasuredParameter.short_name l) with
  | Some _ => (5 * length (filter (fun d => joins l d = true) pd))%nat
  | None => 0%nat
  end.
Proof.
  induction pd as [|d pd IH]; cbn [flat_map].
  - destruct (kind_of _); reflexivity.
  - rewrite length_app, IH, filter_cons. unfold emitted.
    destruct (joins l d), (kind_of (MeasuredParameter.short_name l));
      rewrite ?decide_True by reflexivity;
      rewrite ?decide_False by discriminate;
      cbn [length]; lia.
Qed.

Lemma length_additions cfg pl pd :
  length (additions cfg pl pd) = (5 * length (joined_pairs pl pd))%nat.
Proof.
  unfold additions, joined_pairs.
  induction pl as [|l pl IH]; cbn [flat_map]; [reflexivity|].
  rewrite !length_app, IH, length_emitted.
  destruct (kind_of (MeasuredParameter.short_name l));
    rewrite ?length_map; cbn [length]; lia.
Qed.

(** The classifier emits exactly five samples for every pair of a
    definition of a known kind and a data point joined to it, and
    nothing else. *)
Theorem classifier_emits_five_per_pair cfg pl pd self :
  exists new,
    metrics (snd (measured_parameters cfg (Some pl) (Some pd) self)) =
    metrics self ++ new /\
    length (flat_map samples new) = (5 * length (joined_pairs pl pd))%nat.
Proof.
  rewrite measured_parameters_some, classified_additions. cbn [snd metrics].
  eexists. split; [reflexivity|].
  rewrite count_fold_place, length_additions; [reflexivity|].
  apply additions_positions.
Qed.

(** *** The labels of the samples *)

Lemma dtype_of_cases ty : In (dtype_of ty) ["dirty"; "clean"; "N/A"].
Proof.
  unfold dtype_of. destruct (ty =? 0); [cbn; tauto|].
  destruct (ty =? 2); cbn; tauto.
Qed.

Lemma emitted_labels cfg l d :
  Forall (fun a => exists ty,
            snd (fst a) = [resource_name cfg; ty] /\
            In ty ["dirty"; "clean"; "N/A"])
    (emitted cfg l d).
Proof.
  unfold emitted. destruct (joins l d); [|constructor].
  destruct (kind_of (MeasuredParameter.short_name l)); [|constructor].
  repeat (constructor;
          [exists (dtype_of (ParameterData.type d));
           split; [reflexivity | apply dtype_of_cases]|]).
  constructor.
Qed.

Lemma additions_labels cfg pl pd :
  Forall (fun a => exists ty,
            snd (fst a) = [resource_name cfg; ty] /\
            In ty ["dirty"; "clean"; "N/A"])
    (additions cfg pl pd).
Proof.
  unfold additions.
  induction pl as [|l pl IHl]; cbn [flat_map]; [constructor|].
  apply Forall_app. split; [|exact IHl].
  clear. induction pd as [|d pd IHd]; cbn [flat_map]; [constructor|].
  apply Forall_app. split; [apply emitted_labels | exact IHd].
Qed.

Lemma place_keeps_labels cfg (es : list addition)
    (ms : list GaugeMetricFamily) :
  Forall (fun a => exists ty,
            snd (fst a) = [resource_name cfg; ty] /\
            In ty ["dirty"; "clean"; "N/A"]) es ->
  Forall (fun f => labelnames f = ["resource"; "type"] /\
                   Forall (classifier_sample cfg) (samples f)) ms ->
  Forall (fun f => labelnames f = ["resource"; "type"] /\
                   Forall (classifier_sample cfg) (samples f))
    (fold_left place es ms).
Proof.
  revert ms. induction es as [|[[h lbls] v] es IH]; intros ms Hes Hms;
    cbn [fold_left place]; [exact Hms|].
  apply Forall_cons in Hes as [(ty & Hl & Hty) Hes]. cbn [fst snd] in Hl.
  apply IH; [exact Hes|].
  apply Forall_alter; [exact Hms|].
  intros f _ [Hn Hs]. unfold add_sample. cbn [labelnames samples].
  split; [exact Hn|].
  apply Forall_app. split; [exact Hs|].
  constructor; [|constructor].
  exists ty. rewrite Hn, Hl. split; [reflexivity | exact Hty].
Qed.

(** Every sample the classifier adds is labelled with the configured
    resource name and one of the types dirty, clean and N/A. *)
Theorem classifier_labels cfg pl pd self :
  exists new,
    metrics (snd (measured_parameters cfg (Some pl) (Some pd) self)) =
    metrics self ++ new /\
    Forall (fun f => Forall (classifier_sample cfg) (samples f)) new.
Proof.
  rewrite measured_parameters_some, classified_additions. cbn [snd metrics].
  eexists. split; [reflexivity|].
  eapply Forall_impl;
    [apply (place_keeps_labels cfg); [apply additions_labels|]
    | intros f [_ H]; exact H].
  unfold parameter_families, family.
  repeat (constructor; [split; [reflexivity | constructor]|]).
  constructor.
Qed.

(** *** What is not joined *)

Lemma emitted_not_joined cfg l d :
  MeasuredParameter.id l <> ParameterData.unit_check_id d ->
  emitted cfg l d = [].
Proof.
  intros H. unfold emitted, joins. apply Z.eqb_neq in H. rewrite H.
  reflexivity.
Qed.

(** A data point whose [unit_check_id] is the id of no definition adds
    no sample: the classifier behaves as if it were not in the list. *)
Theorem unmatched_point_is_ignored cfg pl pd1 d pd2 self :
  Forall (fun l => MeasuredParameter.id l <> ParameterData.unit_check_id d)
    pl ->
  measured_parameters cfg (Some pl) (Some (pd1 ++ d :: pd2)) self =
  measured_parameters cfg (Some pl) (Some (pd1 ++ pd2)) self.
Proof.
  intros Hpl. rewrite !measured_parameters_some, !classified_additions.
  assert (E : additions cfg pl (pd1 ++ d :: pd2) =
              additions cfg pl (pd1 ++ pd2)).
  { unfold additions. induction Hpl as [|l pl Hl _ IH]; cbn [flat_map];
      [reflexivity|].
    rewrite IH. f_equal.
    rewrite !flat_map_app. cbn [flat_map].
    rewrite (emitted_not_joined cfg l d Hl). reflexivity. }
  rewrite E. reflexivity.
Qed.

Lemma unmatched_point_is_ignored_witness :
  measured_parameters example_config
    (Some [example_definition "SYN packets"])
    (Some ([] ++ {| ParameterData.unit_check_id := 6;
                    ParameterData.timestamp := "2023-11-14 22:11:00";
                    ParameterData.type := 0;
                    ParameterData.value := VNum 1;
                    ParameterData.threshold := VNum 1;
                    ParameterData.mult1 := VNum 1;
                    ParameterData.mult2 := VNum 1 |}
           :: [example_point "2023-11-14 22:11:00" 2 (VNum 3)]))
    (fresh (Some 9)) =
  measured_parameters example_config
    (Some [example_definition "SYN packets"])
    (Some ([] ++ [example_point "2023-11-14 22:11:00" 2 (VNum 3)]))
    (fresh (Some 9)).
Proof.
  apply (unmatched_point_is_ignored example_config
           [example_definition "SYN packets"] []).
  repeat constructor. discriminate.
Defined.

(** *** When a request has failed *)

Lemma classifier_families_failed cfg pl pd e :
  classifier_outcome pl pd = inl e ->
  classifier_families cfg pl pd = parameter_families.
Proof.
  intros H. unfold classifier_families, fresh.
  rewrite measured_parameters_empty, H. reflexivity.
Qed.

(** Handed [None] for the definitions, or [None] for the data points
    together with at least one definition, [measured_parameters]
    returns normally: it registers its fifty families without any
    sample and logs that [None] cannot be iterated.  With an empty list
    of definitions the data points are never looked at, and nothing is
    logged but the start. *)
Theorem measured_parameters_without_answers cfg pl pd self :
  pl = None \/ (pd = None /\ exists l pl', pl = Some (l :: pl')) ->
  measured_parameters cfg pl pd self =
  (Ok tt,
   {| resource_id := resource_id self;
      metrics := metrics self ++ parameter_families;
      logger :=
        logger self
        ++ [started_record cfg "measured_parameters";
            {| level := ERROR;
               msg := resource_name cfg
                      +:+ ": measured_parameters failed with: "
                      +:+ "'NoneType' object is not iterable" |}];
      calls := calls self |}) /\
  measured_parameters cfg (Some []) pd self =
  (Ok tt,
   {| resource_id := resource_id self;
      metrics := metrics self ++ parameter_families;
      logger := logger self ++ [started_record cfg "measured_parameters"];
      calls := calls self |}).
Proof.
  intros H. rewrite !measured_parameters_run.
  unfold after, prepend, measured_parameters_effect.
  cbn [resource_id metrics logger calls frame_of metrics_before
       logger_before calls_before].
  assert (E : classifier_outcome pl pd =
              inl (TypeError "'NoneType' object is not iterable")).
  { destruct H as [->|[-> (l & pl' & ->)]]; reflexivity. }
  rewrite (classifier_families_failed cfg pl pd _ E), E.
  assert (N : classifier_families cfg (Some []) pd = parameter_families).
  { unfold classifier_families, fresh. rewrite measured_parameters_empty.
    reflexivity. }
  rewrite N, !app_nil_r. split; reflexivity.
Qed.

Lemma measured_parameters_without_answers_witness :
  measured_parameters example_config None None (fresh None) =
  (Ok tt,
   {| resource_id := None;
      metrics := parameter_families;
      logger :=
        [started_record example_config "measured_parameters";
         {| level := ERROR;
            msg := "site: measured_parameters failed with: "
                   +:+ "'NoneType' object is not iterable" |}];
      calls := [] |}).
Proof.
  apply (measured_parameters_without_answers example_config None None
           (fresh None)).
  left. reflexivity.
Defined.

(** ** Further properties of a whole pass *)

Lemma length_catalog : length catalog = 59%nat.
Proof. reflexivity. Qed.

(** The list of families is never emptied: a pass yields the families
    the collector already held followed by the fifty-nine families of
    the catalogue, so a second pass over the same collector yields the
    families of the first pass once more, ahead of its own. *)
Theorem collect_keeps_earlier_families cfg kdp kdp' self :
  exists new1 new2,
    fst (collect cfg kdp self) = Ok (metrics self ++ new1) /\
    fst (collect cfg kdp' (snd (collect cfg kdp self))) =
    Ok (metrics self ++ new1 ++ new2) /\
    map name new1 = catalog /\ map name new2 = catalog /\
    length new1 = 59%nat /\ length new2 = 59%nat.
Proof.
  exists (collect_families cfg kdp (resource_id self)),
         (collect_families cfg kdp' (resolved cfg kdp (resource_id self))).
  rewrite !collect_run. cbn [fst snd].
  rewrite !collect_state_metrics, collect_state_resource_id, <- app_assoc.
  repeat split; try apply collect_families_names.
  - rewrite <- (length_map name), collect_families_names. reflexivity.
  - rewrite <- (length_map name), collect_families_names. reflexivity.
Qed.

Lemma resolved_with_ping cfg r kdp rid :
  resolved cfg (with_ping r kdp) rid = resolved cfg kdp rid.
Proof. reflexivity. Qed.

Lemma collect_families_with_ping cfg r kdp rid :
  collect_families cfg (with_ping r kdp) rid = collect_families cfg kdp rid.
Proof.
  unfold collect_families. rewrite !resolved_with_ping.
  repeat (f_equal; [reflexivity|]). reflexivity.
Qed.

(** The answer to [ping] decides nothing but what is logged: the
    families a pass yields, the requests it sends and the resource id
    it resolves are the same whatever [ping] answers, also when it
    raises. *)
Theorem collect_goes_on_without_ping cfg kdp r self :
  fst (collect cfg (with_ping r kdp) self) = fst (collect cfg kdp self) /\
  calls (snd (collect cfg (with_ping r kdp) self)) =
  calls (snd (collect cfg kdp self)) /\
  resource_id (snd (collect cfg (with_ping r kdp) self)) =
  resource_id (snd (collect cfg kdp self)).
Proof.
  rewrite !collect_run. cbn [fst snd].
  rewrite !collect_state_metrics, !collect_state_calls,
    !collect_state_resource_id, collect_families_with_ping,
    resolved_with_ping.
  repeat split.
Qed.

Lemma scoped_faulty {A} (rid : option Z) (r : Response (list A)) :
  faulty r -> records (scoped rid r) = [] /\ returned (scoped rid r) = None.
Proof. intros [text ->]. destruct rid; split; reflexivity. Qed.

(** When every request raises, a pass still returns: it yields the
    fifty-nine families of the catalogue, none of them with a sample,
    after the families the collector held, and leaves the resource id
    as it was. *)
Theorem collect_of_unreachable_service cfg kdp self :
  unreachable kdp ->
  exists new,
    fst (collect cfg kdp self) = Ok (metrics self ++ new) /\
    map name new = catalog /\
    Forall (fun f => samples f = []) new /\
    resource_id (snd (collect cfg kdp self)) = resource_id self.
Proof.
  intros (_ & [t1 H1] & [t2 H2] & _ & H4 & H5 & _ & H7 & H8 & [t9 H9]).
  exists (collect_families cfg kdp (resource_id self)).
  rewrite collect_run. cbn [fst snd].
  rewrite collect_state_metrics, collect_state_resource_id.
  assert (R : forall rid, resolved cfg kdp rid = rid).
  { intros rid. unfold resolved. rewrite H2. reflexivity. }
  split; [reflexivity|]. split; [apply collect_families_names|].
  split; [|apply R].
  unfold collect_families. rewrite R.
  unfold classifier_effect, measured_parameters_effect, plist_of.
  cbn [metrics get_api_version_effect client_resource_list_effect
       get_resource_geo_ratio_effect get_resource_new_ip_blocks_effect
       get_resource_anomaly_list_effect attack_active_list_effect].
  destruct (scoped_faulty (resource_id self) _ H4) as [-> _].
  destruct (scoped_faulty (resource_id self) _ H5) as [_ ->].
  destruct (scoped_faulty (resource_id self) _ H7) as [-> _].
  destruct (scoped_faulty (resource_id self) _ H8) as [-> _].
  rewrite (classifier_families_failed cfg None _ _ eq_refl).
  unfold api_version_samples, api_version_outcome, attack_outcome.
  rewrite H1, H2, H9.
  cbn [answered records matching filter map app].
  unfold parameter_families, family.
  repeat (apply List.Forall_cons; [reflexivity|]).
  apply List.Forall_nil.
Qed.

Lemma collect_of_unreachable_service_witness :
  exists new,
    fst (collect example_config example_remote_down (fresh None)) =
    Ok (metrics (fresh None) ++ new) /\
    map name new = catalog /\
    Forall (fun f => samples f = []) new /\
    resource_id (snd (collect example_config example_remote_down
                        (fresh None))) =
    resource_id (fresh None).
Proof.
  apply (collect_of_unreachable_service example_config example_remote_down
           (fresh None)).
  repeat split; eexists; reflexivity.
Defined.

Lemma new_ip_blocks_share_labels_witness :
  exists f,
    metrics (snd (get_resource_new_ip_blocks example_config example_remote
                    (fresh (Some 9)))) =
    metrics (fresh (Some 9)) ++ [f] /\
    name f = "kdp_resource_new_ip_blocks_count" /\
    map labels (samples f) =
    map (fun _ => [("name", resource_name example_config)])
      [{| NewIpBlocks.timestamp := "2023-11-14 22:11:00";
          NewIpBlocks.new_ip_blocks := VInt 3 |};
       {| NewIpBlocks.timestamp := "2023-11-14 22:12:00";
          NewIpBlocks.new_ip_blocks := VInt 4 |}].
Proof.
  apply (new_ip_blocks_share_labels example_config example_remote
           (fresh (Some 9)) 9); reflexivity.
Defined.
